(** * The stock screener of [src/screener.py], embedded and verified

    The development follows the four stages of [StockScreener]:
    [get_market_snapshot], [filter_basics], [check_technical_pattern] and
    [run_screen].  pandas frames become lists of records carrying the
    canonical columns, float64 cells become the values of [Float.float],
    Python exceptions become the [Raise] branch of [Exn.result], and the
    [logging] calls become records appended to a log.

    Two parts of the code are then taken up a second time, closer to the
    libraries they run on.  [Lib] has [check_technical_pattern] over an
    interface of the float64 operations and the pandas routines, so that
    what is proved of it does not depend on how they round, sum or sort.
    [Columns] has the orchestrator over tables whose columns are reached
    by their labels, as the providers return them. *)

From Stdlib Require Import QArith ZArith List String Bool Lia Lqa Arith.
From Stdlib Require Import Permutation Sorted SetoidList Mergesort Orders.
Import ListNotations.

Set Implicit Arguments.

(* ------------------------------------------------------------------ *)
(** ** Numeric cells *)

(** A float64 cell: a number, one of the two infinities, or NaN (the
    marker pandas uses for a missing value).  Finite arithmetic is exact
    over the rationals: rounding, overflow and the sign of zero are not
    part of the model.  The special values follow IEEE 754, which is
    what numpy applies to [numpy.float64] scalars and columns (a division
    by zero yields an infinity or NaN, it does not raise). *)
Module Float.

Inductive float : Type :=
  | NaN
  | PInf
  | NInf
  | Fin (q : Q).

Definition is_nan (x : float) : bool :=
    match x with NaN => true | _ => false end.

Definition Qlt_bool (a b : Q) : bool := negb (Qle_bool b a).

Definition fneg (x : float) : float :=
    match x with
    | NaN => NaN
    | PInf => NInf
    | NInf => PInf
    | Fin q => Fin (- q)
    end.

Definition fadd (x y : float) : float :=
    match x, y with
    | NaN, _ | _, NaN => NaN
    | PInf, NInf | NInf, PInf => NaN
    | PInf, _ | _, PInf => PInf
    | NInf, _ | _, NInf => NInf
    | Fin a, Fin b => Fin (a + b)
    end.

Definition fsub (x y : float) : float := fadd x (fneg y).

  (** [inf_of_sign neg] is the infinity of the given sign. *)
Definition inf_of_sign (neg : bool) : float := if neg then NInf else PInf.

  (** Sign of a finite value; zero counts as positive. *)
Definition Qneg (q : Q) : bool := Qlt_bool q 0.

Definition fmul (x y : float) : float :=
    match x, y with
    | NaN, _ | _, NaN => NaN
    | Fin a, Fin b => Fin (a * b)
    | Fin a, PInf | PInf, Fin a =>
        if Qeq_bool a 0 then NaN else inf_of_sign (Qneg a)
    | Fin a, NInf | NInf, Fin a =>
        if Qeq_bool a 0 then NaN else inf_of_sign (negb (Qneg a))
    | PInf, PInf | NInf, NInf => PInf
    | PInf, NInf | NInf, PInf => NInf
    end.

Definition fdiv (x y : float) : float :=
    match x, y with
    | NaN, _ | _, NaN => NaN
    | Fin a, Fin b =>
        if Qeq_bool b 0
        then (if Qeq_bool a 0 then NaN else inf_of_sign (Qneg a))
        else Fin (a / b)
    | Fin _, PInf | Fin _, NInf => Fin 0
    | PInf, Fin b => inf_of_sign (Qneg b)
    | NInf, Fin b => inf_of_sign (negb (Qneg b))
    | _, _ => NaN
    end.

  (** [x > y]; false as soon as one side is NaN. *)
Definition fgt (x y : float) : bool :=
    match x, y with
    | NaN, _ | _, NaN => false
    | PInf, PInf => false
    | PInf, _ => true
    | _, PInf => false
    | NInf, _ => false
    | Fin _, NInf => true
    | Fin a, Fin b => Qlt_bool b a
    end.

  (** [x <= y]; false as soon as one side is NaN. *)
Definition fle (x y : float) : bool :=
    match x, y with
    | NaN, _ | _, NaN => false
    | _, PInf => true
    | PInf, _ => false
    | NInf, _ => true
    | Fin _, NInf => false
    | Fin a, Fin b => Qle_bool a b
    end.

  (** [x != y]; true as soon as one side is NaN. *)
Definition fne (x y : float) : bool :=
    match x, y with
    | NaN, _ | _, NaN => true
    | PInf, PInf | NInf, NInf => false
    | Fin a, Fin b => negb (Qeq_bool a b)
    | _, _ => true
    end.

  (** [Series.max()] and [Series.min()] skip NaN cells; a column without
      any number (empty or all NaN) gives NaN. *)
Definition fmax2 (x acc : float) : float :=
    if is_nan x then acc
    else if is_nan acc then x
    else if fgt x acc then x else acc.

Definition fmin2 (x acc : float) : float :=
    if is_nan x then acc
    else if is_nan acc then x
    else if fgt acc x then x else acc.

Definition series_max (col : list float) : float := fold_right fmax2 NaN col.
Definition series_min (col : list float) : float := fold_right fmin2 NaN col.

Definition fsum (col : list float) : float := fold_right fadd (Fin 0) col.

Definition of_nat (n : nat) : float := Fin (inject_Z (Z.of_nat n)).

(** [is_num x q]: the cell [x] is the number [q]. *)
Definition is_num (x : float) (q : Q) : Prop :=
  match x with
  | Fin p => p == q
  | _ => False
  end.

End Float.
Import Float.

(* ------------------------------------------------------------------ *)
(** ** Exceptions *)

(** A Python call either returns a value or raises. *)
Module Exn.

Inductive exn : Type :=
  | IndexError
  | Exception (msg : string).

Inductive result (A : Type) : Type :=
  | Return (a : A)
  | Raise (e : exn).
Arguments Return {A} a.
Arguments Raise {A} e.

Definition bind {A B : Type} (m : result A) (k : A -> result B) : result B :=
    match m with
    | Return a => k a
    | Raise e => Raise e
    end.

  (** [try: m except Exception as e: h e] *)
Definition try_except {A : Type} (m : result A) (h : exn -> result A)
    : result A :=
    match m with
    | Return a => Return a
    | Raise e => h e
    end.

End Exn.
Import Exn.

Declare Scope exn_scope.
Delimit Scope exn_scope with exn.
Notation "x <- m ;; k" := (bind m (fun x => k))
  (at level 61, m at next level, right associativity) : exn_scope.
Notation "' p <- m ;; k" := (bind m (fun p => k))
  (at level 61, p pattern, m at next level, right associativity) : exn_scope.
Open Scope exn_scope.

(* ------------------------------------------------------------------ *)
(** ** Data model *)

(** One row of the daily history frame returned by [get_daily_data]. *)
Module DailyBar.
Record t : Type := mk {
    date : Z;          (* calendar day, as a day number *)
    open : float;
    high : float;
    low : float;
    close : float;
    pct_chg : float;
    volume : float
  }.
End DailyBar.

(** One row of the market snapshot, after the column renaming and the
    [pd.to_numeric(..., errors='coerce')] pass of [get_market_snapshot]:
    a cell that failed the coercion is NaN. *)
Module QuoteRow.
Record t : Type := mk {
    code : string;
    name : string;
    price : float;
    pe : float;
    total_mv : float;
    circ_mv : float;
    pct_chg : float
  }.
End QuoteRow.

(** The dict returned by [check_technical_pattern] on a match. *)
Module ScreenHit.
Record t : Type := mk {
    code : string;
    name : string;
    price : float;
    limit_up_count : nat;
    interval_increase : float;
    position_rank : float
  }.
End ScreenHit.

(* ------------------------------------------------------------------ *)
(** ** Frame operations used by the screener *)

Section Frames.
Context {A : Type}.

  (** [df.empty] *)
Definition empty (df : list A) : bool :=
    match df with [] => true | _ => false end.

  (** [df.tail(n)]: the last [n] rows, all of them when there are fewer. *)
Definition tail (n : nat) (df : list A) : list A :=
    skipn (length df - n) df.

  (** [df.iloc[i]]: positional access, negative positions count from the
      end, a position outside the frame raises [IndexError]. *)
Definition iloc (df : list A) (i : Z) : result A :=
    let pos := if (i <? 0)%Z then (Z.of_nat (length df) + i)%Z else i in
    if (pos <? 0)%Z then Raise IndexError
    else match nth_error df (Z.to_nat pos) with
         | Some row => Return row
         | None => Raise IndexError
         end.
End Frames.

(** [col.rolling(k).mean()]: position [i] holds the mean of the [k] cells
    ending at [i], and NaN while fewer than [k] cells are available or
    when one of them is NaN.  Each window is summed on its own; pandas
    updates a running sum, which gives the same mean in exact
    arithmetic.  In float64 the two can differ, and an infinity in the
    column leaves NaN in the later means: [Lib] below leaves the
    summation open. *)
Definition window_mean (k : nat) (prefix : list float) : float :=
  if (length prefix <? k)%nat then NaN
  else fdiv (fsum (tail k prefix)) (of_nat k).

Definition rolling_mean (k : nat) (col : list float) : list float :=
  map (fun i => window_mean k (firstn (S i) col)) (seq 0 (length col)).

(** [df.sort_values('date', ascending=True).reset_index(drop=True)] *)
Module DateOrder <: TotalLeBool.
Definition t : Type := DailyBar.t.
Definition leb (x y : t) : bool := (DailyBar.date x <=? DailyBar.date y)%Z.
Theorem leb_total : forall x y, leb x y = true \/ leb y x = true.
Proof.
    intros x y. unfold leb.
    destruct (Z.leb_spec (DailyBar.date x) (DailyBar.date y)); [now left|].
    right. apply Z.leb_le. lia.
Qed.
End DateOrder.

Module DateSort := Sort DateOrder.

Definition sort_values_date (df : list DailyBar.t) : list DailyBar.t :=
  DateSort.sort df.

(* ------------------------------------------------------------------ *)
(** ** [check_technical_pattern] *)

(** [fetcher_manager.get_daily_data(code, days)]: raises, or returns the
    pair of a frame (possibly [None]) and the label of the source. *)
Definition fetcher : Type :=
  string -> nat -> result (option (list DailyBar.t) * string).

(** Row test of [df_60['pct_chg'] > 9.5]. *)
Definition limit_up (bar : DailyBar.t) : bool :=
  fgt (DailyBar.pct_chg bar) (Fin 9.5).

(** [(current_price - price_60_days_ago) / price_60_days_ago] *)
Definition interval_return (current_price price_60_days_ago : float) : float :=
  fdiv (fsub current_price price_60_days_ago) price_60_days_ago.

(** [(current_price - year_low) / (year_high - year_low)
     if year_high != year_low else 0] *)
Definition position (current_price year_high year_low : float) : float :=
  if fne year_high year_low
  then fdiv (fsub current_price year_low) (fsub year_high year_low)
  else Fin 0.

Definition year_high (df : list DailyBar.t) : float :=
  series_max (map DailyBar.high df).

Definition year_low (df : list DailyBar.t) : float :=
  series_min (map DailyBar.low df).

(** The body of the [try] block, lines 155-211. *)
Definition check_technical_pattern_body
  (get_daily_data : fetcher) (code name : string)
  : result (option ScreenHit.t) :=
  '(df, _) <- get_daily_data code 250%nat ;;
  match df with
  | None => Return None
  | Some df =>
      if empty df || (length df <? 60)%nat then Return None else
      let df := sort_values_date df in
      let df_60 := tail 60 df in
      last_row <- iloc df (-1) ;;
      let current_price := DailyBar.close last_row in
      first_row <- iloc df_60 0 ;;
      let price_60_days_ago := DailyBar.close first_row in
      let limit_up_days := filter limit_up df_60 in
      if (length limit_up_days =? 0)%nat then Return None else
      let interval_increase :=
        interval_return current_price price_60_days_ago in
      if fgt interval_increase (Fin 0.5) then Return None else
      ma5 <- iloc (rolling_mean 5 (map DailyBar.close df)) (-1) ;;
      ma10 <- iloc (rolling_mean 10 (map DailyBar.close df)) (-1) ;;
      ma20 <- iloc (rolling_mean 20 (map DailyBar.close df)) (-1) ;;
      if negb (fgt ma5 ma10 && fgt ma10 ma20) then Return None else
      let position_rank :=
        position current_price (year_high df) (year_low df) in
      if fgt position_rank (Fin 0.5) then Return None else
      Return (Some {|
        ScreenHit.code := code;
        ScreenHit.name := name;
        ScreenHit.price := current_price;
        ScreenHit.limit_up_count := length limit_up_days;
        ScreenHit.interval_increase := fmul interval_increase (Fin 100);
        ScreenHit.position_rank := fmul position_rank (Fin 100)
      |})
  end.

(** The whole method: whatever the body raises is turned into [None]. *)
Definition check_technical_pattern
  (get_daily_data : fetcher) (code name : string)
  : result (option ScreenHit.t) :=
  try_except (check_technical_pattern_body get_daily_data code name)
             (fun _ => Return None).

(** [df['close'].rolling(k).mean().iloc[-1]] on a frame that is not
    empty (lemma [iloc_rolling_mean_last] below): the mean of the last
    [k] closes. *)
Definition moving_average (k : nat) (df : list DailyBar.t) : float :=
  window_mean k (map DailyBar.close df).

(** The dict built at lines 204-211 from the sorted frame [df] and the
    two closes. *)
Definition hit_of (code name : string) (df : list DailyBar.t)
  (current_price price_60_days_ago : float) : ScreenHit.t :=
  {| ScreenHit.code := code;
     ScreenHit.name := name;
     ScreenHit.price := current_price;
     ScreenHit.limit_up_count := length (filter limit_up (tail 60 df));
     ScreenHit.interval_increase :=
       fmul (interval_return current_price price_60_days_ago) (Fin 100);
     ScreenHit.position_rank :=
       fmul (position current_price (year_high df) (year_low df)) (Fin 100)
  |}.

(** The four tests all let the frame through. *)
Definition gates_pass (df : list DailyBar.t)
  (current_price price_60_days_ago : float) : Prop :=
  Exists (fun bar => limit_up bar = true) (tail 60 df)
  /\ fgt (interval_return current_price price_60_days_ago) (Fin 0.5) = false
  /\ (fgt (moving_average 5 df) (moving_average 10 df) = true
      /\ fgt (moving_average 10 df) (moving_average 20 df) = true)
  /\ fgt (position current_price (year_high df) (year_low df)) (Fin 0.5)
     = false.

(** The decision of [check_technical_pattern] once the frame lookups
    have succeeded (lemma [check_technical_pattern_eval] below): the four
    tests in sequence on the sorted frame [df]. *)
Definition screen (code name : string) (df : list DailyBar.t)
  (current_price price_60_days_ago : float) : option ScreenHit.t :=
  let limit_up_days := filter limit_up (tail 60 df) in
  let interval_increase := interval_return current_price price_60_days_ago in
  let position_rank := position current_price (year_high df) (year_low df) in
  if (length limit_up_days =? 0)%nat then None
  else if fgt interval_increase (Fin 0.5) then None
  else if negb (fgt (moving_average 5 df) (moving_average 10 df)
                && fgt (moving_average 10 df) (moving_average 20 df))
  then None
  else if fgt position_rank (Fin 0.5) then None
  else Some (hit_of code name df current_price price_60_days_ago).

(* ------------------------------------------------------------------ *)
(** ** Logging *)

(** The [logger] calls of the module, one constructor per call site,
    with the values formatted into the message as arguments. *)
Module Log.

Inductive level : Type := INFO | WARNING | ERROR.

Inductive message : Type :=
| TryAkShare                       (* line 64 *)
| AkShareOk (rows : nat)           (* line 78 *)
| AkShareFailed (e : exn)          (* line 80 *)
| TryEfinance                      (* line 82 *)
| SnapshotFailed (e : exn)         (* line 109 *)
| FilterBefore (rows : nat)        (* line 123 *)
| FilterAfter (rows : nat)         (* line 140 *)
| ScreenStart                      (* line 221 *)
| NoSnapshot                       (* line 226 *)
| Candidates (n : nat)             (* line 233 *)
| FetchingHistory                  (* line 234 *)
| Progress (processed total : nat) (* line 251 *)
| ScreenDone (hits : nat).         (* line 257 *)

Definition record : Type := (level * message)%type.

(** A computation that writes log records and returns or raises. *)
Definition logged (A : Type) : Type := (result A * list record)%type.

Definition ret {A : Type} (a : A) : logged A := (Return a, []).

Definition lift {A : Type} (m : result A) : logged A := (m, []).

Definition emit (lvl : level) (msg : message) : logged unit :=
  (Return tt, [(lvl, msg)]).

Definition lbind {A B : Type} (m : logged A) (k : A -> logged B) : logged B :=
  match m with
  | (Return a, l1) => let (r, l2) := k a in (r, l1 ++ l2)
  | (Raise e, l1) => (Raise e, l1)
  end.

(** [try: m except Exception as e: h e]; what the body logged before it
    raised stays in the log. *)
Definition ltry {A : Type} (m : logged A) (h : exn -> logged A) : logged A :=
  match m with
  | (Return a, l1) => (Return a, l1)
  | (Raise e, l1) => let (r, l2) := h e in (r, l1 ++ l2)
  end.

Definition returned {A : Type} (m : logged A) : result A := fst m.
Definition written {A : Type} (m : logged A) : list record := snd m.

End Log.
Import Log.

Declare Scope log_scope.
Delimit Scope log_scope with log.
Notation "x <- m ;; k" := (lbind m (fun x => k))
  (at level 61, m at next level, right associativity) : log_scope.
Notation "m ;; k" := (lbind m (fun _ => k))
  (at level 61, right associativity) : log_scope.

(* ------------------------------------------------------------------ *)
(** ** [get_market_snapshot] *)

(** The two quote providers and the import of their packages.  A
    provider raises or returns its table; the rows are given with the
    columns already renamed and coerced (lines 68-77 and 89-105).  The
    tables under the headers of the providers, and the lookup of a
    column by its label, are in [Columns] below. *)
Record Providers : Type := {
  import_packages : result unit;
  stock_zh_a_spot_em : result (list QuoteRow.t);
  get_realtime_quotes : result (list QuoteRow.t)
}.

Definition get_market_snapshot (p : Providers) : logged (list QuoteRow.t) :=
  ltry
    (_ <- lift (import_packages p) ;;
     df <- ltry
             (emit INFO TryAkShare ;;
              df <- lift (stock_zh_a_spot_em p) ;;
              emit INFO (AkShareOk (length df)) ;;
              ret df)
             (fun e =>
              emit WARNING (AkShareFailed e) ;;
              emit INFO TryEfinance ;;
              lift (get_realtime_quotes p)) ;;
     ret df)%log
    (fun e => (emit ERROR (SnapshotFailed e) ;; ret [])%log).

(* ------------------------------------------------------------------ *)
(** ** [filter_basics] *)

Definition market_cap_limit : float := Fin (200 * 100000000).

Definition filter_basics (df : list QuoteRow.t) : logged (list QuoteRow.t) :=
  if empty df then ret df else
  (emit INFO (FilterBefore (length df)) ;;
   let df := filter (fun row => fle (QuoteRow.price row) (Fin 20)) df in
   let df := filter (fun row => fgt (QuoteRow.pe row) (Fin 0)) df in
   let df := filter (fun row => fle (QuoteRow.total_mv row) market_cap_limit) df in
   emit INFO (FilterAfter (length df)) ;;
   ret df)%log.

(** The three masks of [filter_basics] taken together. *)
Definition passes_basics (row : QuoteRow.t) : bool :=
  fle (QuoteRow.price row) (Fin 20)
  && fgt (QuoteRow.pe row) (Fin 0)
  && fle (QuoteRow.total_mv row) market_cap_limit.

(** [Subsequence kept df]: [kept] is [df] with some rows removed, the
    others in their order. *)
Inductive Subsequence {A : Type} : list A -> list A -> Prop :=
| Subsequence_nil : Subsequence [] []
| Subsequence_keep (x : A) (kept df : list A) :
    Subsequence kept df -> Subsequence (x :: kept) (x :: df)
| Subsequence_drop (x : A) (kept df : list A) :
    Subsequence kept df -> Subsequence kept (x :: df).

(* ------------------------------------------------------------------ *)
(** ** [run_screen] *)

(** A future of the thread pool holds the outcome of the submitted call;
    [future.result()] returns it or raises it again. *)
Definition future : Type := result (option ScreenHit.t).

(** What [run_screen] reaches outside the module: the quote providers,
    the history fetcher, and the order in which [as_completed] hands the
    futures back. *)
Record World : Type := {
  providers : Providers;
  get_daily_data : fetcher;
  as_completed : list future -> list future
}.

(** The [for future in as_completed(...)] loop, lines 248-255. *)
Fixpoint collect (completed : list future) (total processed : nat)
  (results : list ScreenHit.t) : logged (list ScreenHit.t) :=
  match completed with
  | [] => ret results
  | fut :: rest =>
      let processed := S processed in
      ((if (processed mod 50 =? 0)%nat
        then emit INFO (Progress processed total) else ret tt) ;;
       res <- lift fut ;;
       let results :=
         match res with
         | Some hit => results ++ [hit]
         | None => results
         end in
       collect rest total processed results)%log
  end.

(** The hits held by a list of futures, in the order of the list. *)
Definition hits (completed : list future) : list ScreenHit.t :=
  flat_map (fun fut =>
              match fut with
              | Return (Some hit) => [hit]
              | _ => []
              end) completed.

Definition candidates (df_basics : list QuoteRow.t) : list (string * string) :=
  map (fun row => (QuoteRow.code row, QuoteRow.name row)) df_basics.

Definition run_screen (w : World) : logged (list ScreenHit.t) :=
  (emit INFO ScreenStart ;;
   df_market <- get_market_snapshot (providers w) ;;
   if empty df_market then
     emit ERROR NoSnapshot ;;
     ret []
   else
     df_basics <- filter_basics df_market ;;
     let candidates := candidates df_basics in
     emit INFO (Candidates (length candidates)) ;;
     emit INFO FetchingHistory ;;
     let future_to_stock :=
       map (fun stock =>
              check_technical_pattern (get_daily_data w) (fst stock) (snd stock))
           candidates in
     results <- collect (as_completed w future_to_stock)
                        (length candidates) 0 [] ;;
     emit INFO (ScreenDone (length results)) ;;
     ret results)%log.

(** The futures [run_screen] submits for a snapshot [df_market], in the
    order of submission. *)
Definition submitted (w : World) (df_market : list QuoteRow.t) : list future :=
  map (fun stock =>
         check_technical_pattern (get_daily_data w) (fst stock) (snd stock))
      (candidates (filter passes_basics df_market)).

(* ------------------------------------------------------------------ *)
(** ** Fixtures: the concrete scenarios of the specification *)

Module Scenario.

(** Closing prices of a 60-bar history after its first day: 10 up to
    day 40, then 8, 9 and a final run 10, 10.5, 11, 11.5, 12; so
    MA5 = 11, MA10 = 10 and MA20 = 9 at the last bar. *)
Definition close_at (i : nat) : Q :=
  if (i <? 40)%nat then 10
  else if (i <? 50)%nat then 8
  else if (i <? 55)%nat then 9
  else nth (i - 55) [10; 10.5; 11; 11.5; 12] 12.

(** The bar of day [i]; the first day closes at [first_close], and day
    55 is the one day with a large move, of [rally] percent. *)
Definition bar (first_close : float) (low high rally : Q) (i : nat)
  : DailyBar.t :=
  let c := if (i =? 0)%nat then first_close else Fin (close_at i) in
  {| DailyBar.date := Z.of_nat i + 1;
     DailyBar.open := c;
     DailyBar.high := Fin high;
     DailyBar.low := Fin low;
     DailyBar.close := c;
     DailyBar.pct_chg := if (i =? 55)%nat then Fin rally else Fin 0;
     DailyBar.volume := Fin 1000 |}.

Definition history (first_close : float) (low high rally : Q)
  : list DailyBar.t :=
  map (bar first_close low high rally) (seq 0 60).

(** A fetcher that serves the given frame for every code. *)
Definition serve (df : list DailyBar.t) : fetcher :=
  fun _ _ => Return (Some df, "akshare"%string).

(** A fetcher whose every call raises. *)
Definition offline : fetcher :=
  fun _ _ => Raise (Exception "connection reset").

(** Scenario B: interval return 20%, position (12-6)/(26-6) = 30%. *)
Definition B : list DailyBar.t := history (Fin 10) 6 26 10.2.

(** Scenario C: as B, with interval return (12-7.5)/7.5 = 60%. *)
Definition C : list DailyBar.t := history (Fin 7.5) 6 26 10.2.

(** As B, but the largest daily move is 9.5 percent: no rally. *)
Definition calm : list DailyBar.t := history (Fin 10) 6 26 9.5.

(** As B, but the [low] column stays at 13, above the latest close. *)
Definition low_above_close : list DailyBar.t := history (Fin 10) 13 26 10.2.

(** As B, but the close at the start of the window is missing. *)
Definition missing_first_close : list DailyBar.t := history NaN 6 26 10.2.

(** Two quotes that pass the basic filter and one that does not. *)
Definition quotes : list QuoteRow.t :=
  [ QuoteRow.mk "600000" "alpha" (Fin 15) (Fin 12) (Fin 5000000000)
                (Fin 4000000000) (Fin 1.5);
    QuoteRow.mk "600001" "beta" (Fin 25) (Fin 8) (Fin 9000000000)
                (Fin 4000000000) (Fin 0.3);
    QuoteRow.mk "600002" "gamma" (Fin 7.2) (Fin 30) (Fin 800000000)
                (Fin 500000000) (Fin (-2)) ].

(** Both quote providers are down. *)
Definition no_provider : Providers :=
  {| import_packages := Return tt;
     stock_zh_a_spot_em := Raise (Exception "akshare timeout");
     get_realtime_quotes := Raise (Exception "efinance timeout") |}.

(** The first provider answers with [quotes]. *)
Definition akshare_up : Providers :=
  {| import_packages := Return tt;
     stock_zh_a_spot_em := Return quotes;
     get_realtime_quotes := Raise (Exception "efinance timeout") |}.

(** No quotes at all; the history would match for every code. *)
Definition dark_market : World :=
  {| providers := no_provider;
     get_daily_data := serve B;
     as_completed := @rev future |}.

(** Quotes are served, every history fetch raises, and the futures
    complete in the reverse of the submission order. *)
Definition histories_offline : World :=
  {| providers := akshare_up;
     get_daily_data := offline;
     as_completed := @rev future |}.

(** Quotes are served and every history is that of scenario B. *)
Definition all_match : World :=
  {| providers := akshare_up;
     get_daily_data := serve B;
     as_completed := @rev future |}.

End Scenario.

(* ------------------------------------------------------------------ *)
(** ** The rest of the module and the history script *)

(** The progress records of the collecting loop: one for each count of
    completed futures, from [processed + 1] on, that is a multiple of
    50 (lines 249-251). *)
Definition progress_marks (total processed n : nat) : list record :=
  map (fun k => (INFO, Progress k total))
      (filter (fun k => (k mod 50 =? 0)%nat) (seq (S processed) n)).

(** [df_res.sort_values('limit_up_count', ascending=False)] *)
Module CountOrder <: TotalLeBool.
Definition t : Type := ScreenHit.t.
Definition leb (x y : t) : bool :=
  (ScreenHit.limit_up_count y <=? ScreenHit.limit_up_count x)%nat.
Theorem leb_total_count : forall x y, leb x y = true \/ leb y x = true.
Proof.
  intros x y. unfold leb.
  destruct (Nat.leb_spec (ScreenHit.limit_up_count y)
                         (ScreenHit.limit_up_count x)); [now left|].
  right. apply Nat.leb_le. lia.
Qed.
Definition leb_total := leb_total_count.
End CountOrder.

Module CountSort := Sort CountOrder.

Definition sort_values_limit_up_count (df_res : list ScreenHit.t)
  : list ScreenHit.t :=
  CountSort.sort df_res.

(** What the [__main__] block of [screener.py] writes to standard
    output (lines 265-268). *)
Inductive printed : Type :=
| ResultHeading                           (* line 265 *)
| ResultTable (rows : list ScreenHit.t).  (* line 268 *)

(** The [__main__] block, lines 260-268: run the screen, print the
    heading, and print the table sorted by [limit_up_count] unless it
    is empty. *)
Definition main_block (w : World) : logged (list printed) :=
  (results <- run_screen w ;;
   let df_res := results in
   ret (ResultHeading ::
        if negb (empty df_res)
        then [ResultTable (sort_values_limit_up_count df_res)]
        else []))%log.

(** [scripts/get_all_stocks_history.py] *)
Module HistoryScript.

Inductive message : Type :=
| Rule                                         (* lines 21, 23, 37 *)
| FetchingList                                 (* line 22 *)
| ListOk (n : nat)                             (* line 27 *)
| ListFailed (e : exn)                         (* line 31 *)
| RuleAfterBlank                               (* line 35 *)
| DemoStart                                    (* line 36 *)
| FetchOk (code source : string) (rows : nat)  (* line 51 *)
| FetchFailed (code : string) (e : exn)        (* line 53 *)
| Summary (success total : nat).               (* line 55 *)

(** What the script writes: log records and prints, in order. *)
Inductive event : Type :=
| Logged (lvl : level) (msg : message)
| PrintedHeading                               (* line 28 *)
| PrintedHead (rows : list (string * string)). (* line 29 *)

(** The [DataFetcherManager] as the script uses it; a row of the stock
    list is its code and its name. *)
Record Manager : Type := {
  get_all_stock_list : result (list (string * string));
  get_daily_data : fetcher
}.

(** The local dict [results]: keys in insertion order, an assignment to
    a key already present replaces its value in place. *)
Definition dict : Type := list (string * option (list DailyBar.t)).

Fixpoint dict_set (key : string) (value : option (list DailyBar.t))
  (d : dict) : dict :=
  match d with
  | [] => [(key, value)]
  | (k, v) :: rest =>
      if String.eqb key k then (key, value) :: rest
      else (k, v) :: dict_set key value rest
  end.

Fixpoint dict_get (key : string) (d : dict)
  : option (option (list DailyBar.t)) :=
  match d with
  | [] => None
  | (k, v) :: rest => if String.eqb key k then Some v else dict_get key rest
  end.

(** [len(df)] on [None] raises this. *)
Definition len_of_None : exn :=
  Exception "TypeError: object of type 'NoneType' has no len()".

(** The [for code in target_stocks] loop, lines 45-53.  The body of the
    [try] assigns [results[code]] and increments [success_count] before
    it formats the log message, so both are kept when [len(df)] raises
    on a [None] frame. *)
Fixpoint fetch_loop (m : Manager) (target_stocks : list string)
  (results : dict) (success_count : nat) : dict * nat * list event :=
  match target_stocks with
  | [] => (results, success_count, [])
  | code :: rest =>
      match get_daily_data m code 30%nat with
      | Raise e =>
          let '(results, success_count, trace) :=
            fetch_loop m rest results success_count in
          (results, success_count, Logged ERROR (FetchFailed code e) :: trace)
      | Return (df, source) =>
          let results := dict_set code df results in
          let success_count := S success_count in
          let written :=
            match df with
            | Some rows => Logged INFO (FetchOk code source (length rows))
            | None => Logged ERROR (FetchFailed code len_of_None)
            end in
          let '(results, success_count, trace) :=
            fetch_loop m rest results success_count in
          (results, success_count, written :: trace)
      end
  end.

(** [main()], lines 17-55; the value is everything it writes. *)
Definition main (m : Manager) : list event :=
  [Logged INFO Rule; Logged INFO FetchingList; Logged INFO Rule]
  ++ match get_all_stock_list m with
     | Raise e => [Logged ERROR (ListFailed e)]
     | Return stock_list =>
         [Logged INFO (ListOk (length stock_list));
          PrintedHeading;
          PrintedHead (firstn 5 stock_list)]
         ++ [Logged INFO RuleAfterBlank; Logged INFO DemoStart;
             Logged INFO Rule]
         ++ let target_stocks := firstn 5 (map fst stock_list) in
            let '(_, success_count, trace) :=
              fetch_loop m target_stocks [] 0 in
            trace
            ++ [Logged INFO (Summary success_count (length target_stocks))]
     end.

(** The code a per-stock record is about. *)
Definition code_of (ev : event) : option string :=
  match ev with
  | Logged _ (FetchOk code _ _) => Some code
  | Logged _ (FetchFailed code _) => Some code
  | _ => None
  end.

Definition is_error (ev : event) : bool :=
  match ev with
  | Logged ERROR _ => true
  | _ => false
  end.

(** Outcomes of the fetch of one code. *)
Definition fetch_returns (m : Manager) (code : string) : bool :=
  match get_daily_data m code 30%nat with
  | Return _ => true
  | Raise _ => false
  end.

Definition fetch_has_frame (m : Manager) (code : string) : bool :=
  match get_daily_data m code 30%nat with
  | Return (Some _, _) => true
  | _ => false
  end.

End HistoryScript.

(** More fixtures. *)
Module Scenario2.

(** A bar older than every bar of [Scenario.B]: a 50 percent move at a
    close of 20, with the same high and low as the rest. *)
Definition old_bar : DailyBar.t :=
  {| DailyBar.date := 0;
     DailyBar.open := Fin 20;
     DailyBar.high := Fin 26;
     DailyBar.low := Fin 6;
     DailyBar.close := Fin 20;
     DailyBar.pct_chg := Fin 50;
     DailyBar.volume := Fin 1000 |}.

(** Interval return (12-8)/8 and position (12-6)/(18-6): both 0.5. *)
Definition on_the_bounds : list DailyBar.t :=
  Scenario.history (Fin 8) 6 18 10.2.

(** The close at the start of the window is zero. *)
Definition zero_first_close : list DailyBar.t :=
  Scenario.history (Fin 0) 6 26 10.2.

(** Four listed stocks; the second has no history frame, the third
    cannot be fetched. *)
Definition stocks : list (string * string) :=
  [("600000", "alpha"); ("600001", "beta"); ("600002", "gamma");
   ("600000", "alpha again")]%string.

Definition patchy : fetcher :=
  fun code _ =>
    if String.eqb code "600001" then Return (None, "akshare"%string)
    else if String.eqb code "600002"
         then Raise (Exception "connection reset")
         else Return (Some Scenario.B, "efinance"%string).

Definition manager : HistoryScript.Manager :=
  {| HistoryScript.get_all_stock_list := Return stocks;
     HistoryScript.get_daily_data := patchy |}.

Definition manager_down : HistoryScript.Manager :=
  {| HistoryScript.get_all_stock_list := Raise (Exception "no route");
     HistoryScript.get_daily_data := patchy |}.


End Scenario2.

(* ------------------------------------------------------------------ *)
(** ** The pattern evaluator over the numeric library as an interface *)

(** [check_technical_pattern] once more, this time with numpy and pandas
    taken as they are used: float64 cells of an unspecified type, the
    float64 operations and the pandas routines as operations of an
    interface, with the few facts about them that the properties below
    rest on.  The rounding of the arithmetic, the way pandas keeps its
    rolling sums and the sorting algorithm are left open; the definitions
    above make up the instance with exact arithmetic ([Exact.library]). *)
Module Lib.

(** A row of the daily history frame, over any type of cell. *)
Record Bar (cell : Type) : Type := mkBar {
  date : Z;
  open : cell;
  high : cell;
  low : cell;
  close : cell;
  pct_chg : cell;
  volume : cell
}.

(** The dict returned on a match, over any type of cell. *)
Record Hit (cell : Type) : Type := mkHit {
  code : string;
  name : string;
  price : cell;
  limit_up_count : nat;
  interval_increase : cell;
  position_rank : cell
}.

(** numpy and pandas as [check_technical_pattern] uses them.  [value]
    reads a float64 cell as NaN, an infinity or the rational it stands
    for (both zeros stand for 0).  Comparisons of float64 cells are
    exact, so they are those of the values; the four literals of the
    code are float64 numbers; a rolling mean has one cell for each cell
    of its column; [sort_values] returns the same rows in the order of
    the key. *)
Record Library : Type := mkLibrary {
  cell : Type;
  value : cell -> float;
  sub : cell -> cell -> cell;                      (* x - y *)
  div : cell -> cell -> cell;                      (* x / y *)
  mul : cell -> cell -> cell;                      (* x * y *)
  gt : cell -> cell -> bool;                       (* x > y *)
  ne : cell -> cell -> bool;                       (* x != y *)
  lit_9_5 : cell;                                  (* 9.5 *)
  lit_0_5 : cell;                                  (* 0.5 *)
  lit_0 : cell;                                    (* 0 *)
  lit_100 : cell;                                  (* 100 *)
  rolling_mean : nat -> list cell -> list cell;    (* col.rolling(k).mean() *)
  col_max : list cell -> cell;                     (* col.max() *)
  col_min : list cell -> cell;                     (* col.min() *)
  sort_values_date : list (Bar cell) -> list (Bar cell);
  gt_value : forall x y, gt x y = fgt (value x) (value y);
  ne_value : forall x y, ne x y = fne (value x) (value y);
  lit_9_5_value : is_num (value lit_9_5) 9.5;
  lit_0_5_value : is_num (value lit_0_5) 0.5;
  lit_0_value : is_num (value lit_0) 0;
  lit_100_value : is_num (value lit_100) 100;
  rolling_mean_length :
    forall k col, length (rolling_mean k col) = length col;
  sort_values_permutation :
    forall df, Permutation df (sort_values_date df);
  sort_values_sorted :
    forall df,
      StronglySorted (fun x y => (date x <= date y)%Z) (sort_values_date df)
}.

Section Evaluator.

Variable L : Library.

(** [fetcher_manager.get_daily_data(code, days)] *)
Definition fetcher : Type :=
  string -> nat -> result (option (list (Bar (cell L))) * string).

(** Row test of [df_60['pct_chg'] > 9.5]. *)
Definition limit_up (bar : Bar (cell L)) : bool :=
  gt L (pct_chg bar) (lit_9_5 L).

(** [(current_price - price_60_days_ago) / price_60_days_ago] *)
Definition interval_return (current_price price_60_days_ago : cell L)
  : cell L :=
  div L (sub L current_price price_60_days_ago) price_60_days_ago.

(** [(current_price - year_low) / (year_high - year_low)
     if year_high != year_low else 0] *)
Definition position (current_price year_high year_low : cell L) : cell L :=
  if ne L year_high year_low
  then div L (sub L current_price year_low) (sub L year_high year_low)
  else lit_0 L.

Definition year_high (df : list (Bar (cell L))) : cell L :=
  col_max L (map (@high _) df).

Definition year_low (df : list (Bar (cell L))) : cell L :=
  col_min L (map (@low _) df).

(** The body of the [try] block, lines 155-211. *)
Definition check_technical_pattern_body
  (get_daily_data : fetcher) (code name : string)
  : result (option (Hit (cell L))) :=
  '(df, _) <- get_daily_data code 250%nat ;;
  match df with
  | None => Return None
  | Some df =>
      if empty df || (length df <? 60)%nat then Return None else
      let df := sort_values_date L df in
      let df_60 := tail 60 df in
      last_row <- iloc df (-1) ;;
      let current_price := close last_row in
      first_row <- iloc df_60 0 ;;
      let price_60_days_ago := close first_row in
      let limit_up_days := filter limit_up df_60 in
      if (length limit_up_days =? 0)%nat then Return None else
      let interval_increase :=
        interval_return current_price price_60_days_ago in
      if gt L interval_increase (lit_0_5 L) then Return None else
      ma5 <- iloc (rolling_mean L 5 (map (@close _) df)) (-1) ;;
      ma10 <- iloc (rolling_mean L 10 (map (@close _) df)) (-1) ;;
      ma20 <- iloc (rolling_mean L 20 (map (@close _) df)) (-1) ;;
      if negb (gt L ma5 ma10 && gt L ma10 ma20) then Return None else
      let position_rank :=
        position current_price (year_high df) (year_low df) in
      if gt L position_rank (lit_0_5 L) then Return None else
      Return (Some {|
        code := code;
        name := name;
        price := current_price;
        limit_up_count := length limit_up_days;
        interval_increase := mul L interval_increase (lit_100 L);
        position_rank := mul L position_rank (lit_100 L)
      |})
  end.

(** The whole method: whatever the body raises is turned into [None]. *)
Definition check_technical_pattern
  (get_daily_data : fetcher) (code name : string)
  : result (option (Hit (cell L))) :=
  try_except (check_technical_pattern_body get_daily_data code name)
             (fun _ => Return None).

(** [df['close'].rolling(k).mean().iloc[-1]] on a frame that is not
    empty. *)
Definition moving_average (k : nat) (df : list (Bar (cell L))) : cell L :=
  last (rolling_mean L k (map (@close _) df)) (lit_0 L).

(** The dict built at lines 204-211. *)
Definition hit_of (code name : string) (df : list (Bar (cell L)))
  (current_price price_60_days_ago : cell L) : Hit (cell L) :=
  {| code := code;
     name := name;
     price := current_price;
     limit_up_count := length (filter limit_up (tail 60 df));
     interval_increase :=
       mul L (interval_return current_price price_60_days_ago) (lit_100 L);
     position_rank :=
       mul L (position current_price (year_high df) (year_low df))
           (lit_100 L)
  |}.

(** The four tests all let the frame through. *)
Definition gates_pass (df : list (Bar (cell L)))
  (current_price price_60_days_ago : cell L) : Prop :=
  Exists (fun bar => limit_up bar = true) (tail 60 df)
  /\ gt L (interval_return current_price price_60_days_ago) (lit_0_5 L)
     = false
  /\ (gt L (moving_average 5 df) (moving_average 10 df) = true
      /\ gt L (moving_average 10 df) (moving_average 20 df) = true)
  /\ gt L (position current_price (year_high df) (year_low df)) (lit_0_5 L)
     = false.

(** The decision once the frame lookups have succeeded: the four tests
    in sequence on the sorted frame [df]. *)
Definition screen (code name : string) (df : list (Bar (cell L)))
  (current_price price_60_days_ago : cell L) : option (Hit (cell L)) :=
  if (length (filter limit_up (tail 60 df)) =? 0)%nat then None
  else if gt L (interval_return current_price price_60_days_ago) (lit_0_5 L)
  then None
  else if negb (gt L (moving_average 5 df) (moving_average 10 df)
                && gt L (moving_average 10 df) (moving_average 20 df))
  then None
  else if gt L (position current_price (year_high df) (year_low df))
             (lit_0_5 L)
  then None
  else Some (hit_of code name df current_price price_60_days_ago).

End Evaluator.


(** Facts of IEEE 754 arithmetic in round-to-nearest, as far as the
    bounds below need them.  On numbers, each operation returns the
    rounding [rnd] of the exact result (an infinity when it overflows);
    rounding keeps the order, leaves the value of a cell, its opposite
    and small integers as they are; the difference of two different
    numbers is not zero; a number other than zero divided by zero is an
    infinity, of a sign that depends on the sign of the zero.  On a
    column of numbers, [max()] and [min()] are cells of the column that
    bound it. *)
Record Ieee (L : Library) : Type := mkIeee {
  rnd : Q -> float;
  rnd_monotone : forall a b, a <= b -> fle (rnd a) (rnd b) = true;
  rnd_value : forall x q, value L x = Fin q -> is_num (rnd q) q;
  rnd_opposite : forall x q, value L x = Fin q -> is_num (rnd (- q)) (- q);
  rnd_integer :
    forall z, (Z.abs z <= 1000)%Z -> is_num (rnd (inject_Z z)) (inject_Z z);
  sub_rounds :
    forall x y a b, value L x = Fin a -> value L y = Fin b ->
      value L (sub L x y) = rnd (a - b);
  div_rounds :
    forall x y a b, value L x = Fin a -> value L y = Fin b -> ~ b == 0 ->
      value L (div L x y) = rnd (a / b);
  div_by_zero :
    forall x y a b, value L x = Fin a -> value L y = Fin b ->
      b == 0 -> ~ a == 0 ->
      value L (div L x y) = PInf \/ value L (div L x y) = NInf;
  mul_rounds :
    forall x y a b, value L x = Fin a -> value L y = Fin b ->
      value L (mul L x y) = rnd (a * b);
  sub_not_zero :
    forall x y a b, value L x = Fin a -> value L y = Fin b -> ~ a == b ->
      ~ is_num (value L (sub L x y)) 0;
  col_min_bounds :
    forall col, col <> [] ->
      Forall (fun x => exists q, value L x = Fin q) col ->
      In (col_min L col) col
      /\ forall x, In x col -> fle (value L (col_min L col)) (value L x) = true;
  col_max_bounds :
    forall col, col <> [] ->
      Forall (fun x => exists q, value L x = Fin q) col ->
      In (col_max L col) col
      /\ forall x, In x col -> fle (value L x) (value L (col_max L col)) = true
}.

End Lib.

(* ------------------------------------------------------------------ *)
(** ** The library with exact arithmetic *)

(** The numeric cells and the frame routines of the first part of this
    file as an instance of the interface: cells are their own values, a
    rolling mean sums each window exactly, and the sort is the stable
    merge sort on the date. *)
Module Exact.

Definition of_daily (b : DailyBar.t) : Lib.Bar float :=
  {| Lib.date := DailyBar.date b;
     Lib.open := DailyBar.open b;
     Lib.high := DailyBar.high b;
     Lib.low := DailyBar.low b;
     Lib.close := DailyBar.close b;
     Lib.pct_chg := DailyBar.pct_chg b;
     Lib.volume := DailyBar.volume b |}.

Definition to_daily (b : Lib.Bar float) : DailyBar.t :=
  {| DailyBar.date := Lib.date b;
     DailyBar.open := Lib.open b;
     DailyBar.high := Lib.high b;
     DailyBar.low := Lib.low b;
     DailyBar.close := Lib.close b;
     DailyBar.pct_chg := Lib.pct_chg b;
     DailyBar.volume := Lib.volume b |}.

Definition sort_bars (df : list (Lib.Bar float)) : list (Lib.Bar float) :=
  map of_daily (sort_values_date (map to_daily df)).

Definition library : Lib.Library.
Proof.
  refine {| Lib.cell := float;
            Lib.value := fun x => x;
            Lib.sub := fsub;
            Lib.div := fdiv;
            Lib.mul := fmul;
            Lib.gt := fgt;
            Lib.ne := fne;
            Lib.lit_9_5 := Fin 9.5;
            Lib.lit_0_5 := Fin 0.5;
            Lib.lit_0 := Fin 0;
            Lib.lit_100 := Fin 100;
            Lib.rolling_mean := rolling_mean;
            Lib.col_max := series_max;
            Lib.col_min := series_min;
            Lib.sort_values_date := sort_bars;
            Lib.gt_value := fun _ _ => eq_refl;
            Lib.ne_value := fun _ _ => eq_refl;
            Lib.lit_9_5_value := Qeq_refl 9.5;
            Lib.lit_0_5_value := Qeq_refl 0.5;
            Lib.lit_0_value := Qeq_refl 0;
            Lib.lit_100_value := Qeq_refl 100;
            Lib.rolling_mean_length := _;
            Lib.sort_values_permutation := _;
            Lib.sort_values_sorted := _ |}.
  - (* a rolling mean has one cell for each cell of its column *)
    intros k col. unfold rolling_mean. now rewrite length_map, length_seq.
  - (* the sorted frame has the rows of the frame *)
    intros df. unfold sort_bars, sort_values_date.
    rewrite <- (map_id df) at 1.
    rewrite <- (map_ext (fun b => of_daily (to_daily b)) (fun b => b)
                  (fun b => match b with Lib.mkBar _ _ _ _ _ _ _ => eq_refl end)
                  df).
    rewrite <- map_map.
    apply Permutation_map, DateSort.Permuted_sort.
  - (* and has them in the order of the dates *)
    intros df. unfold sort_bars, sort_values_date.
    assert (Htrans : Relations_1.Transitive
                       (fun x y => is_true (DateOrder.leb x y))).
    { intros x y z. unfold is_true, DateOrder.leb. rewrite !Z.leb_le. lia. }
    pose proof (Sorted_StronglySorted Htrans
                  (DateSort.Sorted_sort (map to_daily df))) as Hs.
    induction Hs as [|b l _ IH Hall]; [constructor|].
    cbn [map]. constructor; [exact IH|].
    rewrite Forall_map. revert Hall. apply Forall_impl.
    intros c Hc. unfold is_true, DateOrder.leb in Hc.
    apply Z.leb_le in Hc. exact Hc.
Defined.

Definition of_hit (hit : ScreenHit.t) : Lib.Hit float :=
  {| Lib.code := ScreenHit.code hit;
     Lib.name := ScreenHit.name hit;
     Lib.price := ScreenHit.price hit;
     Lib.limit_up_count := ScreenHit.limit_up_count hit;
     Lib.interval_increase := ScreenHit.interval_increase hit;
     Lib.position_rank := ScreenHit.position_rank hit |}.

(** A fetcher of the first part as a fetcher over the interface. *)
Definition lift (fm : fetcher) : Lib.fetcher library :=
  fun code days =>
    '(df, src) <- fm code days ;;
    Return (option_map (map of_daily) df, src).

(** A fetcher that serves the given frame for every code. *)
Definition serve (df : list DailyBar.t) : Lib.fetcher library :=
  lift (Scenario.serve df).

End Exact.

(* ------------------------------------------------------------------ *)
(** ** The orchestrator over tables with named columns *)

(** [get_market_snapshot], [filter_basics] and [run_screen] once more,
    with the quote table as pandas holds it: a list of column labels
    and rows of cells, a column being reached through its label.  The
    providers hand over their tables under their own headers; a label
    that is looked up and is not there raises [KeyError]. *)
Module Columns.

(** A cell of a quote table: a float64 number or a Python string. *)
Inductive cell : Type :=
| Num (x : float)
| Str (s : string).

Record DataFrame : Type := mkFrame {
  columns : list string;
  rows : list (list cell)
}.

(** [pd.DataFrame()] *)
Definition no_frame : DataFrame := {| columns := []; rows := [] |}.

(** [df.empty]: one of the two axes has length 0. *)
Definition empty (df : DataFrame) : bool :=
  match columns df, rows df with
  | [], _ | _, [] => true
  | _, _ => false
  end.

(** [len(df)] *)
Definition len (df : DataFrame) : nat := length (rows df).

(** [col in df.columns] *)
Definition has_column (col : string) (df : DataFrame) : bool :=
  existsb (String.eqb col) (columns df).

(** Position of a label among the columns. *)
Fixpoint index (col : string) (cols : list string) : option nat :=
  match cols with
  | [] => None
  | c :: rest =>
      if String.eqb col c then Some 0%nat else option_map S (index col rest)
  end.

Definition KeyError (col : string) : exn :=
  Exception ("KeyError: '" ++ col ++ "'").

Definition TypeError (msg : string) : exn :=
  Exception ("TypeError: " ++ msg).

(** How many columns carry a label. *)
Definition occurrences (col : string) (df : DataFrame) : nat :=
  length (filter (String.eqb col) (columns df)).

(** [df[col]]: the cells of a column, [KeyError] without it.  The
    lookups of [filter_basics] are for labels that the snapshot stage
    has left on one column at most. *)
Definition getitem (df : DataFrame) (col : string) : result (list cell) :=
  match index col (columns df) with
  | Some i => Return (map (fun row => nth i row (Num NaN)) (rows df))
  | None => Raise (KeyError col)
  end.

(** [df.rename(columns=rename_map)]: labels outside the map stay. *)
Definition rename (rename_map : list (string * string)) (df : DataFrame)
  : DataFrame :=
  {| columns :=
       map (fun c =>
              match find (fun kv => String.eqb (fst kv) c) rename_map with
              | Some kv => snd kv
              | None => c
              end) (columns df);
     rows := rows df |}.

(** One cell through [pd.to_numeric(..., errors='coerce')]; [parse]
    reads a string, giving NaN when it is not a number. *)
Definition to_numeric (parse : string -> float) (c : cell) : cell :=
  match c with
  | Num x => Num x
  | Str s => Num (parse s)
  end.

Fixpoint update (i : nat) (f : cell -> cell) (row : list cell) : list cell :=
  match row, i with
  | [], _ => []
  | c :: rest, O => f c :: rest
  | c :: rest, S j => c :: update j f rest
  end.

(** [df[col] = pd.to_numeric(df[col], errors='coerce')] for a label
    that is there: [df[col]] is a column when the label is there once,
    and a frame, which [pd.to_numeric] refuses, when it is there more
    than once. *)
Definition coerce (parse : string -> float) (df : DataFrame) (col : string)
  : result DataFrame :=
  match index col (columns df) with
  | Some i =>
      if (occurrences col df =? 1)%nat
      then Return {| columns := columns df;
                     rows := map (update i (to_numeric parse)) (rows df) |}
      else Raise (TypeError "arg must be a list, tuple, 1-d array, or Series")
  | None => Raise (KeyError col)
  end.

(** The loop of lines 102-105 over the labels that are left. *)
Fixpoint coerce_all (parse : string -> float) (cols : list string)
  (df : DataFrame) : result DataFrame :=
  match cols with
  | [] => Return df
  | col :: rest =>
      df <- (if has_column col df then coerce parse df col else Return df) ;;
      coerce_all parse rest df
  end.

(** The mask of a comparison with a number, cell by cell; Python
    refuses to compare a string with a number. *)
Fixpoint mask (test : float -> bool) (cells : list cell)
  : result (list bool) :=
  match cells with
  | [] => Return []
  | Num x :: rest => m <- mask test rest ;; Return (test x :: m)
  | Str _ :: rest =>
      Raise (TypeError "comparison not supported between str and int")
  end.

(** The rows a mask keeps. *)
Fixpoint select (m : list bool) (rows : list (list cell))
  : list (list cell) :=
  match m, rows with
  | b :: m', row :: rest =>
      if b then row :: select m' rest else select m' rest
  | _, _ => []
  end.

(** [df[test(df[col])]] *)
Definition keep_where (test : float -> bool) (col : string) (df : DataFrame)
  : result DataFrame :=
  cells <- getitem df col ;;
  m <- mask test cells ;;
  Return {| columns := columns df; rows := select m (rows df) |}.

(** The providers, each with the table it returns under its own
    headers, and the reading of a string as a number. *)
Record Providers : Type := {
  import_packages : result unit;
  stock_zh_a_spot_em : result DataFrame;
  get_realtime_quotes : result DataFrame;
  parse : string -> float
}.

Definition akshare_rename_map : list (string * string) :=
  [("代码", "code"); ("名称", "name"); ("最新价", "price");
   ("市盈率-动态", "pe"); ("总市值", "total_mv"); ("流通市值", "circ_mv");
   ("涨跌幅", "pct_chg")]%string.

Definition efinance_rename_map : list (string * string) :=
  [("股票代码", "code"); ("股票名称", "name"); ("最新价", "price");
   ("市盈率(动)", "pe"); ("总市值", "total_mv"); ("流通市值", "circ_mv");
   ("涨跌幅", "pct_chg")]%string.

Definition numeric_cols : list string :=
  ["price"; "pe"; "total_mv"; "circ_mv"; "pct_chg"]%string.

(** Lines 88-105: the second renaming and the coercion of the numeric
    columns that are there. *)
Definition normalise (parse : string -> float) (df : DataFrame)
  : result DataFrame :=
  let df := if has_column "股票代码" df
            then rename efinance_rename_map df else df in
  coerce_all parse numeric_cols df.

Definition get_market_snapshot (p : Providers) : logged DataFrame :=
  ltry
    (_ <- lift (import_packages p) ;;
     df <- ltry
             (emit INFO TryAkShare ;;
              df <- lift (stock_zh_a_spot_em p) ;;
              let df := rename akshare_rename_map df in
              emit INFO (AkShareOk (len df)) ;;
              ret df)
             (fun e =>
              emit WARNING (AkShareFailed e) ;;
              emit INFO TryEfinance ;;
              lift (get_realtime_quotes p)) ;;
     lift (normalise (parse p) df))%log
    (fun e => (emit ERROR (SnapshotFailed e) ;; ret no_frame)%log).

Definition filter_basics (df : DataFrame) : logged DataFrame :=
  if empty df then ret df else
  (emit INFO (FilterBefore (len df)) ;;
   df <- lift (keep_where (fun x => fle x (Fin 20)) "price" df) ;;
   df <- lift (keep_where (fun x => fgt x (Fin 0)) "pe" df) ;;
   df <- lift (keep_where (fun x => fle x market_cap_limit) "total_mv" df) ;;
   emit INFO (FilterAfter (len df)) ;;
   ret df)%log.

(** [df[labels]] for a list of labels raises [KeyError] with the
    labels that are not there. *)
Definition not_in_index (missing : list string) : exn :=
  Exception ("KeyError: " ++ String.concat ", " missing ++ " not in index").

(** [df[['code', 'name']].to_dict('records')] *)
Definition records (df : DataFrame) : result (list (cell * cell)) :=
  match filter (fun col => negb (has_column col df)) ["code"; "name"]%string
  with
  | [] =>
      codes <- getitem df "code" ;;
      names <- getitem df "name" ;;
      Return (combine codes names)
  | missing => Raise (not_in_index missing)
  end.

(** The code and the name of a candidate as [check_technical_pattern]
    takes them; both providers give them as strings. *)
Definition text (c : cell) : string :=
  match c with
  | Str s => s
  | Num _ => EmptyString
  end.

Record World : Type := {
  providers : Providers;
  get_daily_data : fetcher;
  as_completed : list future -> list future
}.

(** The futures [run_screen] submits, in the order of the candidates. *)
Definition submit (w : World) (candidates : list (cell * cell))
  : list future :=
  map (fun stock =>
         check_technical_pattern (get_daily_data w)
           (text (fst stock)) (text (snd stock)))
      candidates.

Definition run_screen (w : World) : logged (list ScreenHit.t) :=
  (emit INFO ScreenStart ;;
   df_market <- get_market_snapshot (providers w) ;;
   if empty df_market then
     emit ERROR NoSnapshot ;;
     ret []
   else
     df_basics <- filter_basics df_market ;;
     candidates <- lift (records df_basics) ;;
     emit INFO (Candidates (length candidates)) ;;
     emit INFO FetchingHistory ;;
     let future_to_stock := submit w candidates in
     results <- collect (as_completed w future_to_stock)
                        (length candidates) 0 [] ;;
     emit INFO (ScreenDone (length results)) ;;
     ret results)%log.

(** [numeric col df]: the column is there and holds numbers only. *)
Definition numeric (col : string) (df : DataFrame) : Prop :=
  exists i,
    index col (columns df) = Some i
    /\ Forall (fun row => exists x, nth i row (Num NaN) = Num x) (rows df).

(** The test of one mask on a row, given the position of its column. *)
Definition row_test (test : float -> bool) (i : nat) (row : list cell)
  : bool :=
  match nth i row (Num NaN) with
  | Num x => test x
  | Str _ => false
  end.

(** The three masks of [filter_basics] on a row, given the positions of
    the three columns. *)
Definition passes (i_price i_pe i_mv : nat) (row : list cell) : bool :=
  row_test (fun x => fle x (Fin 20)) i_price row
  && row_test (fun x => fgt x (Fin 0)) i_pe row
  && row_test (fun x => fle x market_cap_limit) i_mv row.

(** The columns [filter_basics] looks up, in the order of the lookups. *)
Definition filter_columns : list string :=
  ["price"; "pe"; "total_mv"]%string.

(** Fixtures. *)

Definition read (s : string) : float :=
  if String.eqb s "12.5" then Fin 12.5 else NaN.

(** A table under the headers of AkShare. *)
Definition akshare_table : DataFrame :=
  {| columns := ["序号"; "代码"; "名称"; "最新价"; "涨跌幅"; "市盈率-动态";
                 "总市值"; "流通市值"]%string;
     rows :=
       [ [Num (Fin 1); Str "600000"; Str "alpha"; Num (Fin 15);
          Num (Fin 1.5); Str "12.5"; Num (Fin 5000000000);
          Num (Fin 4000000000)];
         [Num (Fin 2); Str "600001"; Str "beta"; Num (Fin 25);
          Num (Fin 0.3); Num (Fin 8); Num (Fin 9000000000);
          Num (Fin 4000000000)];
         [Num (Fin 3); Str "600002"; Str "gamma"; Num (Fin 7.2);
          Num (Fin (-2)); Str "-"; Num (Fin 800000000);
          Num (Fin 500000000)] ] |}.

(** A table under the headers of efinance: the price-earnings ratio
    comes as 动态市盈率. *)
Definition efinance_table : DataFrame :=
  {| columns := ["股票代码"; "股票名称"; "涨跌幅"; "最新价"; "动态市盈率";
                 "总市值"; "流通市值"]%string;
     rows :=
       [ [Str "600000"; Str "alpha"; Num (Fin 1.5); Num (Fin 15);
          Num (Fin 12); Num (Fin 5000000000); Num (Fin 4000000000)];
         [Str "600001"; Str "beta"; Num (Fin 0.3); Num (Fin 25);
          Num (Fin 8); Num (Fin 9000000000); Num (Fin 4000000000)] ] |}.

Definition no_provider : Providers :=
  {| import_packages := Return tt;
     stock_zh_a_spot_em := Raise (Exception "akshare timeout");
     get_realtime_quotes := Raise (Exception "efinance timeout");
     parse := read |}.

Definition akshare_up : World :=
  {| providers :=
       {| import_packages := Return tt;
          stock_zh_a_spot_em := Return akshare_table;
          get_realtime_quotes := Raise (Exception "efinance timeout");
          parse := read |};
     get_daily_data := Scenario.serve Scenario.B;
     as_completed := @rev future |}.

Definition efinance_only : World :=
  {| providers :=
       {| import_packages := Return tt;
          stock_zh_a_spot_em := Raise (Exception "akshare timeout");
          get_realtime_quotes := Return efinance_table;
          parse := read |};
     get_daily_data := Scenario.serve Scenario.B;
     as_completed := @rev future |}.

Definition dark_market : World :=
  {| providers := no_provider;
     get_daily_data := Scenario.serve Scenario.B;
     as_completed := @rev future |}.

End Columns.

(* ------------------------------------------------------------------ *)
(** * Properties *)

(** ** Comparisons of cells *)

Lemma Qlt_bool_iff (a b : Q) : Qlt_bool a b = true <-> a < b.
Proof.
  unfold Qlt_bool. rewrite negb_true_iff. split.
  - intros H. apply Qnot_le_lt. intro Hle.
    apply Qle_bool_iff in Hle. congruence.
  - intros H. destruct (Qle_bool b a) eqn:E; [|reflexivity].
    apply Qle_bool_iff in E. exfalso. apply (Qlt_not_le _ _ H E).
Qed.

Lemma Qlt_bool_false_iff (a b : Q) : Qlt_bool a b = false <-> b <= a.
Proof.
  unfold Qlt_bool. rewrite negb_false_iff. apply Qle_bool_iff.
Qed.

Lemma fgt_num (x y : float) (p q : Q) :
  is_num x p -> is_num y q -> fgt x y = Qlt_bool q p.
Proof.
  destruct x as [| | |a], y as [| | |b]; simpl; try contradiction.
  intros Ha Hb. unfold Qlt_bool. f_equal.
  apply Qleb_comp; assumption.
Qed.

Lemma is_num_compat (x : float) (p q : Q) :
  is_num x p -> p == q -> is_num x q.
Proof.
  destruct x; simpl; try contradiction. intros H1 H2. now rewrite H1.
Qed.

Lemma fmul_num (x y : float) (p q : Q) :
  is_num x p -> is_num y q -> is_num (fmul x y) (p * q).
Proof.
  destruct x as [| | |a], y as [| | |b]; simpl; try contradiction.
  intros Ha Hb. now rewrite Ha, Hb.
Qed.

(** ** Frame lookups *)

Lemma length_tail (A : Type) (n : nat) (df : list A) :
  length (tail n df) = Nat.min n (length df).
Proof. unfold tail. rewrite length_skipn. lia. Qed.

Lemma length_sort_values_date (df : list DailyBar.t) :
  length (sort_values_date df) = length df.
Proof.
  symmetry. apply Permutation_length, DateSort.Permuted_sort.
Qed.

Lemma iloc_last_row (A : Type) (df : list A) :
  df <> [] ->
  exists row, iloc df (-1) = Return row
              /\ nth_error df (length df - 1) = Some row.
Proof.
  intros Hne.
  assert (Hlen : (0 < length df)%nat)
    by (destruct df; [congruence | simpl; lia]).
  destruct (nth_error df (length df - 1)) as [row|] eqn:Hnth.
  - exists row. split; [|reflexivity].
    unfold iloc. change (-1 <? 0)%Z with true. cbv beta iota zeta.
    replace (Z.of_nat (length df) + -1 <? 0)%Z with false
      by (symmetry; apply Z.ltb_ge; lia).
    replace (Z.to_nat (Z.of_nat (length df) + -1)) with (length df - 1)%nat
      by lia.
    now rewrite Hnth.
  - apply nth_error_None in Hnth. lia.
Qed.

Lemma iloc_first_row (A : Type) (df : list A) :
  df <> [] ->
  exists row, iloc df 0 = Return row /\ hd_error df = Some row.
Proof.
  intros Hne. destruct df as [|row rest]; [congruence|].
  exists row. split; reflexivity.
Qed.

Lemma iloc_rolling_mean_last (k : nat) (col : list float) :
  col <> [] ->
  iloc (rolling_mean k col) (-1) = Return (window_mean k col).
Proof.
  intros Hne.
  assert (Hn : exists n, length col = S n).
  { destruct col; [congruence|]. simpl. eauto. }
  destruct Hn as [n Hn].
  assert (Hr : rolling_mean k col <> []).
  { unfold rolling_mean. rewrite Hn. rewrite seq_S. rewrite map_app.
    intro H. apply app_eq_nil in H. destruct H as [_ H]. discriminate H. }
  destruct (iloc_last_row Hr) as (x & Hx & Hnth).
  rewrite Hx. f_equal.
  unfold rolling_mean in Hnth.
  rewrite length_map, length_seq, Hn in Hnth.
  rewrite seq_S, map_app in Hnth.
  rewrite nth_error_app2 in Hnth
    by (rewrite length_map, length_seq; lia).
  rewrite length_map, length_seq in Hnth.
  replace (S n - 1 - n)%nat with 0%nat in Hnth by lia.
  cbn [map nth_error Nat.add] in Hnth.
  rewrite <- Hn, firstn_all in Hnth. congruence.
Qed.

(** ** More on frames *)

Lemma iloc_last_nth (A : Type) (df : list A) (row : A) :
  iloc df (-1) = Return row ->
  df <> [] /\ nth_error df (length df - 1) = Some row.
Proof.
  intros H. destruct df as [|x rest]; [discriminate H|].
  assert (Hne : x :: rest <> []) by discriminate.
  split; [exact Hne|].
  destruct (iloc_last_row Hne) as (row' & Hrow & Hnth). congruence.
Qed.

Lemma In_tail (A : Type) (n : nat) (df : list A) (x : A) :
  In x (tail n df) -> In x df.
Proof.
  unfold tail. intros H.
  rewrite <- (firstn_skipn (length df - n) df). apply in_or_app. now right.
Qed.

Lemma tail_map (A B : Type) (f : A -> B) (n : nat) (df : list A) :
  tail n (map f df) = map f (tail n df).
Proof. unfold tail. now rewrite length_map, skipn_map. Qed.

(** The last row of a frame is in each of its tails. *)
Lemma last_row_in_tail (A : Type) (n : nat) (df : list A) (row : A) :
  (0 < n)%nat ->
  nth_error df (length df - 1) = Some row ->
  nth_error (tail n df) (length (tail n df) - 1) = Some row.
Proof.
  intros Hn Hnth.
  assert (Hlen : (0 < length df)%nat).
  { destruct df; [destruct (length [] - 1)%nat; discriminate | simpl; lia]. }
  rewrite length_tail. unfold tail. rewrite nth_error_skipn.
  rewrite <- Hnth. f_equal. lia.
Qed.

Lemma iloc_last_tail (A : Type) (n : nat) (df : list A) :
  (0 < n)%nat -> df <> [] -> iloc (tail n df) (-1) = iloc df (-1).
Proof.
  intros Hn Hne.
  destruct (iloc_last_row Hne) as (row & -> & Hnth).
  assert (Ht : tail n df <> []).
  { intro H. apply (f_equal (@length _)) in H. rewrite length_tail in H.
    destruct df; [congruence | simpl in H; lia]. }
  destruct (iloc_last_row Ht) as (row' & -> & Hnth').
  rewrite (@last_row_in_tail _ n df row Hn Hnth) in Hnth'. congruence.
Qed.

(** In a frame in order, every row is the last one or stands before it
    in the order. *)
Lemma strongly_sorted_last (A : Type) (R : A -> A -> Prop) (l : list A)
  (x : A) :
  StronglySorted R l ->
  nth_error l (length l - 1) = Some x ->
  forall y, In y l -> y = x \/ R y x.
Proof.
  induction 1 as [|a t Hs IH Hall]; intros Hnth y Hy.
  - destruct Hy.
  - destruct t as [|b t'].
    + cbn in Hnth. injection Hnth as <-. destruct Hy as [->|[]]. now left.
    + assert (Hnth' : nth_error (b :: t') (length (b :: t') - 1) = Some x).
      { cbn [length] in *. replace (S (S (length t')) - 1)%nat
          with (S (length t')) in Hnth by lia.
        cbn [nth_error] in Hnth.
        replace (S (length t') - 1)%nat with (length t') by lia.
        exact Hnth. }
      destruct Hy as [<-|Hy].
      * right. rewrite Forall_forall in Hall. apply Hall.
        eapply nth_error_In, Hnth'.
      * apply (IH Hnth' y Hy).
Qed.

(** ** Evaluation of [check_technical_pattern] on a long enough frame *)

(** Unfold the method and run it up to the answer [H] of the fetch. *)
Ltac run_fetch H :=
  unfold check_technical_pattern, check_technical_pattern_body;
  rewrite H; cbn [bind try_except].

Lemma check_technical_pattern_eval
  (fm : fetcher) (code name : string) (df : list DailyBar.t) (src : string) :
  fm code 250%nat = Return (Some df, src) ->
  (60 <= length df)%nat ->
  exists last_row first_row,
    iloc (sort_values_date df) (-1) = Return last_row
    /\ iloc (tail 60 (sort_values_date df)) 0 = Return first_row
    /\ check_technical_pattern fm code name =
       Return (screen code name (sort_values_date df)
                 (DailyBar.close last_row) (DailyBar.close first_row)).
Proof.
  intros Hfetch Hlen.
  assert (Hs : sort_values_date df <> []).
  { intro H. apply (f_equal (@length _)) in H.
    rewrite length_sort_values_date in H. simpl in H. lia. }
  assert (Ht : tail 60 (sort_values_date df) <> []).
  { intro H. apply (f_equal (@length _)) in H.
    rewrite length_tail, length_sort_values_date in H. cbn [length] in H. lia. }
  assert (Hc : map DailyBar.close (sort_values_date df) <> []).
  { intro H. apply map_eq_nil in H. contradiction. }
  destruct (iloc_last_row Hs) as (last_row & Hlast & _).
  destruct (iloc_first_row Ht) as (first_row & Hfirst & _).
  exists last_row, first_row. split; [exact Hlast|]. split; [exact Hfirst|].
  run_fetch Hfetch.
  replace (empty df) with false by (destruct df; [exfalso; simpl in Hlen; lia | reflexivity]).
  replace (length df <? 60)%nat with false
    by (symmetry; apply Nat.ltb_ge; exact Hlen).
  cbn [orb]. rewrite Hlast. cbn [bind]. rewrite Hfirst. cbn [bind].
  unfold screen, moving_average.
  destruct (length (filter limit_up (tail 60 (sort_values_date df))) =? 0)%nat;
    [reflexivity|].
  destruct (fgt _ (Fin 0.5)); [reflexivity|].
  rewrite !iloc_rolling_mean_last by exact Hc. cbn [bind].
  destruct (negb _); [reflexivity|].
  destruct (fgt _ (Fin 0.5)); reflexivity.
Qed.

(** ** The four gates *)

Lemma filter_nonempty_Exists (A : Type) (f : A -> bool) (l : list A) :
  (length (filter f l) =? 0)%nat = false <-> Exists (fun x => f x = true) l.
Proof.
  rewrite Nat.eqb_neq. induction l as [|x l IH]; simpl.
  - split; [congruence | intros H; inversion H].
  - destruct (f x) eqn:E; simpl.
    + split; [intros _; now left | intros _; discriminate].
    + rewrite IH. split; [now right|].
      intros H. inversion H; subst; [congruence | assumption].
Qed.

(** [screen] answers with a record exactly when the four tests pass, and
    the record is then determined by the signals. *)
Lemma screen_Some (code name : string) (df : list DailyBar.t)
  (cur p0 : float) (hit : ScreenHit.t) :
  screen code name df cur p0 = Some hit <->
  gates_pass df cur p0 /\ hit = hit_of code name df cur p0.
Proof.
  unfold screen, gates_pass, hit_of. rewrite <- filter_nonempty_Exists.
  destruct (length (filter limit_up (tail 60 df)) =? 0)%nat.
  { split; [discriminate | intros [(H & _) _]; discriminate]. }
  destruct (fgt (interval_return cur p0) (Fin 0.5)).
  { split; [discriminate | intros [(_ & H & _) _]; discriminate]. }
  destruct (fgt (moving_average 5 df) (moving_average 10 df)); cbn [andb negb].
  2:{ split; [discriminate | intros [(_ & _ & (H & _) & _) _]; discriminate]. }
  destruct (fgt (moving_average 10 df) (moving_average 20 df)); cbn [negb].
  2:{ split; [discriminate | intros [(_ & _ & (_ & H) & _) _]; discriminate]. }
  destruct (fgt (position cur (year_high df) (year_low df)) (Fin 0.5)).
  { split; [discriminate | intros [(_ & _ & _ & H) _]; discriminate]. }
  split.
  - intros H. injection H as <-. repeat split.
  - intros [_ ->]. reflexivity.
Qed.

Lemma screen_pass (code name : string) (df : list DailyBar.t) (cur p0 : float) :
  gates_pass df cur p0 ->
  screen code name df cur p0 = Some (hit_of code name df cur p0).
Proof. intros G. apply screen_Some. split; [exact G | reflexivity]. Qed.

Lemma screen_None (code name : string) (df : list DailyBar.t) (cur p0 : float) :
  screen code name df cur p0 = None <-> ~ gates_pass df cur p0.
Proof.
  destruct (screen code name df cur p0) as [hit|] eqn:E.
  - apply screen_Some in E. destruct E as [G _].
    split; [discriminate | intros H; contradiction].
  - split; [|reflexivity]. intros _ G.
    rewrite (screen_pass code name G) in E. discriminate E.
Qed.

(** ** The evaluator over the library interface *)

Lemma nth_error_last (A : Type) (l : list A) (x d : A) :
  nth_error l (length l - 1) = Some x -> last l d = x.
Proof.
  induction l as [|a t IH]; [discriminate|].
  destruct t as [|b t'].
  - cbn. congruence.
  - intros H. change (last (a :: b :: t') d) with (last (b :: t') d).
    apply IH. cbn [length] in *.
    replace (S (S (length t')) - 1)%nat with (S (length t')) in H by lia.
    replace (S (length t') - 1)%nat with (length t') by lia.
    exact H.
Qed.

Lemma iloc_last (A : Type) (l : list A) (d : A) :
  l <> [] -> iloc l (-1) = Return (last l d).
Proof.
  intros Hne. destruct (iloc_last_row Hne) as (row & -> & Hnth).
  now rewrite (nth_error_last _ d Hnth).
Qed.

Lemma fgt_literal (x y : float) (q : Q) :
  is_num y q -> fgt x y = fgt x (Fin q).
Proof.
  destruct y as [| | |p]; cbn; try contradiction. intros Hp.
  destruct x as [| | |a]; cbn; try reflexivity.
  unfold Qlt_bool. f_equal. apply Qleb_comp; [reflexivity | exact Hp].
Qed.

Section EvaluatorFacts.

Variable L : Lib.Library.

Lemma gt_lit_0_5 (x : Lib.cell L) :
  Lib.gt L x (Lib.lit_0_5 L) = fgt (Lib.value L x) (Fin 0.5).
Proof. rewrite Lib.gt_value. apply fgt_literal, Lib.lit_0_5_value. Qed.

Lemma limit_up_value (bar : Lib.Bar (Lib.cell L)) :
  Lib.limit_up L bar = fgt (Lib.value L (Lib.pct_chg bar)) (Fin 9.5).
Proof.
  unfold Lib.limit_up. rewrite Lib.gt_value.
  apply fgt_literal, Lib.lit_9_5_value.
Qed.

Lemma length_lib_sort (df : list (Lib.Bar (Lib.cell L))) :
  length (Lib.sort_values_date L df) = length df.
Proof. symmetry. apply Permutation_length, Lib.sort_values_permutation. Qed.

Lemma lib_rolling_last (k : nat) (df : list (Lib.Bar (Lib.cell L))) :
  df <> [] ->
  iloc (Lib.rolling_mean L k (map (@Lib.close _) df)) (-1)
  = Return (Lib.moving_average L k df).
Proof.
  intros Hne. apply iloc_last. intro H.
  apply (f_equal (@length _)) in H.
  rewrite Lib.rolling_mean_length, length_map in H.
  destruct df; [congruence | discriminate H].
Qed.

Lemma lib_check_eval (fm : Lib.fetcher L) (code name : string)
  (df : list (Lib.Bar (Lib.cell L))) (src : string) :
  fm code 250%nat = Return (Some df, src) ->
  (60 <= length df)%nat ->
  exists last_row first_row,
    iloc (Lib.sort_values_date L df) (-1) = Return last_row
    /\ iloc (tail 60 (Lib.sort_values_date L df)) 0 = Return first_row
    /\ Lib.check_technical_pattern fm code name =
       Return (Lib.screen L code name (Lib.sort_values_date L df)
                 (Lib.close last_row) (Lib.close first_row)).
Proof.
  intros Hfetch Hlen.
  assert (Hs : Lib.sort_values_date L df <> []).
  { intro H. apply (f_equal (@length _)) in H.
    rewrite length_lib_sort in H. simpl in H. lia. }
  assert (Ht : tail 60 (Lib.sort_values_date L df) <> []).
  { intro H. apply (f_equal (@length _)) in H.
    rewrite length_tail, length_lib_sort in H. cbn [length] in H. lia. }
  destruct (iloc_last_row Hs) as (last_row & Hlast & _).
  destruct (iloc_first_row Ht) as (first_row & Hfirst & _).
  exists last_row, first_row. split; [exact Hlast|]. split; [exact Hfirst|].
  unfold Lib.check_technical_pattern, Lib.check_technical_pattern_body.
  rewrite Hfetch. cbn [bind].
  replace (empty df) with false
    by (destruct df; [exfalso; simpl in Hlen; lia | reflexivity]).
  replace (length df <? 60)%nat with false
    by (symmetry; apply Nat.ltb_ge; exact Hlen).
  cbn [orb]. rewrite Hlast. cbn [bind]. rewrite Hfirst. cbn [bind].
  unfold Lib.screen.
  destruct (length (filter (Lib.limit_up L)
                      (tail 60 (Lib.sort_values_date L df))) =? 0)%nat;
    [reflexivity|].
  destruct (Lib.gt L (Lib.interval_return L _ _) (Lib.lit_0_5 L));
    [reflexivity|].
  rewrite !lib_rolling_last by exact Hs. cbn [bind].
  destruct (negb _); [reflexivity|].
  destruct (Lib.gt L (Lib.position L _ _ _) (Lib.lit_0_5 L)); reflexivity.
Qed.

Lemma lib_screen_Some (code name : string) (df : list (Lib.Bar (Lib.cell L)))
  (cur p0 : Lib.cell L) (hit : Lib.Hit (Lib.cell L)) :
  Lib.screen L code name df cur p0 = Some hit <->
  Lib.gates_pass L df cur p0 /\ hit = Lib.hit_of L code name df cur p0.
Proof.
  unfold Lib.screen, Lib.gates_pass. rewrite <- filter_nonempty_Exists.
  destruct (length (filter (Lib.limit_up L) (tail 60 df)) =? 0)%nat.
  { split; [discriminate | intros [(H & _) _]; discriminate]. }
  destruct (Lib.gt L (Lib.interval_return L cur p0) (Lib.lit_0_5 L)).
  { split; [discriminate | intros [(_ & H & _) _]; discriminate]. }
  destruct (Lib.gt L (Lib.moving_average L 5 df) (Lib.moving_average L 10 df));
    cbn [andb negb].
  2:{ split; [discriminate | intros [(_ & _ & (H & _) & _) _]; discriminate]. }
  destruct (Lib.gt L (Lib.moving_average L 10 df) (Lib.moving_average L 20 df));
    cbn [negb].
  2:{ split; [discriminate | intros [(_ & _ & (_ & H) & _) _]; discriminate]. }
  destruct (Lib.gt L (Lib.position L cur (Lib.year_high L df)
                        (Lib.year_low L df)) (Lib.lit_0_5 L)).
  { split; [discriminate | intros [(_ & _ & _ & H) _]; discriminate]. }
  split.
  - intros H. injection H as <-. repeat split.
  - intros [_ ->]. reflexivity.
Qed.

Lemma lib_screen_pass (code name : string) (df : list (Lib.Bar (Lib.cell L)))
  (cur p0 : Lib.cell L) :
  Lib.gates_pass L df cur p0 ->
  Lib.screen L code name df cur p0 = Some (Lib.hit_of L code name df cur p0).
Proof. intros G. apply lib_screen_Some. split; [exact G | reflexivity]. Qed.

Lemma lib_screen_None (code name : string) (df : list (Lib.Bar (Lib.cell L)))
  (cur p0 : Lib.cell L) :
  Lib.screen L code name df cur p0 = None <-> ~ Lib.gates_pass L df cur p0.
Proof.
  destruct (Lib.screen L code name df cur p0) as [hit|] eqn:E.
  - apply lib_screen_Some in E. destruct E as [G _].
    split; [discriminate | intros H; contradiction].
  - split; [|reflexivity]. intros _ G.
    rewrite (lib_screen_pass code name G) in E. discriminate E.
Qed.

(** The tests of [gates_pass], read on the values of the cells. *)
Lemma lib_gates_values (df : list (Lib.Bar (Lib.cell L)))
  (cur p0 : Lib.cell L) :
  Lib.gates_pass L df cur p0 <->
  Exists (fun bar => fgt (Lib.value L (Lib.pct_chg bar)) (Fin 9.5) = true)
         (tail 60 df)
  /\ fgt (Lib.value L (Lib.interval_return L cur p0)) (Fin 0.5) = false
  /\ (fgt (Lib.value L (Lib.moving_average L 5 df))
          (Lib.value L (Lib.moving_average L 10 df)) = true
      /\ fgt (Lib.value L (Lib.moving_average L 10 df))
             (Lib.value L (Lib.moving_average L 20 df)) = true)
  /\ fgt (Lib.value L (Lib.position L cur (Lib.year_high L df)
                         (Lib.year_low L df))) (Fin 0.5) = false.
Proof.
  unfold Lib.gates_pass. rewrite !gt_lit_0_5, !Lib.gt_value.
  assert (Hex : Exists (fun bar => Lib.limit_up L bar = true) (tail 60 df)
                <-> Exists (fun bar =>
                      fgt (Lib.value L (Lib.pct_chg bar)) (Fin 9.5) = true)
                    (tail 60 df)).
  { rewrite !Exists_exists. split; intros (bar & Hin & H); exists bar;
      (split; [exact Hin|]); [rewrite <- limit_up_value | rewrite limit_up_value];
      exact H. }
  rewrite Hex. reflexivity.
Qed.

End EvaluatorFacts.

(** ** The first evaluator is the instance with exact arithmetic *)

Lemma iloc_map (A B : Type) (f : A -> B) (l : list A) (i : Z) :
  iloc (map f l) i
  = match iloc l i with
    | Return row => Return (f row)
    | Raise e => Raise e
    end.
Proof.
  unfold iloc. rewrite length_map. cbv zeta.
  set (pos := if (i <? 0)%Z then _ else _).
  destruct (pos <? 0)%Z; [reflexivity|].
  rewrite nth_error_map.
  destruct (nth_error l (Z.to_nat pos)); reflexivity.
Qed.

Lemma to_of_daily (b : DailyBar.t) :
  Exact.to_daily (Exact.of_daily b) = b.
Proof. destruct b; reflexivity. Qed.

Lemma exact_sort (df : list DailyBar.t) :
  Exact.sort_bars (map Exact.of_daily df)
  = map Exact.of_daily (sort_values_date df).
Proof.
  unfold Exact.sort_bars. rewrite map_map.
  now rewrite (map_ext _ (fun b => b) to_of_daily), map_id.
Qed.

Lemma exact_moving_average (k : nat) (df : list DailyBar.t) :
  df <> [] ->
  Lib.moving_average Exact.library k (map Exact.of_daily df)
  = moving_average k df.
Proof.
  intros Hne. unfold Lib.moving_average, moving_average.
  cbn [Lib.rolling_mean Lib.lit_0 Exact.library]. rewrite map_map.
  change (map (fun x => Lib.close (Exact.of_daily x)) df)
    with (map DailyBar.close df).
  assert (Hcol : map DailyBar.close df <> [])
    by (destruct df; [congruence | discriminate]).
  pose proof (iloc_rolling_mean_last k Hcol) as H1.
  assert (Hr : rolling_mean k (map DailyBar.close df) <> []).
  { intro E. rewrite E in H1. discriminate H1. }
  rewrite (iloc_last (Fin 0) Hr) in H1. now injection H1.
Qed.

Lemma exact_screen (code name : string) (df : list DailyBar.t)
  (cur p0 : float) :
  df <> [] ->
  Lib.screen Exact.library code name (map Exact.of_daily df) cur p0
  = option_map Exact.of_hit (screen code name df cur p0).
Proof.
  intros Hne. unfold Lib.screen, screen, Lib.hit_of, hit_of.
  rewrite !exact_moving_average by exact Hne.
  unfold Lib.year_high, Lib.year_low, year_high, year_low.
  rewrite !map_map.
  change (map (fun x => Lib.high (Exact.of_daily x)) df)
    with (map DailyBar.high df).
  change (map (fun x => Lib.low (Exact.of_daily x)) df)
    with (map DailyBar.low df).
  rewrite tail_map, filter_map_swap, length_map.
  change (filter (fun a => Lib.limit_up Exact.library (Exact.of_daily a)))
    with (filter limit_up).
  change (Lib.gt Exact.library) with fgt.
  change (Lib.lit_0_5 Exact.library) with (Fin 0.5).
  change (Lib.interval_return Exact.library cur p0)
    with (interval_return cur p0).
  change (Lib.position Exact.library) with position.
  destruct (length (filter limit_up (tail 60 df)) =? 0)%nat; [reflexivity|].
  destruct (fgt (interval_return cur p0) (Fin 0.5)); [reflexivity|].
  destruct (negb _); [reflexivity|].
  destruct (fgt (position cur _ _) (Fin 0.5)); reflexivity.
Qed.

(** The evaluator over the interface, at the library with exact
    arithmetic, gives the answers of the evaluator of the first part. *)
Lemma exact_evaluator (fm : fetcher) (code name : string) :
  Lib.check_technical_pattern (Exact.lift fm) code name
  = match check_technical_pattern fm code name with
    | Return answer => Return (option_map Exact.of_hit answer)
    | Raise e => Raise e
    end.
Proof.
  destruct (fm code 250%nat) as [[[df|] src]|e] eqn:Hfetch.
  - destruct (Nat.lt_ge_cases (length df) 60) as [Hshort|Hlen].
    + unfold Lib.check_technical_pattern, Lib.check_technical_pattern_body,
        check_technical_pattern, check_technical_pattern_body, Exact.lift.
      rewrite Hfetch. cbn [bind option_map]. rewrite length_map.
      replace (length df <? 60)%nat with true
        by (symmetry; apply Nat.ltb_lt; exact Hshort).
      now rewrite !orb_true_r.
    + assert (Hfetch' : Exact.lift fm code 250%nat
                        = Return (Some (map Exact.of_daily df), src))
        by (unfold Exact.lift; now rewrite Hfetch).
      destruct (lib_check_eval (Exact.lift fm) code name Hfetch'
                  ltac:(now rewrite length_map))
        as (last_row' & first_row' & Hlast' & Hfirst' & ->).
      destruct (check_technical_pattern_eval fm code name Hfetch Hlen)
        as (last_row & first_row & Hlast & Hfirst & ->).
      change (Lib.sort_values_date Exact.library) with Exact.sort_bars in *.
      rewrite exact_sort in *.
      rewrite iloc_map, Hlast in Hlast'. injection Hlast' as <-.
      rewrite tail_map, iloc_map, Hfirst in Hfirst'. injection Hfirst' as <-.
      f_equal. apply exact_screen.
      intro E. rewrite E in Hlast. discriminate Hlast.
  - unfold Lib.check_technical_pattern, Lib.check_technical_pattern_body,
      check_technical_pattern, check_technical_pattern_body, Exact.lift.
    now rewrite Hfetch.
  - unfold Lib.check_technical_pattern, Lib.check_technical_pattern_body,
      check_technical_pattern, check_technical_pattern_body, Exact.lift.
    now rewrite Hfetch.
Qed.




(** ** The answer of [check_technical_pattern] *)



(** ** [filter_basics] *)

Lemma filter_twice (A : Type) (f g : A -> bool) (l : list A) :
  filter g (filter f l) = filter (fun x => f x && g x) l.
Proof.
  induction l as [|x l IH]; [reflexivity|]. simpl.
  destruct (f x); simpl; [destruct (g x)|]; now rewrite IH.
Qed.

Lemma filter_fixed (A : Type) (f : A -> bool) (l : list A) :
  filter f (filter f l) = filter f l.
Proof.
  rewrite filter_twice. apply filter_ext. intros x. now destruct (f x).
Qed.

Lemma filter_Subsequence (A : Type) (f : A -> bool) (l : list A) :
  Subsequence (filter f l) l.
Proof.
  induction l as [|x l IH]; simpl; [constructor|].
  destruct (f x); now constructor.
Qed.

(** The frame returned by [filter_basics], and what it logs. *)
Lemma filter_basics_eval (df : list QuoteRow.t) :
  filter_basics df =
  (Return (filter passes_basics df),
   if empty df then []
   else [(INFO, FilterBefore (length df));
         (INFO, FilterAfter (length (filter passes_basics df)))]).
Proof.
  unfold filter_basics. destruct df as [|row df]; [reflexivity|].
  cbn [empty]. rewrite !filter_twice.
  rewrite (filter_ext _ passes_basics)
    by (intros x; unfold passes_basics; apply andb_assoc).
  unfold lbind, emit, ret. cbn [app]. reflexivity.
Qed.

(** C2. [filter_basics] returns, without raising, exactly the rows with
    [price <= 20], [pe > 0] and [total_mv <= 20,000,000,000]; a missing
    cell (NaN) fails each comparison, so a row with a missing price, PE
    or market value is dropped; the result is a subsequence of the input
    in the same order, is never longer, and is empty for an empty
    input. *)
Theorem filter_basics_keeps (df : list QuoteRow.t) :
  exists kept,
    returned (filter_basics df) = Return kept
    /\ kept = filter (fun row =>
                fle (QuoteRow.price row) (Fin 20)
                && fgt (QuoteRow.pe row) (Fin 0)
                && fle (QuoteRow.total_mv row) (Fin 20000000000)) df
    /\ (forall row, In row kept <->
          In row df
          /\ fle (QuoteRow.price row) (Fin 20) = true
          /\ fgt (QuoteRow.pe row) (Fin 0) = true
          /\ fle (QuoteRow.total_mv row) (Fin 20000000000) = true)
    /\ (forall threshold,
          fle NaN threshold = false /\ fgt NaN threshold = false)
    /\ (forall row, In row kept ->
          QuoteRow.price row <> NaN
          /\ QuoteRow.pe row <> NaN
          /\ QuoteRow.total_mv row <> NaN)
    /\ Subsequence kept df
    /\ (length kept <= length df)%nat
    /\ (df = [] -> filter_basics df = (Return [], [])).
Proof.
  exists (filter passes_basics df).
  assert (Hmask : forall row,
    passes_basics row =
    fle (QuoteRow.price row) (Fin 20)
    && fgt (QuoteRow.pe row) (Fin 0)
    && fle (QuoteRow.total_mv row) (Fin 20000000000)).
  { intros row. unfold passes_basics, market_cap_limit.
    destruct (QuoteRow.total_mv row); reflexivity. }
  assert (Hin : forall row, In row (filter passes_basics df) <->
          In row df
          /\ fle (QuoteRow.price row) (Fin 20) = true
          /\ fgt (QuoteRow.pe row) (Fin 0) = true
          /\ fle (QuoteRow.total_mv row) (Fin 20000000000) = true).
  { intros row. rewrite filter_In, Hmask, !andb_true_iff. tauto. }
  split; [now rewrite filter_basics_eval|].
  split; [apply filter_ext, Hmask|].
  split; [exact Hin|].
  split; [intros t; split; reflexivity|].
  split.
  { intros row Hrow. apply Hin in Hrow.
    destruct Hrow as (_ & Hp & Hpe & Hmv).
    repeat split; intros E; rewrite E in *; discriminate. }
  split; [apply filter_Subsequence|].
  split; [apply filter_length_le|].
  intros ->. reflexivity.
Qed.

(** Scenario A of the specification: the first row passes, the same row
    priced 25 is dropped. *)
Example filter_basics_scenario_A :
  let row price :=
    QuoteRow.mk "600000" "demo" (Fin price) (Fin 12) (Fin 5000000000)
                (Fin 4000000000) (Fin 1.5) in
  returned (filter_basics [row 15; row 25]) = Return [row 15].
Proof. reflexivity. Qed.

(** C7. [filter_basics] is idempotent: it returns a frame on every
    snapshot, and filtering that frame again returns it unchanged. *)
Theorem filter_basics_idempotent (X : list QuoteRow.t) :
  exists Y,
    returned (filter_basics X) = Return Y
    /\ returned (filter_basics Y) = Return Y
    /\ returned (once <- filter_basics X ;; filter_basics once)%log
       = returned (filter_basics X).
Proof.
  exists (filter passes_basics X).
  rewrite !filter_basics_eval. unfold returned, lbind.
  rewrite filter_basics_eval. cbn [fst].
  rewrite filter_fixed. repeat split.
Qed.

(** ** Single gates *)

(** C4. On a fetched series of at least 60 bars, when no bar of the last
    60 (by date) has [pct_chg > 9.5], the answer is absent, whatever the
    interval return, the moving averages and the position are. *)
Theorem no_rally_is_absent
  (fm : fetcher) (code name : string) (df : list DailyBar.t) (src : string) :
  fm code 250%nat = Return (Some df, src) ->
  (60 <= length df)%nat ->
  Forall (fun bar => fgt (DailyBar.pct_chg bar) (Fin 9.5) = false)
         (tail 60 (sort_values_date df)) ->
  check_technical_pattern fm code name = Return None.
Proof.
  intros Hfetch Hlen Hcalm.
  destruct (check_technical_pattern_eval fm code name Hfetch Hlen)
    as (last_row & first_row & _ & _ & ->).
  f_equal. apply screen_None. intros (Hex & _).
  apply Exists_exists in Hex. destruct Hex as (bar & Hin & Hup).
  rewrite Forall_forall in Hcalm. specialize (Hcalm bar Hin).
  unfold limit_up in Hup. congruence.
Qed.

Lemma no_rally_is_absent_witness :
  check_technical_pattern (Scenario.serve Scenario.calm) "600519" "demo"
  = Return None.
Proof.
  apply (@no_rally_is_absent _ _ _ Scenario.calm "akshare"%string).
  - reflexivity.
  - vm_compute. lia.
  - vm_compute. repeat constructor.
Defined.

(** C5. On a fetched series of at least 60 bars, when the return from
    the close at the start of the 60-bar window to the latest close is
    above 0.5, the answer is absent; so it is when that return is 60%,
    as for the series of scenario C. *)
Theorem strong_uptrend_is_absent
  (fm : fetcher) (code name : string) (df : list DailyBar.t) (src : string)
  (last_row first_row : DailyBar.t) :
  fm code 250%nat = Return (Some df, src) ->
  (60 <= length df)%nat ->
  iloc (sort_values_date df) (-1) = Return last_row ->
  iloc (tail 60 (sort_values_date df)) 0 = Return first_row ->
  let interval :=
    interval_return (DailyBar.close last_row) (DailyBar.close first_row) in
  fgt interval (Fin 0.5) = true \/ is_num interval 0.6 ->
  check_technical_pattern fm code name = Return None.
Proof.
  intros Hfetch Hlen Hlast Hfirst interval Hup.
  destruct (check_technical_pattern_eval fm code name Hfetch Hlen)
    as (last_row' & first_row' & Hlast' & Hfirst' & ->).
  rewrite Hlast in Hlast'. rewrite Hfirst in Hfirst'.
  injection Hlast' as <-. injection Hfirst' as <-.
  assert (Hgt : fgt interval (Fin 0.5) = true).
  { destruct Hup as [H|H]; [exact H|].
    now rewrite (@fgt_num interval (Fin 0.5) 0.6 0.5 H (Qeq_refl _)). }
  f_equal. apply screen_None. intros (_ & Hle & _).
  fold interval in Hle. congruence.
Qed.

(** Scenario C of the specification, through the theorem. *)
Lemma strong_uptrend_is_absent_witness :
  check_technical_pattern (Scenario.serve Scenario.C) "600519" "demo"
  = Return None.
Proof.
  apply (@strong_uptrend_is_absent _ _ _ Scenario.C "akshare"%string
           (Scenario.bar (Fin 7.5) 6 26 10.2 59)
           (Scenario.bar (Fin 7.5) 6 26 10.2 0)).
  - reflexivity.
  - vm_compute. lia.
  - vm_compute. reflexivity.
  - vm_compute. reflexivity.
  - right. vm_compute. reflexivity.
Defined.

(** ** What a hit tells about the frame *)

Lemma check_technical_pattern_hit
  (fm : fetcher) (code name : string) (hit : ScreenHit.t) :
  check_technical_pattern fm code name = Return (Some hit) ->
  exists df src last_row first_row,
    fm code 250%nat = Return (Some df, src)
    /\ (60 <= length df)%nat
    /\ iloc (sort_values_date df) (-1) = Return last_row
    /\ iloc (tail 60 (sort_values_date df)) 0 = Return first_row
    /\ screen code name (sort_values_date df)
         (DailyBar.close last_row) (DailyBar.close first_row) = Some hit.
Proof.
  intros Hhit.
  destruct (fm code 250%nat) as [[[df|] src]|e] eqn:Hfetch.
  - destruct (Nat.lt_ge_cases (length df) 60) as [Hshort|Hlen].
    + exfalso. revert Hhit. run_fetch Hfetch.
      replace (length df <? 60)%nat with true
        by (symmetry; apply Nat.ltb_lt; exact Hshort).
      rewrite orb_true_r. discriminate.
    + destruct (check_technical_pattern_eval fm code name Hfetch Hlen)
        as (last_row & first_row & Hlast & Hfirst & Heval).
      exists df, src, last_row, first_row.
      split; [reflexivity|]. repeat (split; [assumption|]). congruence.
  - exfalso. revert Hhit. run_fetch Hfetch. discriminate.
  - exfalso. revert Hhit. run_fetch Hfetch. discriminate.
Qed.

(** ** Percentages *)

(** A signal that is not above 0.5 is, times 100, not above 50; and it
    is at most 50 unless it is NaN. *)
Lemma percent_not_above_50 (x : float) :
  fgt x (Fin 0.5) = false ->
  fgt (fmul x (Fin 100)) (Fin 50) = false
  /\ (fmul x (Fin 100) <> NaN -> fle (fmul x (Fin 100)) (Fin 50) = true).
Proof.
  destruct x as [| | |q]; cbn.
  - intros _. split; [reflexivity | congruence].
  - discriminate.
  - intros _. split; reflexivity.
  - intros H. apply Qlt_bool_false_iff in H.
    assert (Hle : q * 100 <= 50).
    { setoid_replace 50 with (0.5 * 100) by reflexivity.
      apply Qmult_le_compat_r; [exact H | discriminate]. }
    split.
    + now apply Qlt_bool_false_iff.
    + intros _. now apply Qle_bool_iff.
Qed.

(** ** Invariants of a hit *)

(** C9, as the code has it.  Every hit has [limit_up_count >= 1], and
    its [interval_increase] and [position_rank], both in percent, are
    never above 50: each is at most 50 unless it is NaN. *)
Theorem hit_invariants
  (fm : fetcher) (code name : string) (hit : ScreenHit.t) :
  check_technical_pattern fm code name = Return (Some hit) ->
  (1 <= ScreenHit.limit_up_count hit)%nat
  /\ (fgt (ScreenHit.interval_increase hit) (Fin 50) = false
      /\ (ScreenHit.interval_increase hit <> NaN ->
          fle (ScreenHit.interval_increase hit) (Fin 50) = true))
  /\ (fgt (ScreenHit.position_rank hit) (Fin 50) = false
      /\ (ScreenHit.position_rank hit <> NaN ->
          fle (ScreenHit.position_rank hit) (Fin 50) = true)).
Proof.
  intros Hhit.
  destruct (check_technical_pattern_hit _ _ _ Hhit)
    as (df & src & last_row & first_row & _ & _ & _ & _ & Hscreen).
  apply screen_Some in Hscreen.
  destruct Hscreen as [(Hrally & Hint & _ & Hpos) ->]. cbn.
  split; [|split].
  - apply filter_nonempty_Exists in Hrally. apply Nat.eqb_neq in Hrally. lia.
  - apply percent_not_above_50, Hint.
  - apply percent_not_above_50, Hpos.
Qed.

Lemma hit_invariants_witness :
  exists hit,
    check_technical_pattern (Scenario.serve Scenario.B) "600519" "demo"
      = Return (Some hit)
    /\ (1 <= ScreenHit.limit_up_count hit)%nat
    /\ fle (ScreenHit.interval_increase hit) (Fin 50) = true
    /\ fle (ScreenHit.position_rank hit) (Fin 50) = true.
Proof.
  eexists. split; [vm_compute; reflexivity|].
  destruct (@hit_invariants (Scenario.serve Scenario.B) "600519" "demo" _
              ltac:(vm_compute; reflexivity))
    as (Hcount & (_ & Hint) & (_ & Hpos)).
  split; [exact Hcount|].
  split; [apply Hint | apply Hpos]; discriminate.
Defined.

(** C9 as first stated fails: with the close at the start of the
    window missing, the interval return is NaN, the test
    [interval_increase > 0.5] is false, and the hit that comes out has
    an [interval_increase] that is not [<= 50]. *)
Lemma hit_with_missing_interval :
  check_technical_pattern
    (Scenario.serve Scenario.missing_first_close) "600519" "demo"
  = Return (Some {|
      ScreenHit.code := "600519";
      ScreenHit.name := "demo";
      ScreenHit.price := Fin 12;
      ScreenHit.limit_up_count := 1;
      ScreenHit.interval_increase := NaN;
      ScreenHit.position_rank := Fin (600 # 20)
    |})
  /\ fle NaN (Fin 50) = false.
Proof. split; vm_compute; reflexivity. Qed.

(** ** Rounded arithmetic *)

Lemma is_num_Fin (x : float) (q : Q) :
  is_num x q -> exists p, x = Fin p /\ p == q.
Proof. destruct x as [| | |p]; cbn; try contradiction. now exists p. Qed.

Section Rounding.

Variable L : Lib.Library.
Variable I : Lib.Ieee L.

(** A rounding between two roundings that are numbers is a number
    between them. *)
Lemma rnd_between (lo q hi lo' hi' : Q) :
  lo <= q -> q <= hi ->
  is_num (Lib.rnd I lo) lo' -> is_num (Lib.rnd I hi) hi' ->
  exists p, Lib.rnd I q = Fin p /\ lo' <= p /\ p <= hi'.
Proof.
  intros Hlo Hhi Hl Hh.
  apply (Lib.rnd_monotone I) in Hlo. apply (Lib.rnd_monotone I) in Hhi.
  destruct (@is_num_Fin _ _ Hl) as (a & Ea & Ha).
  destruct (@is_num_Fin _ _ Hh) as (b & Eb & Hb).
  rewrite Ea in Hlo. rewrite Eb in Hhi.
  destruct (Lib.rnd I q) as [| | |p]; cbn in Hlo, Hhi; try discriminate.
  exists p. split; [reflexivity|].
  apply Qle_bool_iff in Hlo. apply Qle_bool_iff in Hhi.
  rewrite <- Ha, <- Hb. split; assumption.
Qed.

(** A rounding above a rounding that is a number is a number above it,
    or has overflowed. *)
Lemma rnd_above (lo q lo' : Q) :
  lo <= q -> is_num (Lib.rnd I lo) lo' ->
  Lib.rnd I q = PInf \/ exists p, Lib.rnd I q = Fin p /\ lo' <= p.
Proof.
  intros Hlo Hl. apply (Lib.rnd_monotone I) in Hlo.
  destruct (@is_num_Fin _ _ Hl) as (a & Ea & Ha). rewrite Ea in Hlo.
  destruct (Lib.rnd I q) as [| | |p]; cbn in Hlo; try discriminate.
  - now left.
  - right. exists p. split; [reflexivity|].
    apply Qle_bool_iff in Hlo. now rewrite <- Ha.
Qed.

Lemma rnd_0 : is_num (Lib.rnd I 0) 0.
Proof. apply (Lib.rnd_integer I 0). discriminate. Qed.

(** A signal between [lo] and 0.5, times 100, is a number between
    [100 * lo] and 50, for [lo] one of 0 and -1. *)
Lemma percent_bounds (x : Lib.cell L) (q : Q) (z : Z) :
  (Z.abs (100 * z) <= 1000)%Z ->
  Lib.value L x = Fin q -> inject_Z z <= q -> q <= 0.5 ->
  exists p, Lib.value L (Lib.mul L x (Lib.lit_100 L)) = Fin p
            /\ inject_Z (100 * z) <= p /\ p <= 50.
Proof.
  intros Hz Hx Hlo Hhi.
  destruct (@is_num_Fin _ _ (Lib.lit_100_value L)) as (c & Ec & Hc).
  rewrite (Lib.mul_rounds I x (Lib.lit_100 L) Hx Ec).
  apply (@rnd_between (inject_Z (100 * z)) (q * c) (inject_Z 50)).
  - rewrite Hc, inject_Z_mult. change (inject_Z 100) with 100. lra.
  - rewrite Hc. change (inject_Z 50) with 50. lra.
  - apply (Lib.rnd_integer I). exact Hz.
  - apply (Lib.rnd_integer I 50). cbn. lia.
Qed.

(** The position of a close in its range, when the close is not below
    the low, the low is not above the high and neither difference
    overflows: if the gate lets it through, it is, times 100, a number
    between 0 and 50. *)
Lemma lib_position_rank_bounds (cur yh yl : Lib.cell L) (c h l : Q) :
  Lib.value L cur = Fin c -> Lib.value L yh = Fin h ->
  Lib.value L yl = Fin l ->
  l <= c -> l <= h ->
  (exists d, Lib.value L (Lib.sub L cur yl) = Fin d) ->
  (exists d, Lib.value L (Lib.sub L yh yl) = Fin d) ->
  fgt (Lib.value L (Lib.position L cur yh yl)) (Fin 0.5) = false ->
  exists p,
    Lib.value L (Lib.mul L (Lib.position L cur yh yl) (Lib.lit_100 L)) = Fin p
    /\ 0 <= p /\ p <= 50.
Proof.
  intros Hc Hh Hl Hlc Hlh (d1 & Hd1) (d2 & Hd2) Hgate.
  assert (H1 : 0 <= d1).
  { rewrite (Lib.sub_rounds I cur yl Hc Hl) in Hd1.
    destruct (@rnd_above 0 (c - l) 0 ltac:(lra) rnd_0) as [E|(p & E & Hp)];
      rewrite E in Hd1; [discriminate|].
    injection Hd1 as <-. exact Hp. }
  revert Hgate. unfold Lib.position.
  rewrite Lib.ne_value, Hh, Hl. cbn [fne].
  destruct (Qeq_bool h l) eqn:E; cbn [negb]; intros Hgate.
  - destruct (@is_num_Fin _ _ (Lib.lit_0_value L)) as (z0 & E0 & Hz0).
    destruct (@percent_bounds (Lib.lit_0 L) z0 0 ltac:(cbn; lia) E0)
      as (p & Hp & Hlo & Hhi).
    + rewrite Hz0. apply Qle_refl.
    + rewrite Hz0. discriminate.
    + exists p. split; [exact Hp|]. split; [exact Hlo | exact Hhi].
  - apply Qeq_bool_neq in E.
    assert (H2 : 0 < d2).
    { pose proof (Lib.sub_not_zero I yh yl Hh Hl E) as Hnz.
      rewrite Hd2 in Hnz. cbn in Hnz.
      rewrite (Lib.sub_rounds I yh yl Hh Hl) in Hd2.
      destruct (@rnd_above 0 (h - l) 0 ltac:(lra) rnd_0) as [E2|(p & E2 & Hp)];
        rewrite E2 in Hd2; [discriminate|].
      injection Hd2 as <-.
      apply Qle_lt_or_eq in Hp. destruct Hp as [Hp|Hp]; [exact Hp|].
      exfalso. apply Hnz. now symmetry. }
    assert (Hnz : ~ d2 == 0) by (intro Hz; rewrite Hz in H2; lra).
    pose proof (Lib.div_rounds I (Lib.sub L cur yl) (Lib.sub L yh yl)
                  Hd1 Hd2 Hnz) as Hdiv.
    assert (Hq : 0 <= d1 / d2).
    { apply Qle_shift_div_l; [exact H2 | lra]. }
    destruct (@rnd_above 0 (d1 / d2) 0 Hq rnd_0) as [Einf|(q & Eq & Hq0)].
    { rewrite Hdiv, Einf in Hgate. discriminate Hgate. }
    rewrite Hdiv, Eq in Hgate. cbn [fgt] in Hgate.
    apply Qlt_bool_false_iff in Hgate.
    destruct (@percent_bounds
                (Lib.div L (Lib.sub L cur yl) (Lib.sub L yh yl)) q 0
                ltac:(cbn; lia) ltac:(now rewrite Hdiv) Hq0 Hgate)
      as (p & Hp & Hlo & Hhi).
    exists p. split; [exact Hp|]. split; [exact Hlo | exact Hhi].
Qed.

End Rounding.

(** Zero, times 100, is zero. *)
Lemma zero_percent (L : Lib.Library) (I : Lib.Ieee L) (x : Lib.cell L) :
  is_num (Lib.value L x) 0 ->
  is_num (Lib.value L (Lib.mul L x (Lib.lit_100 L))) 0.
Proof.
  intros Hx. destruct (@is_num_Fin _ _ Hx) as (q & Eq & Hq).
  destruct (@is_num_Fin _ _ (Lib.lit_100_value L)) as (c & Ec & Hc).
  rewrite (Lib.mul_rounds I x (Lib.lit_100 L) Eq Ec).
  destruct (@rnd_between L I 0 (q * c) 0 0 0) as (p & -> & Hlo & Hhi).
  - rewrite Hq. lra.
  - rewrite Hq. lra.
  - apply rnd_0.
  - apply rnd_0.
  - cbn. lra.
Qed.

(** ** Exact arithmetic is an instance of the rounded one *)

Lemma series_min_attained (col : list float) :
  col <> [] ->
  Forall (fun x => exists q, x = Fin q) col ->
  In (series_min col) col
  /\ forall x, In x col -> fle (series_min col) x = true.
Proof.
  induction col as [|x t IH]; [congruence|]. intros _ Hall.
  inversion Hall as [|? ? [a ->] Ht]; subst.
  destruct t as [|y t'].
  - cbn. split; [now left|]. intros x [<-|[]]. cbn. apply Qle_bool_iff, Qle_refl.
  - destruct (IH ltac:(discriminate) Ht) as (Hin & Hlow).
    assert (Hm : exists m, series_min (y :: t') = Fin m).
    { rewrite Forall_forall in Ht. apply Ht, Hin. }
    destruct Hm as (m & Hm).
    change (series_min (Fin a :: y :: t'))
      with (fmin2 (Fin a) (series_min (y :: t'))).
    rewrite Hm in *. unfold fmin2. cbn [is_nan fgt].
    destruct (Qlt_bool a m) eqn:E.
    + apply Qlt_bool_iff in E. split; [now left|].
      intros x [<-|Hx]; [cbn; apply Qle_bool_iff, Qle_refl|].
      specialize (Hlow x Hx). destruct x as [| | |q]; cbn in *;
        try discriminate; try reflexivity.
      apply Qle_bool_iff in Hlow. apply Qle_bool_iff. lra.
    + apply Qlt_bool_false_iff in E. split; [now right|].
      intros x [<-|Hx]; [cbn; now apply Qle_bool_iff|].
      now apply Hlow.
Qed.

Lemma series_max_attained (col : list float) :
  col <> [] ->
  Forall (fun x => exists q, x = Fin q) col ->
  In (series_max col) col
  /\ forall x, In x col -> fle x (series_max col) = true.
Proof.
  induction col as [|x t IH]; [congruence|]. intros _ Hall.
  inversion Hall as [|? ? [a ->] Ht]; subst.
  destruct t as [|y t'].
  - cbn. split; [now left|]. intros x [<-|[]]. cbn. apply Qle_bool_iff, Qle_refl.
  - destruct (IH ltac:(discriminate) Ht) as (Hin & Hup).
    assert (Hm : exists m, series_max (y :: t') = Fin m).
    { rewrite Forall_forall in Ht. apply Ht, Hin. }
    destruct Hm as (m & Hm).
    change (series_max (Fin a :: y :: t'))
      with (fmax2 (Fin a) (series_max (y :: t'))).
    rewrite Hm in *. unfold fmax2. cbn [is_nan fgt].
    destruct (Qlt_bool m a) eqn:E.
    + apply Qlt_bool_iff in E. split; [now left|].
      intros x [<-|Hx]; [cbn; apply Qle_bool_iff, Qle_refl|].
      specialize (Hup x Hx). destruct x as [| | |q]; cbn in *;
        try discriminate; try reflexivity.
      apply Qle_bool_iff in Hup. apply Qle_bool_iff. lra.
    + apply Qlt_bool_false_iff in E. split; [now right|].
      intros x [<-|Hx]; [cbn; now apply Qle_bool_iff|].
      now apply Hup.
Qed.

(** With [rnd] the identity, the operations on [Float.float] round as
    IEEE 754 asks. *)
Lemma exact_arithmetic : Lib.Ieee Exact.library.
Proof.
  refine (@Lib.mkIeee Exact.library Fin _ _ _ _ _ _ _ _ _ _ _).
  - intros a b H. cbn. now apply Qle_bool_iff.
  - intros x q _. cbn. reflexivity.
  - intros x q _. cbn. reflexivity.
  - intros z _. cbn. reflexivity.
  - intros x y a b Hx Hy. cbn in *. subst. reflexivity.
  - intros x y a b Hx Hy Hb. cbn in *. subst. cbn.
    destruct (Qeq_bool b 0) eqn:E; [|reflexivity].
    apply Qeq_bool_eq in E. contradiction.
  - intros x y a b Hx Hy Hb Ha. cbn in *. subst. cbn.
    replace (Qeq_bool b 0) with true
      by (symmetry; now apply Qeq_bool_iff).
    replace (Qeq_bool a 0) with false.
    + destruct (Qneg a); [now right | now left].
    + symmetry. destruct (Qeq_bool a 0) eqn:E; [|reflexivity].
      apply Qeq_bool_eq in E. contradiction.
  - intros x y a b Hx Hy. cbn in *. subst. reflexivity.
  - intros x y a b Hx Hy Hab. cbn in *. subst. cbn.
    intros H. apply Hab. lra.
  - intros col Hne Hall. apply series_min_attained; assumption.
  - intros col Hne Hall. apply series_max_attained; assumption.
Defined.

(** ** The position rank of a hit *)

(** C6, as the code has it.  On a fetched series of at least 60 bars,
    with float64 arithmetic in round-to-nearest: the [position_rank] of
    a hit is a number in [0, 100] whenever the annual low [min(low)],
    the annual high [max(high)] and the latest close are numbers, the
    close is not below the annual low, the annual low is not above the
    annual high and neither of the two differences [close - min(low)]
    and [max(high) - min(low)] overflows; when the annual high equals
    the annual low the position is 0, its gate passes and a hit reports
    0; and whenever the position the code computes is above 0.5 the
    answer is absent. *)
Theorem position_rank_is_bounded
  (L : Lib.Library) (I : Lib.Ieee L) (fm : Lib.fetcher L)
  (code name : string) (df : list (Lib.Bar (Lib.cell L))) (src : string)
  (last_row : Lib.Bar (Lib.cell L)) :
  fm code 250%nat = Return (Some df, src) ->
  (60 <= length df)%nat ->
  iloc (Lib.sort_values_date L df) (-1) = Return last_row ->
  let sorted := Lib.sort_values_date L df in
  let current_price := Lib.close last_row in
  let year_high := Lib.year_high L sorted in
  let year_low := Lib.year_low L sorted in
  let pos := Lib.position L current_price year_high year_low in
  (forall hit l h c,
     Lib.check_technical_pattern fm code name = Return (Some hit) ->
     Lib.value L year_low = Fin l -> Lib.value L year_high = Fin h ->
     Lib.value L current_price = Fin c ->
     l <= c -> l <= h ->
     (exists d, Lib.value L (Lib.sub L current_price year_low) = Fin d) ->
     (exists d, Lib.value L (Lib.sub L year_high year_low) = Fin d) ->
     exists p, Lib.value L (Lib.position_rank hit) = Fin p
               /\ 0 <= p /\ p <= 100)
  /\ (fne (Lib.value L year_high) (Lib.value L year_low) = false ->
      pos = Lib.lit_0 L
      /\ is_num (Lib.value L pos) 0
      /\ fgt (Lib.value L pos) (Fin 0.5) = false
      /\ forall hit,
           Lib.check_technical_pattern fm code name = Return (Some hit) ->
           is_num (Lib.value L (Lib.position_rank hit)) 0)
  /\ (fgt (Lib.value L pos) (Fin 0.5) = true ->
      Lib.check_technical_pattern fm code name = Return None).
Proof.
  intros Hfetch Hlen Hlast sorted current_price year_high year_low pos.
  destruct (lib_check_eval fm code name Hfetch Hlen)
    as (last_row' & first_row & Hlast' & _ & Heval).
  rewrite Hlast in Hlast'. injection Hlast' as <-.
  fold sorted current_price in Heval.
  assert (Hrank : forall hit,
    Lib.check_technical_pattern fm code name = Return (Some hit) ->
    Lib.position_rank hit = Lib.mul L pos (Lib.lit_100 L)
    /\ fgt (Lib.value L pos) (Fin 0.5) = false).
  { intros hit Hhit. rewrite Heval in Hhit. injection Hhit as Hhit.
    apply lib_screen_Some in Hhit. destruct Hhit as [(_ & _ & _ & Hle) ->].
    split; [reflexivity|]. rewrite <- gt_lit_0_5. exact Hle. }
  split; [|split].
  - intros hit l h c Hhit Hl Hh Hc Hlc Hlh Hd1 Hd2.
    destruct (Hrank hit Hhit) as [-> Hgate].
    destruct (@lib_position_rank_bounds L I current_price year_high year_low
                c h l Hc Hh Hl Hlc Hlh Hd1 Hd2 Hgate) as (p & Hp & H0 & H50).
    exists p. split; [exact Hp|]. split; [exact H0 | lra].
  - intros Heq.
    assert (Hzero : pos = Lib.lit_0 L).
    { unfold pos, Lib.position. now rewrite Lib.ne_value, Heq. }
    split; [exact Hzero|]. rewrite Hzero.
    split; [apply Lib.lit_0_value|].
    split.
    + destruct (@is_num_Fin _ _ (Lib.lit_0_value L)) as (z & -> & Hz).
      cbn. apply Qlt_bool_false_iff. rewrite Hz. discriminate.
    + intros hit Hhit. destruct (Hrank hit Hhit) as [-> _].
      rewrite Hzero. apply (zero_percent I), Lib.lit_0_value.
  - intros Hhigh. rewrite Heval. f_equal. apply lib_screen_None.
    intros (_ & _ & _ & Hle). rewrite gt_lit_0_5 in Hle.
    fold current_price year_high year_low pos in Hle. congruence.
Qed.

(** Scenario B at the library with exact arithmetic: the position rank
    of its hit is a number in range. *)
Lemma position_rank_is_bounded_witness :
  exists hit p,
    Lib.check_technical_pattern (Exact.serve Scenario.B) "600519" "demo"
      = Return (Some hit)
    /\ Lib.position_rank hit = Fin p /\ 0 <= p /\ p <= 100.
Proof.
  destruct (@position_rank_is_bounded
              Exact.library exact_arithmetic
              (Exact.serve Scenario.B) "600519" "demo"
              (map Exact.of_daily Scenario.B)
              "akshare"%string
              (Exact.of_daily (Scenario.bar (Fin 10) 6 26 10.2 59))
              eq_refl ltac:(vm_compute; lia) ltac:(vm_compute; reflexivity))
    as (Hrange & _).
  eexists.
  destruct (Hrange _ 6 26 12
              ltac:(vm_compute; reflexivity) ltac:(vm_compute; reflexivity)
              ltac:(vm_compute; reflexivity) ltac:(vm_compute; reflexivity)
              ltac:(discriminate) ltac:(discriminate)
              ltac:(eexists; vm_compute; reflexivity)
              ltac:(eexists; vm_compute; reflexivity))
    as (p & Hp & H0 & H100).
  exists p. split; [vm_compute; reflexivity|].
  split; [exact Hp|]. split; assumption.
Defined.

(** ** The position in the annual range *)

(** C6 as first stated fails: nothing keeps the latest close
    inside the range of the [low] and [high] columns.  With a [low]
    column that stays above the latest close the position is negative,
    passes its gate, and the hit reports a negative [position_rank]. *)
Lemma hit_with_negative_position_rank :
  check_technical_pattern
    (Scenario.serve Scenario.low_above_close) "600519" "demo"
  = Return (Some {|
      ScreenHit.code := "600519";
      ScreenHit.name := "demo";
      ScreenHit.price := Fin 12;
      ScreenHit.limit_up_count := 1;
      ScreenHit.interval_increase := Fin 20.0;
      ScreenHit.position_rank := Fin (-100 # 13)
    |})
  /\ fle (Fin 0) (Fin (-100 # 13)) = false.
Proof. split; vm_compute; reflexivity. Qed.

(** ** The order of the fetched bars *)

Lemma leb_date_trans :
  Relations_1.Transitive (fun x y => is_true (DateOrder.leb x y)).
Proof.
  intros x y z. unfold is_true, DateOrder.leb.
  rewrite !Z.leb_le. lia.
Qed.

(** Two frames in date order with the same rows and no date twice are
    the same frame. *)
Lemma date_sorted_unique (l1 l2 : list DailyBar.t) :
  StronglySorted (fun x y => is_true (DateOrder.leb x y)) l1 ->
  StronglySorted (fun x y => is_true (DateOrder.leb x y)) l2 ->
  NoDup (map DailyBar.date l1) ->
  Permutation l1 l2 ->
  l1 = l2.
Proof.
  revert l2. induction l1 as [|x t1 IH]; intros l2 S1 S2 Hnd Hperm.
  - apply Permutation_nil in Hperm. now subst.
  - destruct l2 as [|y t2].
    { apply Permutation_sym, Permutation_nil in Hperm. discriminate. }
    inversion S1 as [|? ? S1' F1]; subst.
    inversion S2 as [|? ? S2' F2]; subst.
    inversion Hnd as [|? ? Hnotin Hnd']; subst.
    assert (Hxy : x = y).
    { assert (Hx : In x (y :: t2))
        by (apply (Permutation_in _ Hperm); now left).
      assert (Hy : In y (x :: t1))
        by (apply (Permutation_in _ (Permutation_sym Hperm)); now left).
      destruct Hx as [Hx|Hx]; [now symmetry|].
      destruct Hy as [Hy|Hy]; [exact Hy|].
      rewrite Forall_forall in F1, F2.
      specialize (F1 y Hy). specialize (F2 x Hx).
      unfold is_true, DateOrder.leb in F1, F2. rewrite Z.leb_le in F1, F2.
      exfalso. apply Hnotin.
      replace (DailyBar.date x) with (DailyBar.date y) by lia.
      now apply in_map. }
    subst y. f_equal.
    apply IH; try assumption.
    now apply Permutation_cons_inv with x.
Qed.

Lemma sort_values_date_permutation (df df' : list DailyBar.t) :
  Permutation df df' ->
  NoDup (map DailyBar.date df) ->
  sort_values_date df = sort_values_date df'.
Proof.
  intros Hperm Hnd. unfold sort_values_date.
  apply date_sorted_unique.
  - apply (Sorted_StronglySorted leb_date_trans), DateSort.Sorted_sort.
  - apply (Sorted_StronglySorted leb_date_trans), DateSort.Sorted_sort.
  - apply (Permutation_NoDup (l := map DailyBar.date df)); [|exact Hnd].
    apply Permutation_map, DateSort.Permuted_sort.
  - apply Permutation_trans with df.
    + apply Permutation_sym, DateSort.Permuted_sort.
    + apply Permutation_trans with df'; [exact Hperm|].
      apply DateSort.Permuted_sort.
Qed.

(** C10. When all bar dates are distinct, the answer is the same for
    every permutation of the fetched bars. *)
Theorem check_technical_pattern_permutation
  (fm fm' : fetcher) (code name : string) (df df' : list DailyBar.t)
  (src src' : string) :
  fm code 250%nat = Return (Some df, src) ->
  fm' code 250%nat = Return (Some df', src') ->
  Permutation df df' ->
  NoDup (map DailyBar.date df) ->
  check_technical_pattern fm code name = check_technical_pattern fm' code name.
Proof.
  intros Hfetch Hfetch' Hperm Hnd.
  unfold check_technical_pattern, check_technical_pattern_body.
  rewrite Hfetch, Hfetch'. cbn [bind].
  rewrite <- (sort_values_date_permutation Hperm Hnd).
  rewrite <- (Permutation_length Hperm).
  replace (empty df') with (empty df); [reflexivity|].
  apply Permutation_length in Hperm.
  destruct df, df'; try reflexivity; discriminate.
Qed.

Lemma scenario_dates_distinct (first_close : float) (low high rally : Q) :
  NoDup (map DailyBar.date (Scenario.history first_close low high rally)).
Proof.
  unfold Scenario.history. rewrite map_map. cbn [Scenario.bar DailyBar.date].
  apply Finite.Injective_map_NoDup; [|apply seq_NoDup].
  intros i j. lia.
Qed.

Lemma check_technical_pattern_permutation_witness :
  check_technical_pattern (Scenario.serve Scenario.B) "600519" "demo"
  = check_technical_pattern (Scenario.serve (rev Scenario.B)) "600519" "demo".
Proof.
  apply (@check_technical_pattern_permutation
           _ _ _ _ Scenario.B (rev Scenario.B)
           "akshare"%string "akshare"%string eq_refl eq_refl).
  - apply Permutation_rev.
  - apply scenario_dates_distinct.
Defined.

(** ** The orchestrator *)

Lemma lbind_Return (A B : Type) (a : A) (l : list record) (k : A -> logged B) :
  lbind (Return a, l) k = (fst (k a), l ++ snd (k a)).
Proof. unfold lbind. now destruct (k a). Qed.

(** The snapshot stage never raises; its result and log by cases. *)
Lemma get_market_snapshot_eval (p : Providers) :
  get_market_snapshot p =
  match import_packages p with
  | Raise e => (Return [], [(ERROR, SnapshotFailed e)])
  | Return _ =>
      match stock_zh_a_spot_em p with
      | Return df =>
          (Return df, [(INFO, TryAkShare); (INFO, AkShareOk (length df))])
      | Raise e =>
          match get_realtime_quotes p with
          | Return df =>
              (Return df, [(INFO, TryAkShare); (WARNING, AkShareFailed e);
                           (INFO, TryEfinance)])
          | Raise e' =>
              (Return [], [(INFO, TryAkShare); (WARNING, AkShareFailed e);
                           (INFO, TryEfinance); (ERROR, SnapshotFailed e')])
          end
      end
  end.
Proof.
  unfold get_market_snapshot.
  destruct (import_packages p) as [[]|e0]; [|reflexivity].
  destruct (stock_zh_a_spot_em p) as [df|e]; [reflexivity|].
  destruct (get_realtime_quotes p) as [df|e']; reflexivity.
Qed.

Lemma get_market_snapshot_returns (p : Providers) :
  exists df log, get_market_snapshot p = (Return df, log).
Proof.
  rewrite get_market_snapshot_eval.
  destruct (import_packages p); [|eauto].
  destruct (stock_zh_a_spot_em p); [eauto|].
  destruct (get_realtime_quotes p); eauto.
Qed.

(** [check_technical_pattern] never raises. *)
Lemma check_technical_pattern_returns (fm : fetcher) (code name : string) :
  exists answer, check_technical_pattern fm code name = Return answer.
Proof.
  unfold check_technical_pattern.
  destruct (check_technical_pattern_body fm code name); cbn; eauto.
Qed.

(** The collecting loop over futures that all hold a returned value. *)
Lemma collect_eval (completed : list future) (total processed : nat)
  (results : list ScreenHit.t) :
  Forall (fun fut => exists answer, fut = Return answer) completed ->
  exists log,
    collect completed total processed results
      = (Return (results ++ hits completed), log)
    /\ Forall (fun rec => exists n, rec = (INFO, Progress n total)) log.
Proof.
  revert processed results.
  induction completed as [|fut rest IH]; intros processed results Hall.
  - exists []. cbn. rewrite app_nil_r. split; [reflexivity | constructor].
  - inversion Hall as [|? ? [answer ->] Hrest]; subst.
    cbn [collect].
    destruct (IH (S processed)
                (match answer with
                 | Some hit => results ++ [hit]
                 | None => results
                 end) Hrest) as (log & Hlog & Hprog).
    assert (Hres :
      (match answer with Some hit => results ++ [hit] | None => results end)
        ++ hits rest
      = results ++ hits (Return answer :: rest)).
    { destruct answer; cbn; [now rewrite <- app_assoc | reflexivity]. }
    destruct (S processed mod 50 =? 0)%nat.
    + exists ((INFO, Progress (S processed) total) :: log). split.
      * unfold emit, lift. rewrite !lbind_Return. cbn [fst snd app].
        rewrite Hlog. cbn [fst snd]. now rewrite Hres.
      * constructor; [eauto | exact Hprog].
    + exists log. split; [|exact Hprog].
      unfold ret, lift. rewrite !lbind_Return. cbn [fst snd app].
      rewrite Hlog. cbn [fst snd]. now rewrite Hres.
Qed.

Lemma hits_all_absent (completed : list future) :
  Forall (fun fut => fut = Return None) completed -> hits completed = [].
Proof.
  induction 1 as [|fut rest -> _ IH]; [reflexivity | exact IH].
Qed.

(** The whole run, given the outcome of the snapshot stage. *)
Lemma run_screen_eval (w : World) (df_market : list QuoteRow.t)
  (log0 : list record) :
  get_market_snapshot (providers w) = (Return df_market, log0) ->
  (forall l, Permutation l (as_completed w l)) ->
  if empty df_market
  then run_screen w
       = (Return [], (INFO, ScreenStart) :: log0 ++ [(ERROR, NoSnapshot)])
  else
    exists progress,
      Forall (fun rec => exists n total, rec = (INFO, Progress n total))
             progress
      /\ run_screen w
         = (Return (hits (as_completed w (submitted w df_market))),
            (INFO, ScreenStart) :: log0
            ++ written (filter_basics df_market)
            ++ [(INFO, Candidates (length (submitted w df_market)));
                (INFO, FetchingHistory)]
            ++ progress
            ++ [(INFO, ScreenDone
                   (length (hits (as_completed w (submitted w df_market)))))]).
Proof.
  intros Hsnap Hperm. unfold run_screen.
  unfold emit at 1. rewrite lbind_Return. rewrite Hsnap, lbind_Return.
  destruct (empty df_market) eqn:Hempty.
  - unfold emit, ret. rewrite lbind_Return. reflexivity.
  - rewrite filter_basics_eval, Hempty, lbind_Return.
    fold (submitted w df_market).
    assert (Hall : Forall (fun fut : future => exists answer, fut = Return answer)
                     (as_completed w (submitted w df_market))).
    { apply Forall_forall. intros fut Hin.
      apply (Permutation_in _ (Permutation_sym (Hperm _))) in Hin.
      unfold submitted in Hin. apply in_map_iff in Hin.
      destruct Hin as (stock & <- & _).
      apply check_technical_pattern_returns. }
    destruct (collect_eval (length (candidates (filter passes_basics df_market)))
                0 [] Hall) as (progress & Hcollect & Hprog).
    exists progress. split.
    { revert Hprog. apply Forall_impl. intros rec [n ->]. eauto. }
    unfold emit, ret. rewrite !lbind_Return. rewrite Hcollect.
    rewrite !lbind_Return. cbn [fst snd app written].
    replace (length (submitted w df_market))
      with (length (candidates (filter passes_basics df_market)))
      by (unfold submitted; now rewrite length_map).
    reflexivity.
Qed.

(** C3. An error raised by the history fetch or by the computation on
    the frame stays inside [check_technical_pattern], which returns
    absent and never raises; and when the evaluation of every candidate
    raises inside, [run_screen] returns the empty list, it does not
    raise. *)
Theorem evaluation_errors_stay_inside (w : World) :
  (forall code name e,
     get_daily_data w code 250%nat = Raise e ->
     check_technical_pattern (get_daily_data w) code name = Return None)
  /\ (forall code name e,
        check_technical_pattern_body (get_daily_data w) code name = Raise e ->
        check_technical_pattern (get_daily_data w) code name = Return None)
  /\ (forall code name,
        exists answer,
          check_technical_pattern (get_daily_data w) code name = Return answer)
  /\ ((forall l, Permutation l (as_completed w l)) ->
      forall df_market,
        returned (get_market_snapshot (providers w)) = Return df_market ->
        (forall row, In row (filter passes_basics df_market) ->
           exists e,
             check_technical_pattern_body (get_daily_data w)
               (QuoteRow.code row) (QuoteRow.name row) = Raise e) ->
        returned (run_screen w) = Return []).
Proof.
  assert (Hbody : forall code name e,
    check_technical_pattern_body (get_daily_data w) code name = Raise e ->
    check_technical_pattern (get_daily_data w) code name = Return None).
  { intros code name e H. unfold check_technical_pattern. now rewrite H. }
  split; [|split; [exact Hbody|split]].
  - intros code name e H. now run_fetch H.
  - intros code name. apply check_technical_pattern_returns.
  - intros Hperm df_market Hsnap Hraise.
    destruct (get_market_snapshot (providers w)) as [r log0] eqn:E.
    cbn in Hsnap. subst r.
    pose proof (run_screen_eval w E Hperm) as Hrun.
    destruct (empty df_market).
    + now rewrite Hrun.
    + destruct Hrun as (progress & _ & ->). cbn [returned fst]. f_equal.
      apply hits_all_absent, Forall_forall. intros fut Hin.
      apply (Permutation_in _ (Permutation_sym (Hperm _))) in Hin.
      unfold submitted, candidates in Hin. rewrite map_map in Hin.
      apply in_map_iff in Hin. destruct Hin as (row & <- & Hrow).
      destruct (Hraise row Hrow) as [e He]. cbn [fst snd].
      apply (Hbody _ _ e He).
Qed.

Lemma evaluation_errors_stay_inside_witness :
  check_technical_pattern Scenario.offline "600000" "alpha" = Return None
  /\ returned (run_screen Scenario.histories_offline) = Return [].
Proof.
  destruct (evaluation_errors_stay_inside Scenario.histories_offline)
    as (Hfetch & _ & _ & Hrun).
  split.
  - apply (Hfetch "600000"%string "alpha"%string
             (Exception "connection reset")). reflexivity.
  - apply (Hrun (fun l => Permutation_rev l) Scenario.quotes).
    + reflexivity.
    + intros row _. exists (Exception "connection reset"). reflexivity.
Defined.

(* ------------------------------------------------------------------ *)
(** * The orchestrator over tables with named columns *)

(** ** Columns and their cells *)

Lemma has_column_index (col : string) (df : Columns.DataFrame) :
  Columns.has_column col df = true
  <-> exists i, Columns.index col (Columns.columns df) = Some i.
Proof.
  unfold Columns.has_column.
  induction (Columns.columns df) as [|c rest IH]; cbn.
  - split; [discriminate | intros [i H]; discriminate].
  - destruct (String.eqb col c); cbn; [split; eauto|].
    rewrite IH. split; intros [i H].
    + rewrite H. cbn. eauto.
    + destruct (Columns.index col rest); [eauto | discriminate].
Qed.

Lemma has_column_false (col : string) (df : Columns.DataFrame) :
  Columns.has_column col df = false
  <-> Columns.index col (Columns.columns df) = None.
Proof.
  split; intros H.
  - destruct (Columns.index col (Columns.columns df)) as [i|] eqn:E;
      [|reflexivity].
    assert (Ht : Columns.has_column col df = true)
      by (apply has_column_index; eauto).
    congruence.
  - destruct (Columns.has_column col df) eqn:E; [|reflexivity].
    apply has_column_index in E. destruct E as [i Hi]. congruence.
Qed.

Lemma update_number (f : Columns.cell -> Columns.cell) (i j : nat)
  (row : list Columns.cell) :
  (forall c, exists x, f c = Columns.Num x) ->
  i = j \/ (exists x, nth i row (Columns.Num NaN) = Columns.Num x) ->
  exists x, nth i (Columns.update j f row) (Columns.Num NaN) = Columns.Num x.
Proof.
  intros Hf. revert i j.
  induction row as [|c rest IH]; intros i j H.
  - destruct j; cbn; destruct i; eauto.
  - destruct j as [|j]; cbn.
    + destruct i as [|i]; [apply Hf|].
      destruct H as [H|H]; [discriminate | exact H].
    + destruct i as [|i].
      * destruct H as [H|H]; [discriminate | exact H].
      * apply IH. destruct H as [H|H]; [left; congruence | right; exact H].
Qed.

Lemma to_numeric_number (parse : string -> float) (c : Columns.cell) :
  exists x, Columns.to_numeric parse c = Columns.Num x.
Proof. destruct c; cbn; eauto. Qed.

Lemma coerce_columns (parse : string -> float) (df df' : Columns.DataFrame)
  (col : string) :
  Columns.coerce parse df col = Return df' ->
  Columns.columns df' = Columns.columns df.
Proof.
  unfold Columns.coerce.
  destruct (Columns.index col (Columns.columns df)); [|discriminate].
  destruct (Columns.occurrences col df =? 1)%nat; [|discriminate].
  intros H. injection H as <-. reflexivity.
Qed.

(** Coercing a column makes it numeric and leaves the numeric ones so. *)
Lemma coerce_numeric (parse : string -> float) (df df' : Columns.DataFrame)
  (col c : string) :
  Columns.coerce parse df col = Return df' ->
  c = col \/ Columns.numeric c df ->
  Columns.numeric c df'.
Proof.
  unfold Columns.coerce.
  destruct (Columns.index col (Columns.columns df)) as [j|] eqn:Hj;
    [|discriminate].
  destruct (Columns.occurrences col df =? 1)%nat; [|discriminate].
  intros Hdf H. injection Hdf as <-.
  unfold Columns.numeric. cbn [Columns.columns Columns.rows].
  assert (Hi : exists i, Columns.index c (Columns.columns df) = Some i
                 /\ (i = j \/ Forall (fun row =>
                        exists x, nth i row (Columns.Num NaN) = Columns.Num x)
                      (Columns.rows df))).
  { destruct H as [->|(i & Hi & Hall)]; [exists j | exists i]; tauto. }
  destruct Hi as (i & Hi & Hnum). exists i. split; [exact Hi|].
  rewrite Forall_map. apply Forall_forall. intros row Hrow.
  apply update_number; [apply to_numeric_number|].
  destruct Hnum as [->|Hall]; [now left|].
  right. rewrite Forall_forall in Hall. now apply Hall.
Qed.

Lemma coerce_all_columns (parse : string -> float) (cols : list string)
  (df df' : Columns.DataFrame) :
  Columns.coerce_all parse cols df = Return df' ->
  Columns.columns df' = Columns.columns df.
Proof.
  revert df. induction cols as [|c0 rest IH]; intros df H.
  - cbn in H. now injection H as <-.
  - cbn [Columns.coerce_all] in H.
    destruct (Columns.has_column c0 df).
    + destruct (Columns.coerce parse df c0) as [df1|e] eqn:E;
        [|discriminate H].
      cbn [bind] in H. rewrite (IH _ H). exact (@coerce_columns parse df df1 c0 E).
    + cbn [bind] in H. exact (IH _ H).
Qed.

Lemma coerce_all_keeps (parse : string -> float) (cols : list string)
  (df df' : Columns.DataFrame) (c : string) :
  Columns.coerce_all parse cols df = Return df' ->
  Columns.numeric c df ->
  Columns.numeric c df'.
Proof.
  revert df. induction cols as [|c0 rest IH]; intros df H Hc.
  - cbn in H. now injection H as <-.
  - cbn [Columns.coerce_all] in H.
    destruct (Columns.has_column c0 df).
    + destruct (Columns.coerce parse df c0) as [df1|e] eqn:E;
        [|discriminate H].
      cbn [bind] in H. apply (IH _ H).
      apply (@coerce_numeric parse df df1 c0 c E). now right.
    + cbn [bind] in H. exact (IH _ H Hc).
Qed.

Lemma coerce_all_numeric (parse : string -> float) (cols : list string)
  (df df' : Columns.DataFrame) (c : string) :
  Columns.coerce_all parse cols df = Return df' ->
  In c cols ->
  Columns.has_column c df = true ->
  Columns.numeric c df'.
Proof.
  revert df. induction cols as [|c0 rest IH]; intros df H Hin Hc;
    [destruct Hin|].
  cbn [Columns.coerce_all] in H. destruct Hin as [->|Hin].
  - rewrite Hc in H.
    destruct (Columns.coerce parse df c) as [df1|e] eqn:E; [|discriminate H].
    cbn [bind] in H. apply (@coerce_all_keeps parse rest df1 df' c H).
    apply (@coerce_numeric parse df df1 c c E). now left.
  - destruct (Columns.has_column c0 df).
    + destruct (Columns.coerce parse df c0) as [df1|e] eqn:E;
        [|discriminate H].
      cbn [bind] in H. apply (IH _ H Hin).
      unfold Columns.has_column. rewrite (@coerce_columns parse df df1 c0 E). exact Hc.
    + cbn [bind] in H. exact (IH _ H Hin Hc).
Qed.

Lemma normalise_numeric (parse : string -> float)
  (df df' : Columns.DataFrame) (c : string) :
  Columns.normalise parse df = Return df' ->
  In c Columns.numeric_cols ->
  Columns.has_column c df' = true ->
  Columns.numeric c df'.
Proof.
  unfold Columns.normalise. intros H Hin Hc.
  apply (@coerce_all_numeric parse Columns.numeric_cols _ df' c H Hin).
  unfold Columns.has_column in *.
  now rewrite <- (@coerce_all_columns parse Columns.numeric_cols _ df' H).
Qed.

(** ** The snapshot stage *)

(** The snapshot stage never raises; its result and log by cases. *)
Lemma columns_snapshot_eval (p : Columns.Providers) :
  Columns.get_market_snapshot p =
  match Columns.import_packages p with
  | Raise e => (Return Columns.no_frame, [(ERROR, SnapshotFailed e)])
  | Return _ =>
      match Columns.stock_zh_a_spot_em p with
      | Return df =>
          match Columns.normalise (Columns.parse p)
                  (Columns.rename Columns.akshare_rename_map df) with
          | Return df' =>
              (Return df',
               [(INFO, TryAkShare); (INFO, AkShareOk (Columns.len df))])
          | Raise e =>
              (Return Columns.no_frame,
               [(INFO, TryAkShare); (INFO, AkShareOk (Columns.len df));
                (ERROR, SnapshotFailed e)])
          end
      | Raise e =>
          match Columns.get_realtime_quotes p with
          | Return df =>
              match Columns.normalise (Columns.parse p) df with
              | Return df' =>
                  (Return df',
                   [(INFO, TryAkShare); (WARNING, AkShareFailed e);
                    (INFO, TryEfinance)])
              | Raise e' =>
                  (Return Columns.no_frame,
                   [(INFO, TryAkShare); (WARNING, AkShareFailed e);
                    (INFO, TryEfinance); (ERROR, SnapshotFailed e')])
              end
          | Raise e' =>
              (Return Columns.no_frame,
               [(INFO, TryAkShare); (WARNING, AkShareFailed e);
                (INFO, TryEfinance); (ERROR, SnapshotFailed e')])
          end
      end
  end.
Proof.
  unfold Columns.get_market_snapshot.
  destruct (Columns.import_packages p) as [[]|e0]; [|reflexivity].
  destruct (Columns.stock_zh_a_spot_em p) as [df|e].
  - unfold ltry, lbind, emit, lift, ret. cbn [app].
    destruct (Columns.normalise (Columns.parse p) _); reflexivity.
  - destruct (Columns.get_realtime_quotes p) as [df|e']; [|reflexivity].
    unfold ltry, lbind, emit, lift, ret. cbn [app].
    destruct (Columns.normalise (Columns.parse p) df); reflexivity.
Qed.

(** The numeric columns of a snapshot hold numbers. *)
Lemma snapshot_numeric (p : Columns.Providers) (df : Columns.DataFrame)
  (c : string) :
  returned (Columns.get_market_snapshot p) = Return df ->
  In c Columns.numeric_cols ->
  Columns.has_column c df = true ->
  Columns.numeric c df.
Proof.
  rewrite columns_snapshot_eval. unfold returned. intros Hdf Hin Hc.
  destruct (Columns.import_packages p).
  - destruct (Columns.stock_zh_a_spot_em p).
    + destruct (Columns.normalise (Columns.parse p) _) eqn:E;
        cbn [fst] in Hdf; injection Hdf as <-;
        [exact (@normalise_numeric _ _ _ c E Hin Hc) | discriminate Hc].
    + destruct (Columns.get_realtime_quotes p);
        [|cbn [fst] in Hdf; injection Hdf as <-; discriminate Hc].
      destruct (Columns.normalise (Columns.parse p) _) eqn:E;
        cbn [fst] in Hdf; injection Hdf as <-;
        [exact (@normalise_numeric _ _ _ c E Hin Hc) | discriminate Hc].
  - cbn [fst] in Hdf. injection Hdf as <-. discriminate Hc.
Qed.

(** ** The filter *)

Lemma keep_where_numeric (test : float -> bool) (col : string)
  (df : Columns.DataFrame) (i : nat) :
  Columns.index col (Columns.columns df) = Some i ->
  Forall (fun row => exists x, nth i row (Columns.Num NaN) = Columns.Num x)
         (Columns.rows df) ->
  Columns.keep_where test col df
  = Return {| Columns.columns := Columns.columns df;
              Columns.rows := filter (Columns.row_test test i) (Columns.rows df) |}.
Proof.
  intros Hi Hall. unfold Columns.keep_where, Columns.getitem. rewrite Hi.
  cbn [bind].
  assert (H : forall rows,
    Forall (fun row => exists x, nth i row (Columns.Num NaN) = Columns.Num x)
           rows ->
    exists m,
      Columns.mask test (map (fun row => nth i row (Columns.Num NaN)) rows)
      = Return m
      /\ Columns.select m rows = filter (Columns.row_test test i) rows).
  { induction 1 as [|row rest [x Hx] _ (m & Hm & Hsel)].
    - exists []. split; reflexivity.
    - exists (test x :: m). cbn [map Columns.mask]. rewrite Hx, Hm.
      split; [reflexivity|]. cbn [Columns.select filter].
      unfold Columns.row_test at 1. rewrite Hx. now rewrite Hsel. }
  destruct (H _ Hall) as (m & Hm & Hsel).
  rewrite Hm. cbn [bind]. now rewrite Hsel.
Qed.

Lemma keep_where_missing (test : float -> bool) (col : string)
  (df : Columns.DataFrame) :
  Columns.has_column col df = false ->
  Columns.keep_where test col df = Raise (Columns.KeyError col).
Proof.
  intros H. apply has_column_false in H.
  unfold Columns.keep_where, Columns.getitem. now rewrite H.
Qed.

Lemma Forall_filter_keeps (A : Type) (P : A -> Prop) (f : A -> bool)
  (l : list A) :
  Forall P l -> Forall P (filter f l).
Proof.
  rewrite !Forall_forall. intros H x Hx. apply filter_In in Hx. now apply H.
Qed.

(** [filter_basics] on a frame that is not empty, has the three columns
    and holds numbers in them. *)
Lemma columns_filter_basics_eval (df : Columns.DataFrame)
  (i_price i_pe i_mv : nat) :
  Columns.empty df = false ->
  Columns.index "price" (Columns.columns df) = Some i_price ->
  Columns.index "pe" (Columns.columns df) = Some i_pe ->
  Columns.index "total_mv" (Columns.columns df) = Some i_mv ->
  Forall (fun row => exists x, nth i_price row (Columns.Num NaN) = Columns.Num x)
         (Columns.rows df) ->
  Forall (fun row => exists x, nth i_pe row (Columns.Num NaN) = Columns.Num x)
         (Columns.rows df) ->
  Forall (fun row => exists x, nth i_mv row (Columns.Num NaN) = Columns.Num x)
         (Columns.rows df) ->
  let kept := filter (Columns.passes i_price i_pe i_mv) (Columns.rows df) in
  Columns.filter_basics df
  = (Return {| Columns.columns := Columns.columns df; Columns.rows := kept |},
     [(INFO, FilterBefore (Columns.len df));
      (INFO, FilterAfter (length kept))]).
Proof.
  intros Hne H1 H2 H3 N1 N2 N3 kept.
  unfold Columns.filter_basics. rewrite Hne.
  rewrite (keep_where_numeric _ _ _ H1 N1).
  unfold emit, lift. rewrite !lbind_Return. cbn [fst snd app].
  rewrite (@keep_where_numeric _ "pe" _ i_pe);
    [|exact H2 | now apply Forall_filter_keeps].
  rewrite !lbind_Return. cbn [fst snd app Columns.columns Columns.rows].
  rewrite (@keep_where_numeric _ "total_mv" _ i_mv);
    [|exact H3 | now do 2 apply Forall_filter_keeps].
  rewrite !lbind_Return. cbn [fst snd app Columns.columns Columns.rows].
  rewrite !filter_twice.
  rewrite (filter_ext _ (Columns.passes i_price i_pe i_mv))
    by (intros x; unfold Columns.passes; apply andb_assoc).
  unfold ret, Columns.len.
  cbn [fst snd app Columns.columns Columns.rows]. reflexivity.
Qed.

(** ** The run *)

(** C8. When the snapshot cannot be fetched from any provider the
    snapshot stage returns the empty frame and logs the error, and on an
    empty snapshot [run_screen] logs that the run stops and returns the
    empty list, without raising.  This is not the only early exit: on a
    snapshot that is not empty and lacks one of the columns [price],
    [pe] and [total_mv] while it has those looked up before it,
    [filter_basics] raises [KeyError], [run_screen] lets it through, and
    the log ends with the row count written before the first mask. *)
Theorem missing_column_aborts_the_run (w : Columns.World) :
  let p := Columns.providers w in
  let snapshot := Columns.get_market_snapshot p in
  ((exists e, Columns.import_packages p = Raise e)
   \/ ((exists e, Columns.stock_zh_a_spot_em p = Raise e)
       /\ (exists e, Columns.get_realtime_quotes p = Raise e)) ->
   returned snapshot = Return Columns.no_frame
   /\ exists e, In (ERROR, SnapshotFailed e) (written snapshot))
  /\ (forall df,
        returned snapshot = Return df ->
        Columns.empty df = true ->
        Columns.run_screen w
        = (Return [],
           (INFO, ScreenStart) :: written snapshot ++ [(ERROR, NoSnapshot)]))
  /\ (forall df k col,
        returned snapshot = Return df ->
        Columns.empty df = false ->
        nth_error Columns.filter_columns k = Some col ->
        (forall c, In c (firstn k Columns.filter_columns) ->
                   Columns.has_column c df = true) ->
        Columns.has_column col df = false ->
        Columns.run_screen w
        = (Raise (Columns.KeyError col),
           (INFO, ScreenStart) :: written snapshot
           ++ [(INFO, FilterBefore (Columns.len df))])).
Proof.
  intros p snapshot. split; [|split].
  - intros Hdown. unfold snapshot. rewrite columns_snapshot_eval.
    destruct Hdown as [[e ->] | [[e ->] [e' ->]]].
    + split; [reflexivity|]. exists e. now left.
    + destruct (Columns.import_packages p).
      * split; [reflexivity|]. exists e'. cbn. tauto.
      * split; [reflexivity|]. eexists. now left.
  - intros df Hdf Hempty. unfold Columns.run_screen. subst snapshot p.
    destruct (Columns.get_market_snapshot (Columns.providers w))
      as [r log0].
    cbn [returned fst] in Hdf. subst r. cbn [written snd].
    unfold emit at 1. rewrite !lbind_Return. rewrite Hempty.
    unfold emit, ret. rewrite !lbind_Return. reflexivity.
  - intros df k col Hdf Hne Hk Hbefore Hmissing.
    assert (Hnum : forall c, In c Columns.filter_columns ->
              Columns.has_column c df = true -> Columns.numeric c df).
    { intros c Hc. apply (snapshot_numeric p); [exact Hdf|].
      unfold Columns.filter_columns, Columns.numeric_cols in *.
      cbn [In] in *. tauto. }
    unfold Columns.run_screen. subst snapshot p.
    destruct (Columns.get_market_snapshot (Columns.providers w))
      as [r log0].
    cbn [returned fst] in Hdf. subst r. cbn [written snd].
    unfold emit at 1. rewrite !lbind_Return. rewrite Hne.
    cbn [fst snd].
    assert (Hfilter : Columns.filter_basics df
              = (Raise (Columns.KeyError col),
                 [(INFO, FilterBefore (Columns.len df))])).
    { unfold Columns.filter_basics. rewrite Hne.
      unfold emit, lift. rewrite !lbind_Return. cbn [fst snd app].
      destruct k as [|[|[|k]]]; cbn in Hk;
        [| | |destruct k; discriminate]; injection Hk as <-.
      - now rewrite (keep_where_missing _ _ _ Hmissing).
      - destruct (Hnum "price"%string ltac:(cbn; tauto)
                    (Hbefore "price"%string ltac:(cbn; tauto))) as (i1 & H1 & N1).
        rewrite (keep_where_numeric _ _ _ H1 N1). rewrite !lbind_Return.
        rewrite keep_where_missing; [reflexivity | exact Hmissing].
      - destruct (Hnum "price"%string ltac:(cbn; tauto)
                    (Hbefore "price"%string ltac:(cbn; tauto))) as (i1 & H1 & N1).
        destruct (Hnum "pe"%string ltac:(cbn; tauto)
                    (Hbefore "pe"%string ltac:(cbn; tauto))) as (i2 & H2 & N2).
        rewrite (keep_where_numeric _ _ _ H1 N1). rewrite !lbind_Return.
        rewrite (@keep_where_numeric _ "pe" _ i2);
          [|exact H2 | now apply Forall_filter_keeps].
        rewrite !lbind_Return.
        rewrite keep_where_missing; [reflexivity | exact Hmissing]. }
    rewrite Hfilter. cbn. reflexivity.
Qed.

(** The first provider is down and the second answers under its own
    headers: the price-earnings column is not recognised, and the run
    ends in [KeyError]. *)
Lemma missing_column_aborts_the_run_witness :
  Columns.run_screen Columns.efinance_only
  = (Raise (Columns.KeyError "pe"),
     [(INFO, ScreenStart); (INFO, TryAkShare);
      (WARNING, AkShareFailed (Exception "akshare timeout"));
      (INFO, TryEfinance); (INFO, FilterBefore 2)]).
Proof.
  destruct (missing_column_aborts_the_run Columns.efinance_only)
    as (_ & _ & Hraise).
  rewrite (Hraise _ 1%nat "pe"%string eq_refl);
    try (vm_compute; reflexivity).
  intros c [<-|[]]. vm_compute. reflexivity.
Defined.

(* ------------------------------------------------------------------ *)
(** * Further properties of the code *)

(** ** More on sums and means *)

Lemma fadd_Fin_inv (x y : float) (q : Q) :
  fadd x y = Fin q -> (exists a, x = Fin a) /\ (exists b, y = Fin b).
Proof.
  destruct x, y; cbn; try discriminate. eauto.
Qed.

Lemma fsum_Fin_inv (col : list float) (q : Q) :
  fsum col = Fin q -> Forall (fun x => exists a, x = Fin a) col.
Proof.
  revert q. induction col as [|x col IH]; intros q H; [constructor|].
  cbn in H. apply fadd_Fin_inv in H. destruct H as [Hx [b Hb]].
  constructor; [exact Hx | apply (IH b Hb)].
Qed.

Lemma window_mean_Fin_inv (k : nat) (col : list float) (q : Q) :
  window_mean k col = Fin q ->
  (k <= length col)%nat
  /\ Forall (fun x => exists a, x = Fin a) (tail k col).
Proof.
  unfold window_mean.
  destruct (Nat.ltb_spec (length col) k) as [Hlt|Hge]; [discriminate|].
  intros H. split; [exact Hge|].
  destruct (fsum (tail k col)) as [| | |s] eqn:E.
  - discriminate H.
  - cbn in H. destruct (Qneg _); discriminate H.
  - cbn in H. destruct (negb _); discriminate H.
  - apply (fsum_Fin_inv _ E).
Qed.

(** A value strictly between two others is a number. *)
Lemma fgt_between (x y z : float) :
  fgt x y = true -> fgt y z = true -> exists q, y = Fin q.
Proof.
  destruct x, y, z; cbn; try discriminate; eauto.
Qed.

(** ** The hit and the fetched frame *)

(** X1. The [limit_up_count] of a hit counts bars of the 60-bar window:
    it never exceeds 60. *)
Theorem hit_limit_up_count_at_most_60
  (fm : fetcher) (code name : string) (hit : ScreenHit.t) :
  check_technical_pattern fm code name = Return (Some hit) ->
  (ScreenHit.limit_up_count hit <= 60)%nat.
Proof.
  intros Hhit.
  destruct (check_technical_pattern_hit _ _ _ Hhit)
    as (df & src & last_row & first_row & _ & _ & _ & _ & Hscreen).
  apply screen_Some in Hscreen. destruct Hscreen as [_ ->]. cbn.
  eapply Nat.le_trans; [apply filter_length_le|].
  rewrite length_tail. lia.
Qed.

Lemma hit_limit_up_count_at_most_60_witness :
  exists hit,
    check_technical_pattern (Scenario.serve Scenario.B) "600519" "demo"
      = Return (Some hit)
    /\ (ScreenHit.limit_up_count hit <= 60)%nat.
Proof.
  eexists. split; [vm_compute; reflexivity|].
  apply (@hit_limit_up_count_at_most_60
           (Scenario.serve Scenario.B) "600519" "demo").
  vm_compute. reflexivity.
Defined.

(** X2. The [price] of a hit is the close of a fetched bar whose date is
    the greatest of the frame, in whatever order the bars were
    fetched. *)
Theorem hit_price_is_latest_close
  (fm : fetcher) (code name : string) (hit : ScreenHit.t) :
  check_technical_pattern fm code name = Return (Some hit) ->
  exists df src latest,
    fm code 250%nat = Return (Some df, src)
    /\ In latest df
    /\ (forall bar, In bar df ->
          (DailyBar.date bar <= DailyBar.date latest)%Z)
    /\ ScreenHit.price hit = DailyBar.close latest.
Proof.
  intros Hhit.
  destruct (check_technical_pattern_hit _ _ _ Hhit)
    as (df & src & last_row & first_row & Hfetch & _ & Hlast & _ & Hscreen).
  apply screen_Some in Hscreen. destruct Hscreen as [_ ->].
  apply iloc_last_nth in Hlast. destruct Hlast as [_ Hnth].
  pose proof (DateSort.Permuted_sort df) as Hperm.
  fold (sort_values_date df) in Hperm.
  exists df, src, last_row. split; [exact Hfetch|]. split; [|split].
  - apply (Permutation_in _ (Permutation_sym Hperm)).
    eapply nth_error_In, Hnth.
  - intros bar Hbar.
    assert (Hs : StronglySorted (fun x y => is_true (DateOrder.leb x y))
                   (sort_values_date df))
      by (apply (Sorted_StronglySorted leb_date_trans), DateSort.Sorted_sort).
    destruct (strongly_sorted_last Hs Hnth bar
                (Permutation_in _ Hperm Hbar)) as [->|Hle]; [lia|].
    unfold is_true, DateOrder.leb in Hle. now apply Z.leb_le.
  - reflexivity.
Qed.

Lemma hit_price_is_latest_close_witness :
  exists df src latest,
    Scenario.serve (rev Scenario.B) "600519"%string 250%nat
      = Return (Some df, src)
    /\ In latest df
    /\ (forall bar, In bar df ->
          (DailyBar.date bar <= DailyBar.date latest)%Z)
    /\ Fin 12 = DailyBar.close latest.
Proof.
  apply (@hit_price_is_latest_close
           (Scenario.serve (rev Scenario.B)) "600519" "demo"
           {| ScreenHit.code := "600519"; ScreenHit.name := "demo";
              ScreenHit.price := Fin 12; ScreenHit.limit_up_count := 1;
              ScreenHit.interval_increase := Fin 20.0;
              ScreenHit.position_rank := Fin (600 # 20) |}).
  vm_compute. reflexivity.
Defined.

(** X3. The [price] of a hit is a number, never NaN or an infinity, and
    so is each of the ten most recent closes: MA10 lies strictly between
    MA5 and MA20, which a missing or infinite close in its window would
    not allow. *)
Theorem hit_price_is_a_number
  (fm : fetcher) (code name : string) (hit : ScreenHit.t) :
  check_technical_pattern fm code name = Return (Some hit) ->
  (exists q, ScreenHit.price hit = Fin q)
  /\ exists df src,
       fm code 250%nat = Return (Some df, src)
       /\ Forall (fun bar => exists q, DailyBar.close bar = Fin q)
                 (tail 10 (sort_values_date df)).
Proof.
  intros Hhit.
  destruct (check_technical_pattern_hit _ _ _ Hhit)
    as (df & src & last_row & first_row & Hfetch & Hlen & Hlast & _ & Hscreen).
  apply screen_Some in Hscreen.
  destruct Hscreen as [(_ & _ & (H5 & H10) & _) ->].
  destruct (fgt_between _ _ _ H5 H10) as [q Hq].
  apply window_mean_Fin_inv in Hq. destruct Hq as [_ Hfin].
  rewrite tail_map in Hfin. rewrite Forall_map in Hfin.
  split.
  - apply iloc_last_nth in Hlast. destruct Hlast as [_ Hnth].
    apply (@last_row_in_tail _ 10 _ _ ltac:(lia)) in Hnth.
    apply nth_error_In in Hnth.
    rewrite Forall_forall in Hfin. apply (Hfin _ Hnth).
  - exists df, src. split; [exact Hfetch | exact Hfin].
Qed.

Lemma hit_price_is_a_number_witness :
  exists hit q,
    check_technical_pattern (Scenario.serve Scenario.B) "600519" "demo"
      = Return (Some hit)
    /\ ScreenHit.price hit = Fin q.
Proof.
  eexists.
  destruct (@hit_price_is_a_number
              (Scenario.serve Scenario.B) "600519" "demo" _
              ltac:(vm_compute; reflexivity)) as [[q Hq] _].
  exists q. split; [vm_compute; reflexivity | exact Hq].
Defined.

(** ** What the older bars can change *)

(** X4. Bars older than the 60 most recent ones reach the answer only
    through [max(high)], [min(low)] and the three rolling means at the
    latest bar: two fetched frames with the same 60 most recent bars
    and the same five cells get the same answer. *)
Theorem older_bars_act_through_five_cells
  (L : Lib.Library) (fm fm' : Lib.fetcher L) (code name : string)
  (df df' : list (Lib.Bar (Lib.cell L))) (src src' : string) :
  fm code 250%nat = Return (Some df, src) ->
  fm' code 250%nat = Return (Some df', src') ->
  (60 <= length df)%nat ->
  (60 <= length df')%nat ->
  let sorted := Lib.sort_values_date L df in
  let sorted' := Lib.sort_values_date L df' in
  tail 60 sorted = tail 60 sorted' ->
  Lib.year_high L sorted = Lib.year_high L sorted' ->
  Lib.year_low L sorted = Lib.year_low L sorted' ->
  Lib.moving_average L 5 sorted = Lib.moving_average L 5 sorted' ->
  Lib.moving_average L 10 sorted = Lib.moving_average L 10 sorted' ->
  Lib.moving_average L 20 sorted = Lib.moving_average L 20 sorted' ->
  Lib.check_technical_pattern fm code name
  = Lib.check_technical_pattern fm' code name.
Proof.
  intros Hfetch Hfetch' Hlen Hlen' sorted sorted' Hwin Hhigh Hlow H5 H10 H20.
  destruct (lib_check_eval fm code name Hfetch Hlen)
    as (last_row & first_row & Hlast & Hfirst & ->).
  destruct (lib_check_eval fm' code name Hfetch' Hlen')
    as (last_row' & first_row' & Hlast' & Hfirst' & ->).
  fold sorted in Hlast, Hfirst. fold sorted' in Hlast', Hfirst'.
  fold sorted sorted'.
  assert (Hs : sorted <> []).
  { intro E. rewrite E in Hlast. discriminate Hlast. }
  assert (Hs' : sorted' <> []).
  { intro E. rewrite E in Hlast'. discriminate Hlast'. }
  rewrite <- (@iloc_last_tail _ 60 sorted ltac:(lia) Hs) in Hlast.
  rewrite <- (@iloc_last_tail _ 60 sorted' ltac:(lia) Hs') in Hlast'.
  rewrite Hwin in Hlast, Hfirst.
  assert (last_row = last_row') by congruence.
  assert (first_row = first_row') by congruence.
  subst last_row' first_row'. f_equal.
  unfold Lib.screen, Lib.hit_of.
  now rewrite Hwin, Hhigh, Hlow, H5, H10, H20.
Qed.

(** With exact arithmetic an older bar with a 50 percent move and a
    close of 20 changes nothing. *)
Lemma older_bars_act_through_five_cells_witness :
  Lib.check_technical_pattern (Exact.serve Scenario.B) "600519" "demo"
  = Lib.check_technical_pattern
      (Exact.serve (Scenario2.old_bar :: Scenario.B)) "600519" "demo".
Proof.
  apply (@older_bars_act_through_five_cells
           Exact.library _ _ _ _
           (map Exact.of_daily Scenario.B)
           (map Exact.of_daily (Scenario2.old_bar :: Scenario.B))
           "akshare"%string "akshare"%string eq_refl eq_refl).
  - vm_compute. lia.
  - vm_compute. lia.
  - vm_compute. reflexivity.
  - vm_compute. reflexivity.
  - vm_compute. reflexivity.
  - vm_compute. reflexivity.
  - vm_compute. reflexivity.
  - vm_compute. reflexivity.
Defined.

(** ** The bounds of the gates *)

(** X5. The two ceilings are inclusive: with a rally in the window and
    MA5 > MA10 > MA20, an interval return of exactly 0.5 and a position
    of exactly 0.5 still give a hit, reported as 50 and 50. *)
Theorem ceilings_are_inclusive
  (fm : fetcher) (code name : string) (df : list DailyBar.t) (src : string)
  (last_row first_row : DailyBar.t) :
  fm code 250%nat = Return (Some df, src) ->
  (60 <= length df)%nat ->
  let sorted := sort_values_date df in
  iloc sorted (-1) = Return last_row ->
  iloc (tail 60 sorted) 0 = Return first_row ->
  Exists (fun bar => limit_up bar = true) (tail 60 sorted) ->
  fgt (moving_average 5 sorted) (moving_average 10 sorted) = true ->
  fgt (moving_average 10 sorted) (moving_average 20 sorted) = true ->
  is_num (interval_return (DailyBar.close last_row)
                          (DailyBar.close first_row)) 0.5 ->
  is_num (position (DailyBar.close last_row)
                   (year_high sorted) (year_low sorted)) 0.5 ->
  exists hit,
    check_technical_pattern fm code name = Return (Some hit)
    /\ is_num (ScreenHit.interval_increase hit) 50
    /\ is_num (ScreenHit.position_rank hit) 50.
Proof.
  intros Hfetch Hlen sorted Hlast Hfirst Hrally H5 H10 Hint Hpos.
  destruct (check_technical_pattern_eval fm code name Hfetch Hlen)
    as (last_row' & first_row' & Hlast' & Hfirst' & ->).
  fold sorted in Hlast', Hfirst'.
  assert (last_row' = last_row) by congruence.
  assert (first_row' = first_row) by congruence.
  subst last_row' first_row'. fold sorted.
  eexists. split.
  - f_equal. apply screen_pass. repeat split; try assumption.
    + now rewrite (@fgt_num _ (Fin 0.5) 0.5 0.5 Hint (Qeq_refl _)).
    + now rewrite (@fgt_num _ (Fin 0.5) 0.5 0.5 Hpos (Qeq_refl _)).
  - cbn. split.
    + apply (is_num_compat _ (@fmul_num _ (Fin 100) 0.5 100 Hint (Qeq_refl _))).
      reflexivity.
    + apply (is_num_compat _ (@fmul_num _ (Fin 100) 0.5 100 Hpos (Qeq_refl _))).
      reflexivity.
Qed.

Lemma ceilings_are_inclusive_witness :
  exists hit,
    check_technical_pattern
      (Scenario.serve Scenario2.on_the_bounds) "600519" "demo"
      = Return (Some hit)
    /\ is_num (ScreenHit.interval_increase hit) 50
    /\ is_num (ScreenHit.position_rank hit) 50.
Proof.
  apply (@ceilings_are_inclusive
           _ _ _ Scenario2.on_the_bounds "akshare"%string
           (Scenario.bar (Fin 8) 6 18 10.2 59)
           (Scenario.bar (Fin 8) 6 18 10.2 0)).
  - reflexivity.
  - vm_compute. lia.
  - vm_compute. reflexivity.
  - vm_compute. reflexivity.
  - apply filter_nonempty_Exists. vm_compute. reflexivity.
  - vm_compute. reflexivity.
  - vm_compute. reflexivity.
  - vm_compute. reflexivity.
  - vm_compute. reflexivity.
Defined.

(** ** A window that starts at a close of zero *)

(** X6. A close of zero at the start of the 60-bar window does not
    raise.  With a latest close that is a number above zero the interval
    return is an infinity.  When it is [+inf] it is above the ceiling
    and the answer is absent; when it is [-inf], as float64 gives for a
    zero of negative sign, it passes its gate, and with the other three
    gates passing the answer is a hit. *)
Theorem zero_base_close_gives_an_infinity
  (L : Lib.Library) (I : Lib.Ieee L) (fm : Lib.fetcher L)
  (code name : string) (df : list (Lib.Bar (Lib.cell L))) (src : string)
  (last_row first_row : Lib.Bar (Lib.cell L)) (c : Q) :
  fm code 250%nat = Return (Some df, src) ->
  (60 <= length df)%nat ->
  let sorted := Lib.sort_values_date L df in
  iloc sorted (-1) = Return last_row ->
  iloc (tail 60 sorted) 0 = Return first_row ->
  Lib.value L (Lib.close last_row) = Fin c ->
  0 < c ->
  is_num (Lib.value L (Lib.close first_row)) 0 ->
  let interval :=
    Lib.interval_return L (Lib.close last_row) (Lib.close first_row) in
  let pos :=
    Lib.position L (Lib.close last_row)
      (Lib.year_high L sorted) (Lib.year_low L sorted) in
  (Lib.value L interval = PInf \/ Lib.value L interval = NInf)
  /\ (Lib.value L interval = PInf ->
      Lib.check_technical_pattern fm code name = Return None)
  /\ (Lib.value L interval = NInf ->
      Exists (fun bar => fgt (Lib.value L (Lib.pct_chg bar)) (Fin 9.5) = true)
             (tail 60 sorted) ->
      fgt (Lib.value L (Lib.moving_average L 5 sorted))
          (Lib.value L (Lib.moving_average L 10 sorted)) = true ->
      fgt (Lib.value L (Lib.moving_average L 10 sorted))
          (Lib.value L (Lib.moving_average L 20 sorted)) = true ->
      fgt (Lib.value L pos) (Fin 0.5) = false ->
      exists hit,
        Lib.check_technical_pattern fm code name = Return (Some hit)
        /\ Lib.interval_increase hit = Lib.mul L interval (Lib.lit_100 L)).
Proof.
  intros Hfetch Hlen sorted Hlast Hfirst Hc Hpos Hzero interval pos.
  destruct (lib_check_eval fm code name Hfetch Hlen)
    as (last_row' & first_row' & Hlast' & Hfirst' & Heval).
  fold sorted in Hlast', Hfirst', Heval.
  rewrite Hlast in Hlast'. injection Hlast' as <-.
  rewrite Hfirst in Hfirst'. injection Hfirst' as <-.
  fold interval pos in Heval.
  destruct (@is_num_Fin _ _ Hzero) as (z & Ez & Hz).
  split; [|split].
  - unfold interval, Lib.interval_return.
    destruct (@rnd_between L I c (c - z) c c c) as (d & Hd & Hlo & Hhi).
    + rewrite Hz. lra.
    + rewrite Hz. lra.
    + apply (Lib.rnd_value I _ Hc).
    + apply (Lib.rnd_value I _ Hc).
    + assert (Esub : Lib.value L (Lib.sub L (Lib.close last_row)
                                    (Lib.close first_row)) = Fin d)
        by (now rewrite (Lib.sub_rounds I _ _ Hc Ez)).
      apply (Lib.div_by_zero I _ _ Esub Ez Hz).
      intro Hd0. rewrite Hd0 in Hlo. lra.
  - intros Hinf. rewrite Heval. f_equal. apply lib_screen_None.
    intros G. apply lib_gates_values in G. destruct G as (_ & G & _).
    fold interval in G. rewrite Hinf in G. discriminate G.
  - intros Hinf Hrally H5 H10 Hgate.
    exists (Lib.hit_of L code name sorted (Lib.close last_row)
              (Lib.close first_row)).
    split; [|reflexivity].
    rewrite Heval. f_equal. apply lib_screen_pass, lib_gates_values.
    fold interval pos. rewrite Hinf. repeat split; assumption.
Qed.

Lemma zero_base_close_gives_an_infinity_witness :
  Lib.check_technical_pattern
    (Exact.serve Scenario2.zero_first_close) "600519" "demo"
  = Return None.
Proof.
  destruct (@zero_base_close_gives_an_infinity
              Exact.library exact_arithmetic
              (Exact.serve Scenario2.zero_first_close) "600519" "demo"
              (map Exact.of_daily Scenario2.zero_first_close)
              "akshare"%string
              (Exact.of_daily (Scenario.bar (Fin 0) 6 26 10.2 59))
              (Exact.of_daily (Scenario.bar (Fin 0) 6 26 10.2 0))
              12 eq_refl ltac:(vm_compute; lia)
              ltac:(vm_compute; reflexivity) ltac:(vm_compute; reflexivity)
              ltac:(vm_compute; reflexivity) ltac:(reflexivity)
              ltac:(vm_compute; reflexivity))
    as (_ & Habsent & _).
  apply Habsent. vm_compute. reflexivity.
Defined.

(** ** What a hit tells, over the interface *)

Lemma lib_check_hit (L : Lib.Library) (fm : Lib.fetcher L)
  (code name : string) (hit : Lib.Hit (Lib.cell L)) :
  Lib.check_technical_pattern fm code name = Return (Some hit) ->
  exists df src last_row first_row,
    fm code 250%nat = Return (Some df, src)
    /\ (60 <= length df)%nat
    /\ iloc (Lib.sort_values_date L df) (-1) = Return last_row
    /\ iloc (tail 60 (Lib.sort_values_date L df)) 0 = Return first_row
    /\ Lib.gates_pass L (Lib.sort_values_date L df)
         (Lib.close last_row) (Lib.close first_row)
    /\ hit = Lib.hit_of L code name (Lib.sort_values_date L df)
               (Lib.close last_row) (Lib.close first_row).
Proof.
  intros Hhit.
  destruct (fm code 250%nat) as [[[df|] src]|e] eqn:Hfetch.
  - destruct (Nat.lt_ge_cases (length df) 60) as [Hshort|Hlen].
    + exfalso. revert Hhit.
      unfold Lib.check_technical_pattern, Lib.check_technical_pattern_body.
      rewrite Hfetch. cbn [bind].
      replace (length df <? 60)%nat with true
        by (symmetry; apply Nat.ltb_lt; exact Hshort).
      rewrite orb_true_r. discriminate.
    + destruct (lib_check_eval fm code name Hfetch Hlen)
        as (last_row & first_row & Hlast & Hfirst & Heval).
      exists df, src, last_row, first_row.
      split; [reflexivity|]. repeat (split; [assumption|]).
      rewrite Heval in Hhit. injection Hhit as Hhit.
      apply lib_screen_Some in Hhit. exact Hhit.
  - exfalso. revert Hhit.
    unfold Lib.check_technical_pattern, Lib.check_technical_pattern_body.
    rewrite Hfetch. discriminate.
  - exfalso. revert Hhit.
    unfold Lib.check_technical_pattern, Lib.check_technical_pattern_body.
    rewrite Hfetch. discriminate.
Qed.

(** ** Well-formed bars *)

(** X7. With float64 arithmetic in round-to-nearest, on well-formed bars
    (every fetched bar has numbers for low, close and high, with
    [0 < low <= close <= high]) the two percentages of a hit are numbers
    in range: [position_rank] lies in [0, 50] and [interval_increase] in
    [-100, 50], both ends included. *)
Theorem well_formed_bars_bound_the_percentages
  (L : Lib.Library) (I : Lib.Ieee L) (fm : Lib.fetcher L)
  (code name : string) (df : list (Lib.Bar (Lib.cell L))) (src : string)
  (hit : Lib.Hit (Lib.cell L)) :
  fm code 250%nat = Return (Some df, src) ->
  (forall bar, In bar df ->
     exists l c h,
       Lib.value L (Lib.low bar) = Fin l
       /\ Lib.value L (Lib.close bar) = Fin c
       /\ Lib.value L (Lib.high bar) = Fin h
       /\ 0 < l /\ l <= c /\ c <= h) ->
  Lib.check_technical_pattern fm code name = Return (Some hit) ->
  (exists p, Lib.value L (Lib.position_rank hit) = Fin p
             /\ 0 <= p /\ p <= 50)
  /\ (exists i, Lib.value L (Lib.interval_increase hit) = Fin i
                /\ -100 <= i /\ i <= 50).
Proof.
  intros Hfetch Hwf Hhit.
  destruct (lib_check_hit fm code name Hhit)
    as (df' & src' & last_row & first_row & Hfetch' & Hlen & Hlast & Hfirst
        & G & ->).
  rewrite Hfetch in Hfetch'. injection Hfetch' as <- <-.
  set (sorted := Lib.sort_values_date L df) in *.
  assert (Hwf' : forall bar, In bar sorted ->
     exists l c h,
       Lib.value L (Lib.low bar) = Fin l
       /\ Lib.value L (Lib.close bar) = Fin c
       /\ Lib.value L (Lib.high bar) = Fin h
       /\ 0 < l /\ l <= c /\ c <= h).
  { intros bar Hin. apply Hwf.
    apply (Permutation_in _ (Permutation_sym
                               (Lib.sort_values_permutation L df))), Hin. }
  destruct (@iloc_last_nth _ sorted last_row Hlast) as (Hne & Hnth).
  assert (Hin_last : In last_row sorted) by (eapply nth_error_In, Hnth).
  assert (Hin_first : In first_row sorted).
  { apply In_tail with 60%nat.
    unfold iloc in Hfirst. cbn in Hfirst.
    destruct (tail 60 sorted) as [|r rest]; [discriminate Hfirst|].
    cbn in Hfirst. injection Hfirst as <-. now left. }
  destruct (Hwf' _ Hin_last) as (ll & c & hl & Ell & Ec & Ehl & Hll & Hlc & Hch).
  destruct (Hwf' _ Hin_first) as (l0 & p0 & h0 & El0 & Ep0 & Eh0 & Hl0 & Hlp & Hph).
  destruct G as (_ & Gint & _ & Gpos).
  rewrite gt_lit_0_5 in Gint, Gpos.
  split.
  - (* the position *)
    set (lows := map (@Lib.low _) sorted).
    set (highs := map (@Lib.high _) sorted).
    assert (Hlows : Forall (fun x => exists q, Lib.value L x = Fin q) lows).
    { apply Forall_forall. intros x Hx. apply in_map_iff in Hx.
      destruct Hx as (bar & <- & Hbar).
      destruct (Hwf' _ Hbar) as (l & _ & _ & El & _). now exists l. }
    assert (Hhighs : Forall (fun x => exists q, Lib.value L x = Fin q) highs).
    { apply Forall_forall. intros x Hx. apply in_map_iff in Hx.
      destruct Hx as (bar & <- & Hbar).
      destruct (Hwf' _ Hbar) as (_ & _ & h & _ & _ & Eh & _). now exists h. }
    assert (Hlne : lows <> []) by (unfold lows; destruct sorted; [congruence | discriminate]).
    assert (Hhne : highs <> []) by (unfold highs; destruct sorted; [congruence | discriminate]).
    destruct (Lib.col_min_bounds I Hlne Hlows) as (Hmin_in & Hmin).
    destruct (Lib.col_max_bounds I Hhne Hhighs) as (Hmax_in & Hmax).
    apply in_map_iff in Hmin_in. destruct Hmin_in as (bl & Ebl & Hbl).
    apply in_map_iff in Hmax_in. destruct Hmax_in as (bh & Ebh & Hbh).
    destruct (Hwf' _ Hbl) as (l & _ & _ & El & _ & _ & Hlpos & _).
    destruct (Hwf' _ Hbh) as (lh & ch & h & Elh & _ & Eh & _ & Hlhch & Hchh).
    rewrite Ebl in El. rewrite Ebh in Eh.
    change (Lib.col_min L lows) with (Lib.year_low L sorted) in El, Hmin.
    change (Lib.col_max L highs) with (Lib.year_high L sorted) in Eh, Hmax.
    assert (Hl_c : l <= c).
    { assert (H := Hmin (Lib.low last_row) (in_map _ _ _ Hin_last)).
      rewrite El, Ell in H. cbn in H. apply Qle_bool_iff in H. lra. }
    assert (Hl_h : l <= h).
    { assert (H := Hmin (Lib.low bh) (in_map _ _ _ Hbh)).
      rewrite El, Elh in H. cbn in H. apply Qle_bool_iff in H. lra. }
    assert (Hd1 : exists d,
      Lib.value L (Lib.sub L (Lib.close last_row) (Lib.year_low L sorted))
      = Fin d).
    { rewrite (Lib.sub_rounds I _ _ Ec El).
      destruct (@rnd_between L I 0 (c - l) c 0 c ltac:(lra) ltac:(lra)
                  (rnd_0 I) (Lib.rnd_value I _ Ec)) as (d & Hd & _).
      now exists d. }
    assert (Hd2 : exists d,
      Lib.value L (Lib.sub L (Lib.year_high L sorted) (Lib.year_low L sorted))
      = Fin d).
    { rewrite (Lib.sub_rounds I _ _ Eh El).
      destruct (@rnd_between L I 0 (h - l) h 0 h ltac:(lra) ltac:(lra)
                  (rnd_0 I) (Lib.rnd_value I _ Eh)) as (d & Hd & _).
      now exists d. }
    apply (@lib_position_rank_bounds L I _ _ _ c h l Ec Eh El Hl_c Hl_h
             Hd1 Hd2 Gpos).
  - (* the interval return *)
    cbn [Lib.interval_increase Lib.hit_of].
    revert Gint. unfold Lib.interval_return.
    assert (Hp0 : 0 < p0) by lra.
    destruct (@rnd_between L I (- p0) (c - p0) c (- p0) c
                ltac:(lra) ltac:(lra)
                (Lib.rnd_opposite I _ Ep0) (Lib.rnd_value I _ Ec))
      as (d & Hd & Hdlo & Hdhi).
    assert (Esub : Lib.value L (Lib.sub L (Lib.close last_row)
                                  (Lib.close first_row)) = Fin d)
      by (now rewrite (Lib.sub_rounds I _ _ Ec Ep0)).
    assert (Hnz : ~ p0 == 0) by (intro Hz; rewrite Hz in Hp0; lra).
    rewrite (Lib.div_rounds I _ _ Esub Ep0 Hnz).
    assert (Hq : inject_Z (-1) <= d / p0).
    { apply Qle_shift_div_l; [exact Hp0|].
      change (inject_Z (-1)) with (-1). lra. }
    destruct (@rnd_above L I (inject_Z (-1)) (d / p0) (inject_Z (-1)) Hq
                (Lib.rnd_integer I (-1) ltac:(cbn; lia)))
      as [Einf|(q & Eq & Hq0)].
    { rewrite Einf. discriminate. }
    rewrite Eq. cbn [fgt]. intros Gint. apply Qlt_bool_false_iff in Gint.
    assert (Ediv : Lib.value L (Lib.div L (Lib.sub L (Lib.close last_row)
                                              (Lib.close first_row))
                                  (Lib.close first_row)) = Fin q)
      by (now rewrite (Lib.div_rounds I _ _ Esub Ep0 Hnz)).
    destruct (@percent_bounds L I _ q (-1) ltac:(cbn; lia) Ediv Hq0 Gint)
      as (i & Hi & Hlo & Hhi).
    exists i. split; [exact Hi|]. split; [exact Hlo | exact Hhi].
Qed.

Lemma scenario_B_bars_are_well_formed (bar : Lib.Bar float) :
  In bar (map Exact.of_daily Scenario.B) ->
  exists l c h,
    Lib.low bar = Fin l /\ Lib.close bar = Fin c /\ Lib.high bar = Fin h
    /\ 0 < l /\ l <= c /\ c <= h.
Proof.
  revert bar. apply Forall_forall.
  let bars := eval vm_compute in (map Exact.of_daily Scenario.B) in
    change (map Exact.of_daily Scenario.B) with bars.
  repeat constructor;
    (do 3 eexists; cbn;
     split; [reflexivity|]; split; [reflexivity|]; split; [reflexivity|];
     split; [reflexivity|]; split; discriminate).
Qed.

Lemma well_formed_bars_bound_the_percentages_witness :
  exists hit p i,
    Lib.check_technical_pattern (Exact.serve Scenario.B) "600519" "demo"
      = Return (Some hit)
    /\ Lib.position_rank hit = Fin p /\ 0 <= p /\ p <= 50
    /\ Lib.interval_increase hit = Fin i /\ -100 <= i /\ i <= 50.
Proof.
  eexists.
  destruct (@well_formed_bars_bound_the_percentages
              Exact.library exact_arithmetic
              (Exact.serve Scenario.B) "600519" "demo"
              (map Exact.of_daily Scenario.B)
              "akshare"%string _ eq_refl scenario_B_bars_are_well_formed
              ltac:(vm_compute; reflexivity))
    as ((p & Hp & Hp0 & Hp50) & (i & Hi & Hi0 & Hi50)).
  exists p, i. split; [vm_compute; reflexivity|]. tauto.
Defined.


(** ** More on [filter_basics] *)

Lemma filter_Permutation (A : Type) (f : A -> bool) (l l' : list A) :
  Permutation l l' -> Permutation (filter f l) (filter f l').
Proof.
  induction 1 as [|x l l' _ IH|x y l|l l' l'' _ IH1 _ IH2]; cbn.
  - constructor.
  - destruct (f x); [now constructor | exact IH].
  - destruct (f x), (f y); try apply Permutation_refl. constructor.
  - now apply Permutation_trans with (filter f l').
Qed.

(** X8. [filter_basics] judges each row on its own: the filter of two
    snapshots put end to end is the two filtered snapshots put end to
    end, and reordering the input reorders the output. *)
Theorem filter_basics_is_row_wise (X Y : list QuoteRow.t) :
  exists keptX keptY,
    returned (filter_basics X) = Return keptX
    /\ returned (filter_basics Y) = Return keptY
    /\ returned (filter_basics (X ++ Y)) = Return (keptX ++ keptY)
    /\ (Permutation X Y -> Permutation keptX keptY).
Proof.
  exists (filter passes_basics X), (filter passes_basics Y).
  rewrite !filter_basics_eval. cbn [returned fst].
  repeat split.
  - now rewrite filter_app.
  - apply filter_Permutation.
Qed.

(** X9. The ceilings of [filter_basics] are inclusive and its floor is
    strict: a row priced exactly 20 with a market value of exactly
    20,000,000,000 and a positive PE is kept, a row whose PE is exactly
    0 is dropped. *)
Theorem filter_basics_bounds (df : list QuoteRow.t) (row : QuoteRow.t) :
  In row df ->
  exists kept,
    returned (filter_basics df) = Return kept
    /\ (is_num (QuoteRow.price row) 20 ->
        is_num (QuoteRow.total_mv row) 20000000000 ->
        fgt (QuoteRow.pe row) (Fin 0) = true ->
        In row kept)
    /\ (is_num (QuoteRow.pe row) 0 -> ~ In row kept).
Proof.
  intros Hin. exists (filter passes_basics df).
  rewrite filter_basics_eval. split; [reflexivity|]. split.
  - intros Hp Hmv Hpe. apply filter_In. split; [exact Hin|].
    unfold passes_basics, market_cap_limit. rewrite Hpe.
    destruct (QuoteRow.price row) as [| | |p]; try contradiction.
    destruct (QuoteRow.total_mv row) as [| | |v]; try contradiction.
    cbn in Hp, Hmv |- *. rewrite andb_true_r. apply andb_true_iff. split.
    + apply Qle_bool_iff. rewrite Hp. apply Qle_refl.
    + apply Qle_bool_iff. rewrite Hmv. discriminate.
  - intros Hpe Hkept. apply filter_In in Hkept. destruct Hkept as [_ Hkept].
    unfold passes_basics in Hkept.
    destruct (QuoteRow.pe row) as [| | |q]; try contradiction.
    cbn in Hpe. apply andb_true_iff in Hkept. destruct Hkept as [Hkept _].
    apply andb_true_iff in Hkept. destruct Hkept as [_ Hkept].
    cbn in Hkept. apply Qlt_bool_iff in Hkept. rewrite Hpe in Hkept.
    apply (Qlt_irrefl _ Hkept).
Qed.

Lemma filter_basics_bounds_witness :
  let edge :=
    QuoteRow.mk "600003" "edge" (Fin 20) (Fin 0.1) (Fin 20000000000)
                (Fin 100) (Fin 0) in
  exists kept,
    returned (filter_basics (edge :: Scenario.quotes)) = Return kept
    /\ In edge kept.
Proof.
  intros edge.
  destruct (@filter_basics_bounds (edge :: Scenario.quotes) edge
              (or_introl eq_refl)) as (kept & Hret & Hin & _).
  exists kept. split; [exact Hret|].
  apply Hin; reflexivity.
Defined.

(** ** More on [get_market_snapshot] *)

Lemma snapshot_error_gives_empty (p : Providers) (msg : message) :
  In (ERROR, msg) (written (get_market_snapshot p)) ->
  returned (get_market_snapshot p) = Return [].
Proof.
  rewrite get_market_snapshot_eval.
  destruct (import_packages p); [|reflexivity].
  destruct (stock_zh_a_spot_em p).
  { cbn. intros [H|[H|[]]]; discriminate H. }
  destruct (get_realtime_quotes p); [|reflexivity].
  cbn. intros [H|[H|[H|[]]]]; discriminate H.
Qed.




(** ** More on [run_screen] *)

Lemma In_hits (completed : list future) (hit : ScreenHit.t) :
  In hit (hits completed) <-> In (Return (Some hit)) completed.
Proof.
  unfold hits. rewrite in_flat_map. split.
  - intros (fut & Hfut & Hin).
    destruct fut as [[h|]|e]; try destruct Hin.
    + now subst.
    + contradiction.
  - intros H. exists (Return (Some hit)). split; [exact H | now left].
Qed.

Lemma length_hits (completed : list future) :
  (length (hits completed) <= length completed)%nat.
Proof.
  induction completed as [|fut rest IH]; [apply Nat.le_refl|].
  unfold hits in *. cbn [flat_map]. rewrite length_app.
  destruct fut as [[h|]|e]; cbn [length]; lia.
Qed.

Lemma run_screen_returns (w : World) :
  (forall l, Permutation l (as_completed w l)) ->
  exists df_market log0 results log,
    get_market_snapshot (providers w) = (Return df_market, log0)
    /\ run_screen w = (Return results, log)
    /\ results = if empty df_market then []
                 else hits (as_completed w (submitted w df_market)).
Proof.
  intros Hperm.
  destruct (get_market_snapshot_returns (providers w)) as (df & log0 & E).
  pose proof (run_screen_eval w E Hperm) as Hrun.
  exists df, log0. destruct (empty df).
  - eexists _, _. split; [exact E|]. split; [exact Hrun | reflexivity].
  - destruct Hrun as (progress & _ & Hrun).
    eexists _, _. split; [exact E|]. split; [exact Hrun | reflexivity].
Qed.

(** X12. [run_screen] reports only securities that passed the basic
    filter: each hit is the answer of [check_technical_pattern] for the
    code and name of a snapshot row that [filter_basics] keeps, and
    there are no more hits than such rows. *)
Theorem run_screen_hits_are_candidates (w : World)
  (df_market : list QuoteRow.t) :
  (forall l, Permutation l (as_completed w l)) ->
  returned (get_market_snapshot (providers w)) = Return df_market ->
  exists results,
    returned (run_screen w) = Return results
    /\ (forall hit, In hit results ->
          exists row,
            In row df_market
            /\ passes_basics row = true
            /\ check_technical_pattern (get_daily_data w)
                 (QuoteRow.code row) (QuoteRow.name row) = Return (Some hit)
            /\ ScreenHit.code hit = QuoteRow.code row
            /\ ScreenHit.name hit = QuoteRow.name row)
    /\ (length results <= length (filter passes_basics df_market))%nat
    /\ (length (filter passes_basics df_market) <= length df_market)%nat.
Proof.
  intros Hperm Hsnap.
  destruct (run_screen_returns w Hperm)
    as (df & log0 & results & log & E & Hrun & Hres).
  rewrite E in Hsnap. cbn in Hsnap. injection Hsnap as ->.
  exists results. rewrite Hrun. split; [reflexivity|].
  assert (Hlen : length (submitted w df_market)
                 = length (filter passes_basics df_market))
    by (unfold submitted, candidates; now rewrite !length_map).
  destruct (empty df_market).
  { subst results. split; [intros hit []|]. split; [apply Nat.le_0_l|].
    apply filter_length_le. }
  split; [|split; [|apply filter_length_le]].
  - intros hit Hhit. subst results. apply In_hits in Hhit.
    apply (Permutation_in _ (Permutation_sym (Hperm _))) in Hhit.
    unfold submitted, candidates in Hhit. rewrite map_map in Hhit.
    apply in_map_iff in Hhit. destruct Hhit as (row & Hcheck & Hrow).
    cbn [fst snd] in Hcheck. apply filter_In in Hrow.
    exists row. split; [apply Hrow|]. split; [apply Hrow|].
    split; [exact Hcheck|].
    destruct (check_technical_pattern_hit _ _ _ Hcheck)
      as (d & s & lr & fr & _ & _ & _ & _ & Hscreen).
    apply screen_Some in Hscreen. destruct Hscreen as [_ ->].
    split; reflexivity.
  - subst results. rewrite <- Hlen.
    rewrite (Permutation_length (Hperm (submitted w df_market))).
    apply length_hits.
Qed.

Lemma run_screen_hits_are_candidates_witness :
  exists results,
    returned (run_screen Scenario.all_match) = Return results
    /\ (length results <= 2)%nat.
Proof.
  destruct (@run_screen_hits_are_candidates
              Scenario.all_match Scenario.quotes
              (fun l => Permutation_rev l) eq_refl)
    as (results & Hret & _ & Hlen & _).
  exists results. split; [exact Hret | exact Hlen].
Defined.

(** X13. An ERROR record in the log of [run_screen] means an empty
    result: a run that returns hits has logged no error. *)
Theorem error_logged_means_no_results (w : World) (msg : message) :
  (forall l, Permutation l (as_completed w l)) ->
  In (ERROR, msg) (written (run_screen w)) ->
  returned (run_screen w) = Return [].
Proof.
  intros Hperm Herr.
  destruct (get_market_snapshot_returns (providers w)) as (df & log0 & E).
  pose proof (run_screen_eval w E Hperm) as Hrun.
  destruct (empty df) eqn:Hempty; [now rewrite Hrun|].
  exfalso. destruct Hrun as (progress & Hprog & Hrun).
  rewrite Hrun in Herr. cbn [written snd] in Herr.
  rewrite filter_basics_eval, Hempty in Herr. cbn [written snd] in Herr.
  destruct Herr as [H|H]; [discriminate H|].
  rewrite !in_app_iff in H. cbn [In] in H.
  rewrite Forall_forall in Hprog.
  destruct H as [H|[H|[H|H]]].
  - assert (Hret : returned (get_market_snapshot (providers w)) = Return [])
      by (apply (@snapshot_error_gives_empty _ msg); now rewrite E).
    rewrite E in Hret. cbn in Hret. injection Hret as ->. discriminate Hempty.
  - destruct H as [H|[H|H]]; try discriminate H; contradiction.
  - destruct H as [H|[H|H]]; try discriminate H; contradiction.
  - destruct H as [H|H].
    + destruct (Hprog _ H) as (n & total & Habs). discriminate Habs.
    + destruct H as [H|H]; [discriminate H | contradiction].
Qed.

Lemma error_logged_means_no_results_witness :
  returned (run_screen Scenario.dark_market) = Return [].
Proof.
  apply (@error_logged_means_no_results Scenario.dark_market NoSnapshot
           (fun l => Permutation_rev l)).
  vm_compute. tauto.
Defined.

(** The log of the collecting loop. *)
Lemma progress_marks_step (total processed n : nat) :
  progress_marks total processed (S n)
  = (if (S processed mod 50 =? 0)%nat
     then [(INFO, Progress (S processed) total)] else [])
    ++ progress_marks total (S processed) n.
Proof.
  unfold progress_marks. cbn [seq filter].
  destruct (S processed mod 50 =? 0)%nat; reflexivity.
Qed.

Lemma collect_written (completed : list future) (total processed : nat)
  (results : list ScreenHit.t) :
  Forall (fun fut => exists answer, fut = Return answer) completed ->
  written (collect completed total processed results)
  = progress_marks total processed (length completed).
Proof.
  revert processed results.
  induction completed as [|fut rest IH]; intros processed results Hall.
  - reflexivity.
  - inversion Hall as [|? ? [answer ->] Hrest]; subst.
    cbn [length]. rewrite progress_marks_step. cbn [collect].
    specialize (IH (S processed)
                  (match answer with
                   | Some hit => results ++ [hit]
                   | None => results
                   end) Hrest).
    unfold written in *.
    destruct (S processed mod 50 =? 0)%nat;
      unfold emit, ret, lift; rewrite !lbind_Return; cbn [fst snd app];
      now rewrite IH.
Qed.

(** ** The log of a run *)

Lemma progress_marks_In (n k total : nat) :
  In (INFO, Progress k total) (progress_marks n 0 n)
  <-> total = n /\ (1 <= k <= n)%nat /\ (k mod 50 = 0)%nat.
Proof.
  unfold progress_marks. rewrite in_map_iff. split.
  - intros (j & Hj & Hin). injection Hj as <- <-.
    apply filter_In in Hin. destruct Hin as [Hseq Hmod].
    apply in_seq in Hseq. apply Nat.eqb_eq in Hmod.
    split; [reflexivity|]. split; [lia | exact Hmod].
  - intros (-> & Hk & Hmod). exists k. split; [reflexivity|].
    apply filter_In. split; [apply in_seq; lia | now apply Nat.eqb_eq].
Qed.

Lemma progress_marks_below_50 (n : nat) :
  (n < 50)%nat -> progress_marks n 0 n = [].
Proof.
  intros Hlt. destruct (progress_marks n 0 n) as [|[lvl m] rest] eqn:E;
    [reflexivity|].
  exfalso.
  assert (Hin : In (lvl, m) (progress_marks n 0 n))
    by (rewrite E; now left).
  unfold progress_marks in Hin. apply in_map_iff in Hin.
  destruct Hin as (k & Hk & Hin). injection Hk as <- <-.
  apply filter_In in Hin. destruct Hin as [Hseq Hmod].
  apply in_seq in Hseq. apply Nat.eqb_eq in Hmod.
  assert (k = 0)%nat; [|lia].
  rewrite <- Hmod. symmetry. apply Nat.mod_small. lia.
Qed.

Lemma records_eval (df : Columns.DataFrame) (i_code i_name : nat) :
  Columns.index "code" (Columns.columns df) = Some i_code ->
  Columns.index "name" (Columns.columns df) = Some i_name ->
  Columns.records df
  = Return (combine
              (map (fun row => nth i_code row (Columns.Num NaN))
                   (Columns.rows df))
              (map (fun row => nth i_name row (Columns.Num NaN))
                   (Columns.rows df))).
Proof.
  intros Hc Hn. unfold Columns.records. cbn [filter].
  replace (Columns.has_column "code" df) with true
    by (symmetry; apply has_column_index; eauto).
  replace (Columns.has_column "name" df) with true
    by (symmetry; apply has_column_index; eauto).
  cbn [negb]. unfold Columns.getitem. now rewrite Hc, Hn.
Qed.

(** X14. The log of a run on a snapshot that is not empty and has the
    five columns the run looks up ([price], [pe], [total_mv], [code] and
    [name]), record by record: the start, the records of the snapshot
    stage, the two counts of the filter, the number of candidates, the
    notice, one progress record for each multiple of 50 up to the number
    of candidates (none below 50 candidates), and the number of hits.
    The run returns its hits, no more than there are candidates. *)
Theorem run_screen_log_by_columns (w : Columns.World)
  (df : Columns.DataFrame) :
  let snapshot := Columns.get_market_snapshot (Columns.providers w) in
  (forall l, Permutation l (Columns.as_completed w l)) ->
  returned snapshot = Return df ->
  Columns.empty df = false ->
  (forall c, In c ["price"; "pe"; "total_mv"; "code"; "name"]%string ->
             Columns.has_column c df = true) ->
  exists i_price i_pe i_mv results,
    Columns.index "price" (Columns.columns df) = Some i_price
    /\ Columns.index "pe" (Columns.columns df) = Some i_pe
    /\ Columns.index "total_mv" (Columns.columns df) = Some i_mv
    /\ let n := length (filter (Columns.passes i_price i_pe i_mv)
                          (Columns.rows df)) in
       returned (Columns.run_screen w) = Return results
       /\ (length results <= n)%nat
       /\ written (Columns.run_screen w)
          = (INFO, ScreenStart) :: written snapshot
            ++ [(INFO, FilterBefore (Columns.len df)); (INFO, FilterAfter n);
                (INFO, Candidates n); (INFO, FetchingHistory)]
            ++ progress_marks n 0 n
            ++ [(INFO, ScreenDone (length results))]
       /\ (forall k total,
             In (INFO, Progress k total) (progress_marks n 0 n)
             <-> total = n /\ (1 <= k <= n)%nat /\ (k mod 50 = 0)%nat)
       /\ ((n < 50)%nat -> progress_marks n 0 n = []).
Proof.
  intros snapshot Hperm Hdf Hne Hcols.
  assert (Hnum : forall c, In c Columns.filter_columns ->
            Columns.numeric c df).
  { intros c Hc.
    apply (snapshot_numeric (Columns.providers w)); [exact Hdf| |].
    - unfold Columns.filter_columns, Columns.numeric_cols in *.
      cbn [In] in *. tauto.
    - apply Hcols. unfold Columns.filter_columns in Hc.
      cbn [In] in *. tauto. }
  destruct (Hnum "price"%string ltac:(cbn; tauto)) as (i1 & H1 & N1).
  destruct (Hnum "pe"%string ltac:(cbn; tauto)) as (i2 & H2 & N2).
  destruct (Hnum "total_mv"%string ltac:(cbn; tauto)) as (i3 & H3 & N3).
  destruct (proj1 (has_column_index "code" df)
              (Hcols "code"%string ltac:(cbn; tauto))) as (ic & Hc).
  destruct (proj1 (has_column_index "name" df)
              (Hcols "name"%string ltac:(cbn; tauto))) as (iname & Hname).
  exists i1, i2, i3.
  set (kept := filter (Columns.passes i1 i2 i3) (Columns.rows df)).
  set (candidates :=
         combine (map (fun row => nth ic row (Columns.Num NaN)) kept)
                 (map (fun row => nth iname row (Columns.Num NaN)) kept)).
  assert (Hlen : length candidates = length kept).
  { unfold candidates. rewrite length_combine, !length_map. lia. }
  set (completed := Columns.as_completed w (Columns.submit w candidates)).
  assert (Hall : Forall (fun fut : future =>
                           exists answer, fut = Return answer) completed).
  { apply Forall_forall. intros fut Hin.
    apply (Permutation_in _ (Permutation_sym (Hperm _))) in Hin.
    unfold Columns.submit in Hin. apply in_map_iff in Hin.
    destruct Hin as (stock & <- & _).
    apply check_technical_pattern_returns. }
  assert (Hcompleted : length completed = length kept).
  { unfold completed. rewrite <- (Permutation_length (Hperm _)).
    unfold Columns.submit. now rewrite length_map. }
  destruct (collect_eval (length candidates) 0 [] Hall)
    as (progress & Hcollect & _).
  pose proof (collect_written (length candidates) 0 [] Hall) as Hwritten.
  rewrite Hcollect in Hwritten. cbn [written snd] in Hwritten.
  rewrite Hcompleted, Hlen in Hwritten. subst progress.
  exists (hits completed). split; [exact H1|]. split; [exact H2|].
  split; [exact H3|]. intros n.
  assert (Hrun : Columns.run_screen w
    = (Return (hits completed),
       (INFO, ScreenStart) :: written snapshot
       ++ [(INFO, FilterBefore (Columns.len df)); (INFO, FilterAfter n);
           (INFO, Candidates n); (INFO, FetchingHistory)]
       ++ progress_marks n 0 n
       ++ [(INFO, ScreenDone (length (hits completed)))])).
  { unfold Columns.run_screen. subst snapshot.
    destruct (Columns.get_market_snapshot (Columns.providers w))
      as [r log0].
    cbn [returned fst] in Hdf. subst r. cbn [written snd].
    unfold emit at 1. rewrite !lbind_Return. rewrite Hne.
    rewrite (columns_filter_basics_eval df Hne H1 H2 H3 N1 N2 N3).
    fold kept. rewrite lbind_Return.
    rewrite (@records_eval
               {| Columns.columns := Columns.columns df;
                  Columns.rows := kept |} ic iname Hc Hname).
    cbn [Columns.rows]. fold candidates. unfold lift. rewrite lbind_Return.
    unfold emit at 1. rewrite lbind_Return.
    unfold emit at 1. rewrite lbind_Return.
    fold completed. rewrite Hcollect, lbind_Return.
    unfold emit, ret. rewrite lbind_Return.
    cbn [fst snd app]. rewrite Hlen. fold n. reflexivity. }
  rewrite Hrun. cbn [returned written fst snd].
  split; [reflexivity|]. split.
  { apply Nat.le_trans with (length completed);
      [apply length_hits | now rewrite Hcompleted]. }
  split; [reflexivity|].
  split; [intros k total; apply progress_marks_In |
          apply progress_marks_below_50].
Qed.

Lemma run_screen_log_by_columns_witness :
  written (Columns.run_screen Columns.akshare_up)
  = [(INFO, ScreenStart); (INFO, TryAkShare); (INFO, AkShareOk 3);
     (INFO, FilterBefore 3); (INFO, FilterAfter 1);
     (INFO, Candidates 1); (INFO, FetchingHistory);
     (INFO, ScreenDone 1)].
Proof.
  destruct (@run_screen_log_by_columns Columns.akshare_up
              ltac:(let df := eval vm_compute in
                      (Columns.normalise Columns.read
                         (Columns.rename Columns.akshare_rename_map
                            Columns.akshare_table)) in
                    match df with Return ?d => exact d end)
              (fun l => Permutation_rev l)
              ltac:(vm_compute; reflexivity)
              ltac:(vm_compute; reflexivity)
              ltac:(intros c Hc; cbn [In] in Hc;
                    repeat (destruct Hc as [<-|Hc];
                            [vm_compute; reflexivity|]);
                    destruct Hc))
    as (i1 & i2 & i3 & results & H1 & H2 & H3 & Hret & _ & Hlog & _).
  vm_compute in H1, H2, H3.
  injection H1 as <-. injection H2 as <-. injection H3 as <-.
  vm_compute in Hret. injection Hret as <-.
  rewrite Hlog. vm_compute. reflexivity.
Defined.

(** ** The [__main__] block *)

Lemma count_order_trans :
  Relations_1.Transitive (fun x y => is_true (CountOrder.leb x y)).
Proof.
  intros x y z. unfold is_true, CountOrder.leb. rewrite !Nat.leb_le. lia.
Qed.

(** X15. The [__main__] block prints the heading alone when the run has
    no hit; otherwise it prints the heading and one table holding
    exactly the hits of the run, each as often as the run returned it,
    in non-increasing order of [limit_up_count]. *)
Theorem main_block_prints_sorted_hits (w : World) :
  (forall l, Permutation l (as_completed w l)) ->
  exists results,
    returned (run_screen w) = Return results
    /\ written (main_block w) = written (run_screen w)
    /\ (results = [] -> returned (main_block w) = Return [ResultHeading])
    /\ (results <> [] ->
        exists table,
          returned (main_block w) = Return [ResultHeading; ResultTable table]
          /\ Permutation results table
          /\ StronglySorted
               (fun x y => (ScreenHit.limit_up_count y
                            <= ScreenHit.limit_up_count x)%nat) table).
Proof.
  intros Hperm.
  destruct (run_screen_returns w Hperm)
    as (df & log0 & results & log & _ & Hrun & _).
  exists results. unfold main_block. rewrite Hrun, lbind_Return.
  cbn [returned written fst snd ret]. rewrite app_nil_r.
  split; [reflexivity|]. split; [reflexivity|]. split.
  - intros ->. reflexivity.
  - intros Hne. exists (sort_values_limit_up_count results).
    split; [destruct results; [congruence | reflexivity]|].
    split; [apply CountSort.Permuted_sort|].
    assert (Hs : StronglySorted (fun x y => is_true (CountOrder.leb x y))
                   (sort_values_limit_up_count results))
      by (apply (Sorted_StronglySorted count_order_trans),
                CountSort.Sorted_sort).
    revert Hs. generalize (sort_values_limit_up_count results).
    induction 1 as [|x t _ IH Hall]; constructor; [exact IH|].
    revert Hall. apply Forall_impl. intros y Hy.
    unfold is_true, CountOrder.leb in Hy. now apply Nat.leb_le.
Qed.

Lemma main_block_prints_sorted_hits_witness :
  exists table,
    returned (main_block Scenario.all_match)
      = Return [ResultHeading; ResultTable table]
    /\ length table = 2%nat.
Proof.
  destruct (@main_block_prints_sorted_hits Scenario.all_match
              (fun l => Permutation_rev l))
    as (results & Hres & _ & _ & Htable).
  assert (Hne : results <> []).
  { intros ->. vm_compute in Hres. discriminate Hres. }
  destruct (Htable Hne) as (table & Hret & Hperm & _).
  exists table. split; [exact Hret|].
  rewrite <- (Permutation_length Hperm).
  vm_compute in Hres. injection Hres as <-. reflexivity.
Defined.

(** ** The history script *)

Section FetchLoop.

Variable m : HistoryScript.Manager.

Let returns := HistoryScript.fetch_returns m.
Let has_frame := HistoryScript.fetch_has_frame m.

(** What the loop does to the counter and what it writes. *)
Lemma fetch_loop_trace (target_stocks : list string)
  (results : HistoryScript.dict) (success_count : nat) :
  let '(_, count, trace) :=
    HistoryScript.fetch_loop m target_stocks results success_count in
  count = (success_count + length (filter returns target_stocks))%nat
  /\ map HistoryScript.code_of trace = map Some target_stocks
  /\ length (filter HistoryScript.is_error trace)
     = length (filter (fun code => negb (has_frame code)) target_stocks).
Proof.
  revert results success_count.
  induction target_stocks as [|code rest IH]; intros results success_count.
  - cbn. repeat split. lia.
  - cbn [HistoryScript.fetch_loop filter].
    unfold returns, has_frame,
      HistoryScript.fetch_returns, HistoryScript.fetch_has_frame in *.
    destruct (HistoryScript.get_daily_data m code 30%nat)
      as [[df source]|e].
    + specialize (IH (HistoryScript.dict_set code df results)
                     (S success_count)).
      destruct (HistoryScript.fetch_loop m rest
                  (HistoryScript.dict_set code df results)
                  (S success_count)) as [[results' count] trace].
      destruct IH as (Hcount & Hcodes & Herrors).
      destruct df as [rows|]; cbn; rewrite Hcodes, Herrors;
        repeat split; lia.
    + specialize (IH results success_count).
      destruct (HistoryScript.fetch_loop m rest results success_count)
        as [[results' count] trace].
      destruct IH as (Hcount & Hcodes & Herrors).
      cbn. rewrite Hcodes, Herrors. repeat split; lia.
Qed.

Lemma dict_get_set (key k : string) (value : option (list DailyBar.t))
  (d : HistoryScript.dict) :
  HistoryScript.dict_get k (HistoryScript.dict_set key value d)
  = if String.eqb k key then Some value else HistoryScript.dict_get k d.
Proof.
  induction d as [|[k' v'] rest IH]; cbn.
  - reflexivity.
  - destruct (String.eqb_spec key k') as [->|Hne]; cbn.
    + destruct (String.eqb k k'); reflexivity.
    + rewrite IH. destruct (String.eqb_spec k k') as [->|Hne'];
        [|reflexivity].
      destruct (String.eqb_spec k' key) as [->|_]; [congruence|reflexivity].
Qed.

Lemma dict_set_keys (key : string) (value : option (list DailyBar.t))
  (d : HistoryScript.dict) :
  NoDup (map fst d) ->
  NoDup (map fst (HistoryScript.dict_set key value d))
  /\ (forall k, In k (map fst (HistoryScript.dict_set key value d))
                <-> k = key \/ In k (map fst d)).
Proof.
  induction d as [|[k' v'] rest IH]; cbn; intros Hnd.
  - split; [repeat constructor; intros [] | intros k; intuition].
  - inversion Hnd as [|? ? Hnotin Hnd']; subst.
    destruct (String.eqb_spec key k') as [->|Hne]; cbn.
    + split; [now constructor | intros k; intuition].
    + destruct (IH Hnd') as [Hnd'' Hkeys]. split.
      * constructor; [|exact Hnd'']. rewrite Hkeys. intuition.
      * intros k. rewrite Hkeys. intuition.
Qed.

(** What the loop leaves in the dict. *)
Lemma fetch_loop_results (target_stocks : list string)
  (results : HistoryScript.dict) (success_count : nat) :
  NoDup (map fst results) ->
  let '(results', _, _) :=
    HistoryScript.fetch_loop m target_stocks results success_count in
  NoDup (map fst results')
  /\ (forall code,
        HistoryScript.dict_get code results'
        = if existsb (String.eqb code) target_stocks
          then match HistoryScript.get_daily_data m code 30%nat with
               | Return (df, _) => Some df
               | Raise _ => HistoryScript.dict_get code results
               end
          else HistoryScript.dict_get code results)
  /\ (forall code, In code (map fst results') <->
        In code (map fst results)
        \/ (In code target_stocks /\ returns code = true)).
Proof.
  revert results success_count.
  induction target_stocks as [|code rest IH];
    intros results success_count Hnd.
  - cbn. split; [exact Hnd|]. split; [reflexivity | intros c; tauto].
  - cbn [HistoryScript.fetch_loop existsb].
    unfold returns, HistoryScript.fetch_returns in *.
    destruct (HistoryScript.get_daily_data m code 30%nat)
      as [[df source]|e] eqn:E.
    + destruct (dict_set_keys code df results Hnd) as [Hnd' Hkeys].
      specialize (IH (HistoryScript.dict_set code df results)
                     (S success_count) Hnd').
      destruct (HistoryScript.fetch_loop m rest
                  (HistoryScript.dict_set code df results)
                  (S success_count)) as [[results' count] trace].
      destruct IH as (Hnd'' & Hget & Hin).
      split; [exact Hnd''|]. split.
      * intros c. rewrite Hget, dict_get_set.
        destruct (String.eqb_spec c code) as [->|Hne]; cbn [orb].
        -- rewrite E. now destruct (existsb _ rest).
        -- reflexivity.
      * intros c. rewrite Hin, Hkeys. cbn [In]. split.
        -- intros [[->|H]|[H1 H2]];
             [right; split; [now left | now rewrite E] | tauto | tauto].
        -- intros [H|[[<-|H1] H2]]; [tauto | tauto | tauto].
    + specialize (IH results success_count Hnd).
      destruct (HistoryScript.fetch_loop m rest results success_count)
        as [[results' count] trace].
      destruct IH as (Hnd'' & Hget & Hin).
      split; [exact Hnd''|]. split.
      * intros c. rewrite Hget.
        destruct (String.eqb_spec c code) as [->|Hne]; cbn [orb].
        -- rewrite E. now destruct (existsb _ rest).
        -- reflexivity.
      * intros c. rewrite Hin. cbn [In]. split.
        -- intros [H|[H1 H2]]; tauto.
        -- intros [H|[[<-|H1] H2]]; [tauto | | tauto].
           rewrite E in H2. discriminate H2.
Qed.

End FetchLoop.

Lemma fetch_loop_none_frame (m : HistoryScript.Manager)
  (target_stocks : list string) (results : HistoryScript.dict)
  (success_count : nat) (code src : string) :
  In code target_stocks ->
  HistoryScript.get_daily_data m code 30%nat = Return (None, src) ->
  let '(_, _, trace) :=
    HistoryScript.fetch_loop m target_stocks results success_count in
  In (HistoryScript.Logged ERROR
        (HistoryScript.FetchFailed code HistoryScript.len_of_None)) trace.
Proof.
  revert results success_count.
  induction target_stocks as [|c rest IH];
    intros results success_count Hin Hnone; [destruct Hin|].
  cbn [HistoryScript.fetch_loop].
  destruct Hin as [->|Hin].
  - rewrite Hnone.
    destruct (HistoryScript.fetch_loop m rest _ _) as [[r n] t]. now left.
  - destruct (HistoryScript.get_daily_data m c 30%nat) as [[df source]|e].
    + specialize (IH (HistoryScript.dict_set c df results)
                     (S success_count) Hin Hnone).
      destruct (HistoryScript.fetch_loop m rest _ _) as [[r n] t].
      now right.
    + specialize (IH results success_count Hin Hnone).
      destruct (HistoryScript.fetch_loop m rest _ _) as [[r n] t].
      now right.
Qed.

(** X16. The script stops after one ERROR record when the stock list
    cannot be fetched, without fetching any history.  Otherwise it
    fetches the history of the first five listed codes, in the order of
    the list and one record each, and closes with a summary whose total
    is the number of those codes (at most 5) and whose success count is
    the number of fetches that returned. *)
Theorem script_trace (m : HistoryScript.Manager) :
  (forall e,
     HistoryScript.get_all_stock_list m = Raise e ->
     HistoryScript.main m
     = [HistoryScript.Logged INFO HistoryScript.Rule;
        HistoryScript.Logged INFO HistoryScript.FetchingList;
        HistoryScript.Logged INFO HistoryScript.Rule;
        HistoryScript.Logged ERROR (HistoryScript.ListFailed e)])
  /\ (forall stock_list,
        HistoryScript.get_all_stock_list m = Return stock_list ->
        let target_stocks := firstn 5 (map fst stock_list) in
        exists trace success,
          HistoryScript.main m
          = [HistoryScript.Logged INFO HistoryScript.Rule;
             HistoryScript.Logged INFO HistoryScript.FetchingList;
             HistoryScript.Logged INFO HistoryScript.Rule;
             HistoryScript.Logged INFO
               (HistoryScript.ListOk (length stock_list));
             HistoryScript.PrintedHeading;
             HistoryScript.PrintedHead (firstn 5 stock_list);
             HistoryScript.Logged INFO HistoryScript.RuleAfterBlank;
             HistoryScript.Logged INFO HistoryScript.DemoStart;
             HistoryScript.Logged INFO HistoryScript.Rule]
            ++ trace
            ++ [HistoryScript.Logged INFO
                  (HistoryScript.Summary success (length target_stocks))]
          /\ length target_stocks = Nat.min 5 (length stock_list)
          /\ map HistoryScript.code_of trace = map Some target_stocks
          /\ success
             = length (filter (HistoryScript.fetch_returns m) target_stocks)
          /\ (success <= length target_stocks)%nat).
Proof.
  split.
  - intros e H. unfold HistoryScript.main. now rewrite H.
  - intros stock_list H target_stocks.
    unfold HistoryScript.main. rewrite H. fold target_stocks.
    pose proof (fetch_loop_trace m target_stocks [] 0) as Hloop.
    destruct (HistoryScript.fetch_loop m target_stocks [] 0)
      as [[results count] trace].
    destruct Hloop as (Hcount & Hcodes & _).
    exists trace, count. split; [reflexivity|]. split; [|split; [|split]].
    + unfold target_stocks. now rewrite length_firstn, length_map.
    + exact Hcodes.
    + exact Hcount.
    + rewrite Hcount. apply filter_length_le.
Qed.

Lemma script_trace_witness :
  HistoryScript.main Scenario2.manager_down
  = [HistoryScript.Logged INFO HistoryScript.Rule;
     HistoryScript.Logged INFO HistoryScript.FetchingList;
     HistoryScript.Logged INFO HistoryScript.Rule;
     HistoryScript.Logged ERROR
       (HistoryScript.ListFailed (Exception "no route"))]
  /\ exists trace success,
       map HistoryScript.code_of trace
       = map Some ["600000"; "600001"; "600002"; "600000"]%string
       /\ success = 3%nat.
Proof.
  destruct (script_trace Scenario2.manager_down) as [Hdown _].
  split; [apply Hdown; reflexivity|].
  destruct (script_trace Scenario2.manager) as [_ Hup].
  destruct (Hup Scenario2.stocks eq_refl)
    as (trace & success & _ & _ & Hcodes & Hsuccess & _).
  exists trace, success. split; [exact Hcodes | exact Hsuccess].
Defined.

(** X17. In the loop of the script a fetch that returns no frame
    ([None]) is counted as a success and is also logged as a failure:
    the counter grows by the number of fetches that returned, the ERROR
    records are as many as the fetches that raised or returned no
    frame, and each code fetched with no frame has its ERROR record. *)
Theorem missing_frame_is_counted_and_logged
  (m : HistoryScript.Manager) (target_stocks : list string)
  (results : HistoryScript.dict) (success_count : nat) :
  exists results' count trace,
    HistoryScript.fetch_loop m target_stocks results success_count
    = (results', count, trace)
    /\ count = (success_count
                + length (filter (HistoryScript.fetch_returns m)
                                 target_stocks))%nat
    /\ length (filter HistoryScript.is_error trace)
       = length (filter (fun code =>
                           negb (HistoryScript.fetch_has_frame m code))
                        target_stocks)
    /\ (forall code src,
          In code target_stocks ->
          HistoryScript.get_daily_data m code 30%nat = Return (None, src) ->
          HistoryScript.fetch_returns m code = true
          /\ In (HistoryScript.Logged ERROR
                   (HistoryScript.FetchFailed code HistoryScript.len_of_None))
                trace).
Proof.
  pose proof (fetch_loop_trace m target_stocks results success_count) as Ht.
  pose proof (fun code src =>
                @fetch_loop_none_frame m target_stocks results success_count
                  code src) as Hn.
  destruct (HistoryScript.fetch_loop m target_stocks results success_count)
    as [[results' count] trace].
  destruct Ht as (Hcount & _ & Herrors).
  exists results', count, trace.
  split; [reflexivity|]. split; [exact Hcount|]. split; [exact Herrors|].
  intros code src Hin Hnone. split.
  - unfold HistoryScript.fetch_returns. now rewrite Hnone.
  - apply (Hn code src Hin Hnone).
Qed.

Lemma missing_frame_is_counted_and_logged_witness :
  exists results' trace,
    HistoryScript.fetch_loop Scenario2.manager
      ["600000"; "600001"; "600002"]%string [] 0
    = (results', 2%nat, trace)
    /\ length (filter HistoryScript.is_error trace) = 2%nat.
Proof.
  destruct (missing_frame_is_counted_and_logged Scenario2.manager
              ["600000"; "600001"; "600002"]%string [] 0)
    as (results' & count & trace & Hloop & Hcount & Herrors & _).
  exists results', trace. split.
  - rewrite Hloop, Hcount. reflexivity.
  - rewrite Herrors. reflexivity.
Defined.

(** X18. The dict [results] of the script, started empty, ends with one
    entry for each distinct code whose fetch returned, holding the
    frame that was returned (possibly [None]); so it never has more
    entries than the success counter counts. *)
Theorem script_results_dict
  (m : HistoryScript.Manager) (target_stocks : list string) :
  exists results count trace,
    HistoryScript.fetch_loop m target_stocks [] 0 = (results, count, trace)
    /\ NoDup (map fst results)
    /\ (forall code df,
          HistoryScript.dict_get code results = Some df
          <-> In code target_stocks
              /\ exists src,
                   HistoryScript.get_daily_data m code 30%nat
                   = Return (df, src))
    /\ (length results <= count)%nat.
Proof.
  pose proof (fetch_loop_trace m target_stocks [] 0) as Ht.
  pose proof (fetch_loop_results m target_stocks [] 0 (NoDup_nil _)) as Hr.
  destruct (HistoryScript.fetch_loop m target_stocks [] 0)
    as [[results count] trace].
  destruct Ht as (Hcount & _ & _). destruct Hr as (Hnd & Hget & Hkeys).
  exists results, count, trace.
  split; [reflexivity|]. split; [exact Hnd|]. split.
  - intros code df. rewrite Hget. cbn [HistoryScript.dict_get].
    destruct (existsb (String.eqb code) target_stocks) eqn:E.
    + apply existsb_exists in E. destruct E as (c & Hc & Heq).
      apply String.eqb_eq in Heq. subst c.
      destruct (HistoryScript.get_daily_data m code 30%nat)
        as [[df' src]|e].
      * split.
        -- intros H. injection H as <-. split; [exact Hc | eauto].
        -- intros [_ [src' H]]. injection H as <- _. reflexivity.
      * split; [discriminate | intros [_ [src' H]]; discriminate H].
    + split; [discriminate|]. intros [Hin _]. exfalso.
      assert (Hex : existsb (String.eqb code) target_stocks = true).
      { apply existsb_exists. exists code. split; [exact Hin|].
        apply String.eqb_refl. }
      congruence.
  - rewrite Hcount. cbn [Nat.add]. rewrite <- (length_map fst results).
    apply NoDup_incl_length; [exact Hnd|].
    intros code Hcode. apply Hkeys in Hcode.
    destruct Hcode as [[]|[Hin Hret]]. apply filter_In. now split.
Qed.

Lemma script_results_dict_witness :
  exists results trace,
    HistoryScript.fetch_loop Scenario2.manager
      (firstn 5 (map fst Scenario2.stocks)) [] 0
    = (results, 3%nat, trace)
    /\ length results = 2%nat
    /\ HistoryScript.dict_get "600001" results = Some None.
Proof.
  destruct (script_results_dict Scenario2.manager
              (firstn 5 (map fst Scenario2.stocks)))
    as (results & count & trace & Hloop & _ & Hget & _).
  exists results, trace.
  assert (Hmid : HistoryScript.dict_get "600001" results = Some None).
  { apply Hget. split; [vm_compute; tauto|].
    exists "akshare"%string. reflexivity. }
  vm_compute in Hloop. injection Hloop as <- <- <-.
  repeat split.
Defined.
